(** * AndroPrint: printer registry, client gate, liveness probe and print dispatch

    The repository ships four variants of the server:
    - [Final]     : src/server.js            (printers.json, [authCheck])
    - [Stable]    : src/unnamed/part_000     ([safeRead], [authRequired], probe on close)
    - [Core]      : src/core/server.js, first program  (auto mode print, [printInvoice])
    - [EnvServer] : src/core/server.js, second program (printer.env, [rawPrint])

    Each request handler is embedded as a function from what it reads (the
    loaded collection, the request) to the response it sends together with
    what it hands to the persistence or transport layer. *)

From Stdlib Require Import ZArith String Ascii SpecFloat.
From stdpp Require Import gmap strings list fin_maps.

Local Open Scope string_scope.
Local Open Scope list_scope.
Local Open Scope Z_scope.

(** ** JavaScript helpers *)

(** [Array.prototype.find]: the first element satisfying the predicate. *)
Definition js_find {A} (P : A → Prop) `{∀ x, Decision (P x)} (l : list A) : option A :=
  snd <$> list_find P l.

(** [Array.prototype.findIndex]: the index of that element, -1 when there is none. *)
Definition js_findIndex {A} (P : A → Prop) `{∀ x, Decision (P x)} (l : list A) : Z :=
  match list_find P l with
  | Some (i, _) => Z.of_nat i
  | None => -1
  end.

(** [arr[i] = x] for an index returned by [findIndex] on the same array. *)
Definition js_set_index {A} (l : list A) (i : Z) (x : A) : list A :=
  <[Z.to_nat i := x]> l.

(** A request header: [None] when the header is not sent. [!h] holds for a
    header that is missing or empty. *)
Definition header_falsy (h : option string) : bool :=
  match h with
  | None => true
  | Some s => bool_decide (s = "")
  end.

(** ** Strings

    A string is the UTF-8 text of the JavaScript string: equality, joining
    and cutting at an ASCII character are the same on both. The methods of
    [String.prototype] whose result depends on the characters are computed
    here on strings of ASCII characters, where a character is a byte, and are
    left to the runtime ([JsRuntime], below) on every other string. *)
Fixpoint is_ascii (s : string) : bool :=
  match s with
  | String c rest => (nat_of_ascii c <? 128)%nat && is_ascii rest
  | EmptyString => true
  end.

(** The ASCII white space and line terminators [trim] removes. *)
Definition js_space (c : ascii) : bool :=
  let n := nat_of_ascii c in
  ((9 <=? n)%nat && (n <=? 13)%nat) || (n =? 32)%nat.

Fixpoint trim_start (s : string) : string :=
  match s with
  | String c rest => if js_space c then trim_start rest else s
  | EmptyString => EmptyString
  end.

Definition trim_ascii (s : string) : string :=
  String.rev (trim_start (String.rev (trim_start s))).

Definition lower_char (c : ascii) : ascii :=
  let n := nat_of_ascii c in
  if ((65 <=? n)%nat && (n <=? 90)%nat) then ascii_of_nat (n + 32) else c.

Fixpoint lower_ascii (s : string) : string :=
  match s with
  | String c rest => String (lower_char c) (lower_ascii rest)
  | EmptyString => EmptyString
  end.

Definition upper_char (c : ascii) : ascii :=
  let n := nat_of_ascii c in
  if ((97 <=? n)%nat && (n <=? 122)%nat) then ascii_of_nat (n - 32) else c.

Fixpoint upper_ascii (s : string) : string :=
  match s with
  | String c rest => String (upper_char c) (upper_ascii rest)
  | EmptyString => EmptyString
  end.

(** Decimal digits of a non-negative integer, as [Number.prototype.toString]
    prints an integer below 2^53. *)
Definition digit_char (d : Z) : ascii := ascii_of_nat (48 + Z.to_nat d).

Fixpoint decimal_fuel (fuel : nat) (n : Z) : string :=
  match fuel with
  | O => ""
  | S f =>
      if n <? 10 then String (digit_char n) ""
      else decimal_fuel f (n / 10) +:+ String (digit_char (n mod 10)) ""
  end.

Definition decimal (n : Z) : string :=
  decimal_fuel (S (Z.to_nat (Z.log2 n))) n.

(** An exception thrown out of a function, as opposed to a value returned. *)
Inductive Outcome (A : Type) :=
| Returned (a : A)
| Threw (e : string).
Arguments Returned {A} a.
Arguments Threw {A} e.

(** ** Persisted documents *)

(** A file is absent ([None]) or holds text. *)
Definition File := option string.

#[warnings="-register-all"]
Inductive Json :=
| JsonNull
| JsonBool (b : bool)
| JsonNum (x : spec_float)
| JsonStr (s : string)
| JsonArr (items : list Json)
| JsonObj (fields : list (string * Json)).

(** [v.key]: reading a property of [null] throws, a missing property and a
    property of a non-object read [undefined] ([None]). *)
Definition get_prop (v : Json) (key : string) : Outcome (option Json) :=
  match v with
  | JsonNull => Threw "TypeError"
  | JsonObj fields => Returned (snd <$> js_find (λ kv, fst kv = key) fields)
  | _ => Returned None
  end.

(** ** Responses *)

Inductive JV :=
| JVStr (s : string)
| JVBool (b : bool).

Inductive Body :=
| BJson (fields : list (string * JV))
| BText (s : string).

Record Response := mkResponse { status : Z; body : Body }.

(** [res.json(o)] answers with status 200, [res.status(n).json(o)] with [n]. *)
Definition json (o : list (string * JV)) : Response := mkResponse 200 (BJson o).
Definition status_json (n : Z) (o : list (string * JV)) : Response := mkResponse n (BJson o).
Definition error_json (n : Z) (msg : string) : Response := status_json n [("error", JVStr msg)].

(** ** Data model *)

Module Printer.
Record connection_t := mkConnection { ip : string; port : Z }.
Record t := mk {
  id : string;
  name : option string;
  role : string;
  connection : connection_t;
  enabled : bool
}.
End Printer.

Module Client.
(** [enabled], [role] and [createdAt] are absent from the records of the
    in-memory variant, which stores [{ id, pin }] only. *)
Record t := mk {
  id : string;
  pin : string;
  role : option string;
  enabled : option bool;
  createdAt : option string
}.
Definition truthy_enabled (c : t) : bool :=
  match enabled c with Some b => b | None => false end.
End Client.

(** The outcome of the authentication step in front of a handler: the handler
    runs ([Pass], with the client attached to the request if any) or the
    response has been sent ([Deny]). *)
Inductive Gate :=
| Pass (client : option Client.t)
| Deny (r : Response).

(** What a handler hands to [savePrinters] or [saveClients]: [None] when it
    returns before the call. *)
Definition Write (A : Type) := option A.

(** The array the next request works on in src/server.js and part_000: the
    one handed to [savePrinters], which the file holds as JSON, or the one
    read before when nothing was written. *)
Definition persisted {A R} (before : A) (r : R * Write A) : A :=
  default before (snd r).

(** ** Primitive values of a request body *)

Inductive Prim :=
| PUndefined
| PNull
| PBool (b : bool)
| PNum (x : spec_float)
| PStr (s : string).

(** Doubles are [spec_float]s of precision 53. *)
Definition double_of_Z (n : Z) : spec_float := binary_normalize 53 1024 n 0 false.

Definition truthy (v : Prim) : bool :=
  match v with
  | PUndefined | PNull => false
  | PBool b => b
  | PNum (S754_zero _) | PNum S754_nan => false
  | PNum _ => true
  | PStr s => negb (bool_decide (s = ""))
  end.

(** [a || b] and [a ?? b]. *)
Definition js_or (a b : Prim) : Prim := if truthy a then a else b.

Definition js_nullish (a b : Prim) : Prim :=
  match a with
  | PUndefined | PNull => b
  | _ => a
  end.

(** The integer a finite double [m * 2^e] is, when it is one. *)
Definition integer_value (m : positive) (e : Z) : option Z :=
  if 0 <=? e then Some (Z.pos m * 2 ^ e)
  else if Z.pos m mod 2 ^ (- e) =? 0 then Some (Z.pos m / 2 ^ (- e))
  else None.

(** Functions of the JavaScript runtime that the handlers call and the
    repository does not define: [JSON.parse] ([None] when it throws a
    SyntaxError), the conversion of a string to a number,
    [Number.prototype.toString] on the numbers [number_to_string] below does
    not print itself, and [trim], [toLowerCase], [toUpperCase] and
    [substring(from, to)] on the strings that hold a character outside
    ASCII. *)
Class JsRuntime := {
  JSON_parse : string → option Json;
  StringToNumber : string → spec_float;
  NumberToString_other : spec_float → string;
  trim_other : string → string;
  toLowerCase_other : string → string;
  toUpperCase_other : string → string;
  substring_other : nat → nat → string → string
}.

Section Conversions.
Context {rt : JsRuntime}.

(** [s.trim()], [s.toLowerCase()], [s.toUpperCase()] and
    [s.substring(from, to)] for [from ≤ to]. *)
Definition js_trim (s : string) : string :=
  if is_ascii s then trim_ascii s else trim_other s.

Definition toLowerCase (s : string) : string :=
  if is_ascii s then lower_ascii s else toLowerCase_other s.

Definition toUpperCase (s : string) : string :=
  if is_ascii s then upper_ascii s else toUpperCase_other s.

Definition js_substring (from to : nat) (s : string) : string :=
  if is_ascii s then substring from (to - from) s else substring_other from to s.

(** [Number.prototype.toString]: integers below 2^53 print their digits. *)
Definition number_to_string (x : spec_float) : string :=
  match x with
  | S754_zero _ => "0"
  | S754_nan => "NaN"
  | S754_infinity s => if s then "-Infinity" else "Infinity"
  | S754_finite s m e =>
      match integer_value m e with
      | Some n =>
          if n <? 2 ^ 53 then (if s then "-" else "") +:+ decimal n
          else NumberToString_other x
      | None => NumberToString_other x
      end
  end.

(** [String(v)], also the conversion [+] applies to a primitive operand. *)
Definition js_String (v : Prim) : string :=
  match v with
  | PUndefined => "undefined"
  | PNull => "null"
  | PBool b => if b then "true" else "false"
  | PNum x => number_to_string x
  | PStr s => s
  end.

(** [Number(v)]. *)
Definition js_Number (v : Prim) : spec_float :=
  match v with
  | PUndefined => S754_nan
  | PNull => S754_zero false
  | PBool b => if b then double_of_Z 1 else S754_zero false
  | PNum x => x
  | PStr s => StringToNumber s
  end.

(** [x.toFixed(2)]: below 10^21 the integer [n] closest to [100 * |x|]
    (the larger one of two) is printed with a point before its last two
    digits, after zeros added in front to make three. *)
Definition hundredths (m : positive) (e : Z) : Z :=
  if 0 <=? e then 100 * Z.pos m * 2 ^ e
  else (200 * Z.pos m + 2 ^ (- e)) / 2 ^ (- e + 1).

Definition at_least_1e21 (m : positive) (e : Z) : bool :=
  if 0 <=? e then 10 ^ 21 <=? Z.pos m * 2 ^ e
  else 10 ^ 21 * 2 ^ (- e) <=? Z.pos m.

Definition fixed2_digits (n : Z) : string :=
  decimal (n / 100) +:+ "." +:+
  String (digit_char (n / 10 mod 10)) (String (digit_char (n mod 10)) "").

Definition toFixed2 (x : spec_float) : string :=
  match x with
  | S754_zero _ => fixed2_digits 0
  | S754_nan => "NaN"
  | S754_infinity s => if s then "-Infinity" else "Infinity"
  | S754_finite s m e =>
      (if s then "-" else "") +:+
      (if at_least_1e21 m e then number_to_string (S754_finite false m e)
       else fixed2_digits (hundredths m e))
  end.

(** [Math.floor(x)] as an integer, for a finite [x], and
    [Math.floor(x).toString()]. *)
Definition Math_floor (x : spec_float) : option Z :=
  match x with
  | S754_zero _ => Some 0
  | S754_finite s m e =>
      Some (if 0 <=? e then (if s then - (Z.pos m * 2 ^ e) else Z.pos m * 2 ^ e)
            else if s then - ((Z.pos m + 2 ^ (- e) - 1) / 2 ^ (- e))
            else Z.pos m / 2 ^ (- e))
  | _ => None
  end.

Definition floor_to_string (x : spec_float) : string :=
  match Math_floor x with
  | Some n =>
      if Z.abs n <? 2 ^ 53 then (if n <? 0 then "-" else "") +:+ decimal (Z.abs n)
      else number_to_string x
  | None => number_to_string x
  end.

(** [Math.floor(100000 + Math.random() * 900000).toString()] of both
    registration handlers: [random] is the double [Math.random()] returned,
    the product and the sum are rounded to doubles. *)
Definition pin_double (random : spec_float) : spec_float :=
  SFadd 53 1024 (double_of_Z 100000) (SFmul 53 1024 random (double_of_Z 900000)).

Definition pin_text (random : spec_float) : string :=
  floor_to_string (pin_double random).

End Conversions.

(** ** Printer commands and transport *)

Inductive Align := LEFT | CENTER | RIGHT.

Record Cell := mkCell { text : string; cols : Z; align : option Align }.

Inductive Command :=
| AlignCenter
| AlignLeft
| AlignRight
| Bold (on : bool)
| Println (line : string)
| DrawLine
| NewLine
| TableCustom (cells : list Cell)
| Cut.

(** What [await printer.execute()] does: it resolves, or it rejects with an
    error (connection error, time-out of the device). *)
Inductive ExecOutcome :=
| Executed
| ExecFailed (message : string).

(** A buffer handed to [execute()] for the printer at [target]. *)
Record Attempt := mkAttempt { target : Printer.connection_t; buffer : list Command }.

(** ** Sockets of the liveness probe

    A probe registers listeners on a [net.Socket] and settles a promise from
    them. The socket side follows Node: a destroyed socket emits [close] once
    and nothing after it; after [error] Node destroys the socket itself; after
    [timeout] it does not. A promise keeps the value of the first [resolve]. *)

Module Socket.

Inductive event := connect | error | timeout | close.

Record state := mk {
  online : bool;              (* the variable [online] of the closure *)
  armed : list event;         (* [once] listeners that have not run yet *)
  destroyed : bool;
  closed : bool;
  promise : option bool;
  resolve_calls : nat
}.

Definition resolve (b : bool) (st : state) : state :=
  mk (online st) (armed st) (destroyed st) (closed st)
     (match promise st with Some v => Some v | None => Some b end)
     (S (resolve_calls st)).

Definition destroy (st : state) : state :=
  mk (online st) (armed st) true (closed st) (promise st) (resolve_calls st).

Definition set_online (b : bool) (st : state) : state :=
  mk b (armed st) (destroyed st) (closed st) (promise st) (resolve_calls st).

Definition set_closed (st : state) : state :=
  mk (online st) (armed st) (destroyed st) true (promise st) (resolve_calls st).

Global Instance event_eq_dec : EqDecision event := ltac:(solve_decision).

(** [socket.once(ev, f)]: [f] runs at the first [ev] only. *)
Definition once (ev : event) (f : state → state) (st : state) : state :=
  if bool_decide (ev ∈ armed st)
  then f (mk (online st) (filter (λ e, e ≠ ev) (armed st)) (destroyed st)
             (closed st) (promise st) (resolve_calls st))
  else st.

(** Node emits [ev] on the socket whose listeners are [listener]. *)
Definition emit (listener : event → state → state) (ev : event) (st : state) : state :=
  if closed st then st
  else
    let st1 := listener ev st in
    let st2 := match ev with error => destroy st1 | _ => st1 end in
    if destroyed st2 then listener close (set_closed st2) else st2.

(** What the connection attempt meets, in order of occurrence, and the
    event Node emits for it. *)
Inductive happening := Handshake | Refused | Unreachable | Idle.

Global Instance happening_eq_dec : EqDecision happening := ltac:(solve_decision).

Definition event_of (h : happening) : event :=
  match h with
  | Handshake => connect
  | Refused | Unreachable => error
  | Idle => timeout
  end.

Definition run (listener : event → state → state) (hs : list happening) (st : state) : state :=
  foldl (λ st h, emit listener (event_of h) st) st hs.

Definition fresh (once_events : list event) : state :=
  mk false once_events false false None 0.

End Socket.

(** ** src/server.js *)

Module Final.

(** [readPrinters] and [readClients]: no guard around the read or the parse. *)
Definition readPrinters {rt : JsRuntime} (file : File) : Outcome (option Json) :=
  match file with
  | None => Threw "ENOENT"
  | Some content =>
      match JSON_parse content with
      | None => Threw "SyntaxError"
      | Some doc => get_prop doc "printers"
      end
  end.

Definition readClients {rt : JsRuntime} (file : File) : Outcome (option Json) :=
  match file with
  | None => Threw "ENOENT"
  | Some content =>
      match JSON_parse content with
      | None => Threw "SyntaxError"
      | Some doc => get_prop doc "clients"
      end
  end.

(** [authCheck], on the array [readClients()] returned. *)
Definition authCheck (ENABLE_CLIENT_AUTH : bool) (clients : list Client.t)
    (id key : option string) : Gate :=
  if negb ENABLE_CLIENT_AUTH then Pass None
  else
    match js_find (λ c, Some (Client.id c) = id ∧ Some (Client.pin c) = key
                        ∧ Client.truthy_enabled c) clients with
    | Some _ => Pass None
    | None => Deny (error_json 401 "Unauthorized")
    end.

Definition getPrinter (printers : list Printer.t) (printerId : option string)
  : option Printer.t :=
  js_find (λ p, Some (Printer.id p) = printerId ∧ Printer.enabled p) printers.

(** [app.post("/api/printer/save")], on the array [readPrinters()] returned. *)
Definition printer_save (printers : list Printer.t) (p : Printer.t)
  : Response * Write (list Printer.t) :=
  let cash := length (filter (λ x, Printer.role x = "CASHIER") printers) in
  let kit := length (filter (λ x, Printer.role x = "KITCHEN") printers) in
  match js_find (λ x, Printer.id x = Printer.id p) printers with
  | None =>
      if bool_decide (Printer.role p = "CASHIER") && bool_decide (3 ≤ cash)%nat
      then (error_json 400 "Max Cashier printers reached", None)
      else if bool_decide (Printer.role p = "KITCHEN") && bool_decide (3 ≤ kit)%nat
      then (error_json 400 "Max Kitchen printers reached", None)
      else (json [("success", JVBool true)], Some (printers ++ [p]))
  | Some _ =>
      let i := js_findIndex (λ x, Printer.id x = Printer.id p) printers in
      (json [("success", JVBool true)], Some (js_set_index printers i p))
  end.

(** [app.post("/api/printer/delete")]. *)
Definition printer_delete (printers : list Printer.t) (id : string)
  : Response * Write (list Printer.t) :=
  (json [("success", JVBool true)],
   Some (filter (λ p, Printer.id p ≠ id) printers)).

(** [app.post("/print")]: [text] is [req.body.text]. *)
Definition print (ENABLE_CLIENT_AUTH : bool) (clients : list Client.t)
    (printers : list Printer.t) (cid key printerId : option string)
    (text : option string) (exec : ExecOutcome) : Response * list Attempt :=
  match authCheck ENABLE_CLIENT_AUTH clients cid key with
  | Deny r => (r, [])
  | Pass _ =>
      match getPrinter printers printerId with
      | None => (error_json 404 "Printer not found", [])
      | Some printer =>
          let job := [Println (default "" text); Cut] in
          let sent := [mkAttempt (Printer.connection printer) job] in
          match exec with
          | Executed => (json [("success", JVBool true)], sent)
          | ExecFailed message => (error_json 500 message, sent)
          end
      end
  end.

End Final.

(** ** src/unnamed/part_000 *)

Module Stable.

Definition safeRead {rt : JsRuntime} (file : File) (fallback : Json) : Json :=
  match file with
  | None => fallback
  | Some content =>
      let raw := js_trim content in
      if bool_decide (raw = "") then fallback
      else match JSON_parse raw with
           | Some doc => doc
           | None => fallback
           end
  end.

Definition loadPrinters {rt : JsRuntime} (file : File) : Outcome (option Json) :=
  get_prop (safeRead file (JsonObj [("printers", JsonArr [])])) "printers".

Definition loadClients {rt : JsRuntime} (file : File) : Outcome (option Json) :=
  get_prop (safeRead file (JsonObj [("clients", JsonArr [])])) "clients".

(** [authRequired], on the array [loadClients()] returned. *)
Definition authRequired (ENABLE_AUTH : bool) (clients : list Client.t)
    (cid key : option string) : Gate :=
  if negb ENABLE_AUTH then Pass None
  else if header_falsy cid || header_falsy key
  then Deny (error_json 401 "Client ID / Print Key missing")
  else
    match js_find (λ c, Some (Client.id c) = cid) clients with
    | None => Deny (error_json 403 "Client not allowed")
    | Some client =>
        if negb (Client.truthy_enabled client)
        then Deny (error_json 403 "Client not allowed")
        else if bool_decide (Some (Client.pin client) ≠ key)
        then Deny (error_json 403 "Invalid Print Key")
        else Pass (Some client)
    end.

(** The listeners [isPrinterOnline] registers: the connect callback, and
    [on("error")], [on("timeout")], [on("close")]. *)
Definition isPrinterOnline_listener (ev : Socket.event) (st : Socket.state) : Socket.state :=
  match ev with
  | Socket.connect => Socket.destroy (Socket.set_online true st)
  | Socket.error => st
  | Socket.timeout => Socket.destroy st
  | Socket.close => Socket.resolve (Socket.online st) st
  end.

(** The probe, for what the connection attempt meets. *)
Definition isPrinterOnline (hs : list Socket.happening) : Socket.state :=
  Socket.run isPrinterOnline_listener hs (Socket.fresh []).

Definition printText (printer : Printer.t) (text : string) : Attempt :=
  mkAttempt (Printer.connection printer) [Println text; Cut].

(** [app.post("/api/client/create")]: [random_hex] is
    [crypto.randomBytes(3).toString("hex")], [random] is [Math.random()],
    [now] is the ISO time stamp. *)
Definition client_create {rt : JsRuntime} (clients : list Client.t) (random_hex : string)
    (random : spec_float) (now : string) : Response * Write (list Client.t) :=
  let id := "clt-" +:+ random_hex in
  let pin := pin_text random in
  let client := Client.mk id pin (Some "CLIENT") (Some true) (Some now) in
  (json [("id", JVStr id); ("pin", JVStr pin); ("role", JVStr "CLIENT");
         ("enabled", JVBool true); ("createdAt", JVStr now)],
   Some (clients ++ [client])).

(** [app.post("/api/printer/save")], after the [authRequired] middleware. *)
Definition printer_save (printers : list Printer.t) (p : Printer.t)
  : Response * Write (list Printer.t) :=
  let index := js_findIndex (λ x, Printer.id x = Printer.id p) printers in
  (json [("success", JVBool true)],
   Some (if bool_decide (0 ≤ index) then js_set_index printers index p
         else printers ++ [p])).

Definition printer_delete (printers : list Printer.t) (id : string)
  : Response * Write (list Printer.t) :=
  (json [("success", JVBool true)],
   Some (filter (λ p, Printer.id p ≠ id) printers)).

(** [app.post("/print")], after the [authRequired] middleware:
    [header_id] is the [x-printer-id] header, [body_id] and [text] are
    [req.body.printerId] and [req.body.text]. *)
Definition print (printers : list Printer.t) (header_id body_id text : option string)
    (exec : ExecOutcome) : Response * list Attempt :=
  let printerId := if header_falsy header_id then body_id else header_id in
  if header_falsy printerId || header_falsy text
  then (error_json 400 "printerId or text missing", [])
  else
    match js_find (λ p, Some (Printer.id p) = printerId ∧ Printer.enabled p) printers with
    | None => (error_json 404 "Printer not found or disabled", [])
    | Some printer =>
        let sent := [printText printer (default "" text)] in
        match exec with
        | Executed =>
            (json [("success", JVBool true);
                   ("message", JVStr "Printed successfully");
                   ("printerId", JVStr (default "" printerId))], sent)
        | ExecFailed message => (error_json 500 message, sent)
        end
    end.

End Stable.

(** ** src/core/server.js, first program *)

Module Core.

Definition safeRead {rt : JsRuntime} (file : File) (fallback : Json) : Json :=
  match file with
  | None => fallback
  | Some content =>
      match JSON_parse content with
      | Some doc => doc
      | None => fallback
      end
  end.

(** [data.printers || []]. *)
Definition loadPrinters {rt : JsRuntime} (file : File) : Outcome Json :=
  match get_prop (safeRead file (JsonObj [("printers", JsonArr [])])) "printers" with
  | Threw e => Threw e
  | Returned None | Returned (Some JsonNull) | Returned (Some (JsonBool false))
  | Returned (Some (JsonStr "")) => Returned (JsonArr [])
  | Returned (Some (JsonNum x)) =>
      Returned (if truthy (PNum x) then JsonNum x else JsonArr [])
  | Returned (Some v) => Returned v
  end.

Definition loadClients {rt : JsRuntime} (file : File) : Json :=
  safeRead file (JsonArr []).

Definition authRequired (ENABLE_AUTH : bool) (clients : list Client.t)
    (id key : option string) : Gate :=
  if negb ENABLE_AUTH then Pass None
  else if header_falsy id || header_falsy key
  then Deny (error_json 401 "Client auth required")
  else
    match js_find (λ c, Some (Client.id c) = id ∧ Some (Client.pin c) = key
                        ∧ Client.truthy_enabled c) clients with
    | None => Deny (error_json 403 "Invalid client")
    | Some _ => Pass None
    end.

(** The listeners [isPrinterOnline] registers, all with [once]. *)
Definition isPrinterOnline_listener (ev : Socket.event) (st : Socket.state) : Socket.state :=
  match ev with
  | Socket.connect =>
      Socket.once Socket.connect (λ st, Socket.resolve true (Socket.destroy st)) st
  | Socket.error => Socket.once Socket.error (Socket.resolve false) st
  | Socket.timeout => Socket.once Socket.timeout (Socket.resolve false) st
  | Socket.close => st
  end.

Definition isPrinterOnline (hs : list Socket.happening) : Socket.state :=
  Socket.run isPrinterOnline_listener hs
    (Socket.fresh [Socket.connect; Socket.error; Socket.timeout]).

(** The invoice payload: absent objects read as objects without fields,
    absent arrays as empty ones. *)
Record Company := mkCompany { Name : Prim; Place : Prim; Ph : Prim; gst : Prim }.

Record Master := mkMaster {
  BillNo : Prim; BillDate : Prim; BillTime : Prim;
  BillPartyName : Prim; BillNetTotalField : Prim
}.

Record Item := mkItem { ItemNameTextField : Prim; qty : Prim; total : Prim }.

Record Invoice := mkInvoice { company : list Company; master : Master; table : list Item }.

Section Render.
Context {rt : JsRuntime}.

(** The argument of [printer.tableCustom] for the item at index [i];
    [String(i + 1)] is the digits of the integer [i + 1]. *)
Definition tableRow (i : nat) (it : Item) : list Cell :=
  [ mkCell (decimal (Z.of_nat i + 1)) 3 None;
    mkCell (js_substring 0 18 (js_String (js_or (ItemNameTextField it) (PStr "")))) 18 None;
    mkCell (js_String (js_or (qty it) (PNum (S754_zero false)))) 4 (Some RIGHT);
    mkCell (toFixed2 (js_Number (js_or (total it) (PNum (S754_zero false))))) 7 (Some RIGHT) ].

Definition when (c : bool) (cmds : list Command) : list Command :=
  if c then cmds else [].

(** The commands [printInvoice] buffers before [execute()]. *)
Definition printInvoice (data : Invoice) : list Command :=
  let comp := default (mkCompany PUndefined PUndefined PUndefined PUndefined)
                      (head (company data)) in
  let master := master data in
  [AlignCenter; Bold true;
   Println (js_String (js_or (Name comp) (PStr "COMPANY")));
   Bold false]
  ++ when (truthy (Place comp)) [Println (js_String (Place comp))]
  ++ when (truthy (Ph comp)) [Println ("Ph: " +:+ js_String (Ph comp))]
  ++ when (truthy (gst comp)) [Println ("GSTIN: " +:+ js_String (gst comp))]
  ++ [DrawLine; AlignLeft;
      Println ("Bill No : " +:+ js_String (js_nullish (BillNo master) (PStr "")));
      Println ("Date    : " +:+ js_String (js_or (BillDate master) (PStr ""))
               +:+ " " +:+ js_String (js_or (BillTime master) (PStr "")))]
  ++ when (truthy (BillPartyName master))
       [Println ("Party   : " +:+ js_String (BillPartyName master))]
  ++ [DrawLine]
  ++ imap (λ i it, TableCustom (tableRow i it)) (table data)
  ++ [DrawLine; AlignRight; Bold true;
      Println ("NET TOTAL : " +:+
               toFixed2 (js_Number (js_or (BillNetTotalField master)
                                          (PNum (S754_zero false)))));
      Bold false; NewLine; AlignCenter; Println "Thank you!"; Cut].

(** [req.body] of [/print]: [isInvoice] is [body.isInvoiceData?.isInvoice]. *)
Record Payload := mkPayload { isInvoice : Prim; text : Prim; invoice : Invoice }.

(** [app.post("/print")], after the [authRequired] middleware:
    [connected] is what [printer.isPrinterConnected()] resolves to. *)
Definition print (printers : list Printer.t) (printerId : option string)
    (connected : bool) (body : Payload) (exec : ExecOutcome)
  : Response * list Attempt :=
  if header_falsy printerId then (error_json 400 "x-printer-id missing", [])
  else
    let wanted := toLowerCase (default "" printerId) in
    match js_find (λ p, Printer.enabled p
                        ∧ (toLowerCase (Printer.id p) = wanted
                           ∨ toLowerCase <$> Printer.name p = Some wanted))
                  printers with
    | None => (error_json 404 "Printer not found or disabled", [])
    | Some printerCfg =>
        if negb connected then (error_json 500 "Printer offline", [])
        else
          let run mode job :=
            let sent := [mkAttempt (Printer.connection printerCfg) job] in
            match exec with
            | Executed => (json [("success", JVBool true); ("mode", JVStr mode)], sent)
            | ExecFailed message => (error_json 500 message, sent)
            end in
          if truthy (isInvoice body) then run "invoice" (printInvoice (invoice body))
          else if truthy (text body) then run "text" [Println (js_String (text body)); Cut]
          else (error_json 400 "Unsupported print payload", [])
    end.

End Render.

End Core.

(** ** src/core/server.js, second program: the file printer.env

    [loadPrinters] and [savePrinters] on the text of the file. An object is
    the list of its own properties in the order [Object.values] and
    [Object.entries] enumerate them: names that are array indices first, in
    ascending order, then the other names in the order they were added. The
    value [undefined] is [None]. A read [o[k]] also finds the members every
    object inherits from [Object.prototype], under the names below. *)

(** The names every object inherits from [Object.prototype]. *)
Definition inherited_names : list string :=
  ["constructor"; "hasOwnProperty"; "isPrototypeOf"; "propertyIsEnumerable";
   "toLocaleString"; "toString"; "valueOf"; "__proto__"; "__defineGetter__";
   "__defineSetter__"; "__lookupGetter__"; "__lookupSetter__"].

Module EnvFile.

Abbreviation Obj := (list (string * option string)).
Abbreviation Registry := (list (string * Obj)).

Definition is_digit (c : ascii) : bool :=
  let n := nat_of_ascii c in (48 <=? n)%nat && (n <=? 57)%nat.

Fixpoint numeral (s : string) (acc : N) : option N :=
  match s with
  | EmptyString => Some acc
  | String c rest =>
      if is_digit c then numeral rest (10 * acc + (N_of_ascii c - 48))%N else None
  end.

(** An array index: the decimal numeral, without leading zero, of a number
    below 2^32 - 1. *)
Definition array_index (k : string) : option N :=
  match k with
  | EmptyString => None
  | String c rest =>
      if bool_decide (c = "0"%char) && negb (bool_decide (rest = "")) then None
      else match numeral k 0 with
           | Some n => if (n <? 2 ^ 32 - 1)%N then Some n else None
           | None => None
           end
  end.

(** [o[k]] on an own property. *)
Definition get {V} (o : list (string * V)) (k : string) : option V :=
  snd <$> js_find (λ kv, fst kv = k) o.

(** [o[k] = v]: a property the object has keeps its place; a new array index
    goes before the first name that is a larger index or no index, another
    new name goes last. *)
Fixpoint replace {V} (o : list (string * V)) (k : string) (v : V) : list (string * V) :=
  match o with
  | [] => []
  | (k', v') :: rest =>
      if decide (k' = k) then (k, v) :: rest else (k', v') :: replace rest k v
  end.

Fixpoint add_index {V} (o : list (string * V)) (n : N) (k : string) (v : V)
    : list (string * V) :=
  match o with
  | [] => [(k, v)]
  | (k', v') :: rest =>
      match array_index k' with
      | Some n' => if (n' <? n)%N then (k', v') :: add_index rest n k v else (k, v) :: o
      | None => (k, v) :: o
      end
  end.

Definition set {V} (o : list (string * V)) (k : string) (v : V) : list (string * V) :=
  if decide (k ∈ o.*1) then replace o k v
  else match array_index k with
       | Some n => add_index o n k v
       | None => o ++ [(k, v)]
       end.

(** [p[k] = v] for a value [v] that is a string or [undefined]: under the
    name __proto__ the assignment is to the prototype, which takes objects
    only, and the object is left as it was. *)
Definition put (p : list (string * option string)) (k : string) (v : option string)
  : list (string * option string) :=
  if bool_decide (k = "__proto__") then p else set p k v.

(** [s.split(sep)] for a separator of one character, and [parts.join(sep)]. *)
Fixpoint split (sep : ascii) (s : string) : list string :=
  match s with
  | EmptyString => [""]
  | String c rest =>
      if decide (c = sep) then "" :: split sep rest
      else match split sep rest with
           | first :: others => String c first :: others
           | [] => [String c ""]
           end
  end.

Fixpoint join (sep : string) (parts : list string) : string :=
  match parts with
  | [] => ""
  | [part] => part
  | part :: rest => part +:+ sep +:+ join sep rest
  end.

Definition startsWith_hash (l : string) : bool :=
  match l with
  | String c _ => bool_decide (c = "#"%char)
  | EmptyString => false
  end.

Fixpoint strip_prefix (prefix s : string) : option string :=
  match prefix, s with
  | EmptyString, _ => Some s
  | String p prefix', String c s' => if decide (p = c) then strip_prefix prefix' s' else None
  | String _ _, EmptyString => None
  end.

(** The ASCII characters the dot of a regular expression does not match
    (the two others, U+2028 and U+2029, are not looked for). *)
Definition line_terminator (c : ascii) : bool :=
  bool_decide (c = "010"%char) || bool_decide (c = "013"%char).

Fixpoint has_line_terminator (s : string) : bool :=
  match s with
  | String c rest => line_terminator c || has_line_terminator rest
  | EmptyString => false
  end.

(** [s] cut at the first [sep]. *)
Fixpoint cut_at (sep : ascii) (s : string) : option (string * string) :=
  match s with
  | EmptyString => None
  | String c rest =>
      if decide (c = sep) then Some ("", rest)
      else match cut_at sep rest with
           | Some (before, after) => Some (String c before, after)
           | None => None
           end
  end.

(** [k.match] on the pattern of [loadPrinters]: PRINTER_, a lazy group of
    any characters, an underscore, a greedy group of any characters, anchored
    at both ends. The lazy group stops at the first underscore; any character
    excludes the line terminators, so a key holding one does not match. *)
Definition match_PRINTER (k : string) : option (string * string) :=
  match strip_prefix "PRINTER_" k with
  | Some rest => if has_line_terminator rest then None else cut_at "_" rest
  | None => None
  end.

Section Text.
Context {rt : JsRuntime}.

(** The callback of [lines.forEach] in [loadPrinters]. Under an id that
    names an inherited member, [printers[id] ??= { id }] finds that member
    and assigns nothing, and the property is set on the member, not on the
    registry. *)
Definition load_line (printers : Registry) (l : string) : Registry :=
  if bool_decide (l = "") || startsWith_hash l then printers
  else
    let parts := split "=" l in
    let k := default "" (head parts) in
    let v := parts !! 1%nat in
    match match_PRINTER k with
    | None => printers
    | Some (id, field) =>
        match get printers id with
        | Some p => set printers id (put p (toLowerCase field) v)
        | None =>
            if bool_decide (id ∈ inherited_names) then printers
            else set printers id (put [("id", Some id)] (toLowerCase field) v)
        end
    end.

Definition loadPrinters (file : File) : Registry :=
  match file with
  | None => []
  | Some text => foldl load_line [] (split "010" text)
  end.

(** A value inside a template literal. *)
Definition template (v : option string) : string := default "undefined" v.

Definition entry_line (id : option string) (kv : string * option string) : string :=
  "PRINTER_" +:+ template id +:+ "_" +:+ toUpperCase (fst kv) +:+ "=" +:+ template (snd kv).

Definition printer_lines (p : Obj) : list string :=
  (entry_line (default None (get p "id")) <$> filter (λ kv, fst kv ≠ "id") p) ++ [""].

(** The text [savePrinters] writes. *)
Definition savePrinters (printers : Registry) : string :=
  join (String "010" "")
    ("TOTAL_PRINTERS=6" :: concat ((λ kp, printer_lines (snd kp)) <$> printers)).

End Text.

End EnvFile.

(** ** src/core/server.js, second program: the routes

    The routes that change the registry work on the object [loadPrinters()]
    returned, as above, and hand an object to [savePrinters]; what the next
    request finds is what [loadPrinters] reads from the text written. For
    the two routes that print, the registry is the finite map of its own
    records, and the members every object inherits are as the runtime made
    them: no line of the file has set a property on one of them. The clients
    are the module-level array [clients]. *)

Module EnvPrinter.
Record t := mk {
  id : string;
  role : option string;
  ip : option string;
  port : option string;
  cut : option string;
  status : option string
}.
End EnvPrinter.

Module EnvServer.

(** What the connection of [rawPrint] meets. *)
Inductive NetOutcome :=
| Connected
| ConnectFailed (message : string).

(** What [rawPrint] leaves behind: the chunks written to the socket, whether
    it was ended, and the [error] event nobody listens to. *)
Record RawResult := mkRaw {
  written : list string;
  ended : bool;
  unhandled_error : option string
}.

Definition LF : string := String "010" "".
Definition ESC_POS_CUT : string := String "029" (String "V" (String "000" "")).

Definition rawPrint (printer : EnvPrinter.t) (text : string) (net : NetOutcome) : RawResult :=
  match net with
  | Connected =>
      mkRaw ([text +:+ LF +:+ LF]
             ++ (if bool_decide (EnvPrinter.cut printer = Some "true")
                 then [ESC_POS_CUT] else []))
            true None
  | ConnectFailed message => mkRaw [] false (Some message)
  end.

Definition auth (ENABLE_CLIENT_AUTH : bool) (clients : list Client.t)
    (cid pin : option string) : Gate :=
  if negb ENABLE_CLIENT_AUTH then Pass None
  else if header_falsy cid || header_falsy pin
  then Deny (mkResponse 401 (BText "Unauthorized"))
  else
    match js_find (λ c, Some (Client.id c) = cid ∧ Some (Client.pin c) = pin) clients with
    | None => Deny (mkResponse 403 (BText "Forbidden"))
    | Some _ => Pass None
    end.

(** [app.post("/api/client/create")]: [uuid] is [crypto.randomUUID()], a
    text of hexadecimal digits and hyphens, [random] is [Math.random()]; the
    second component is the array [clients] after the push. *)
Definition client_create {rt : JsRuntime} (clients : list Client.t) (uuid : string)
    (random : spec_float) : Response * list Client.t :=
  let id := "clt-" +:+ substring 0 6 uuid in
  let pin := pin_text random in
  (json [("client_id", JVStr id); ("pin", JVStr pin)],
   clients ++ [Client.mk id pin None None None]).

(** A property key: [undefined] names the property undefined. *)
Definition key_of (id : option string) : string := EnvFile.template id.

(** [body.id] and [p.role]; the body is an object whose values are strings. *)
Definition id_of (p : EnvFile.Obj) : option string := default None (EnvFile.get p "id").
Definition role_of (p : EnvFile.Obj) : option string := default None (EnvFile.get p "role").

(** [printers[k]] is truthy: a record of the registry, or a member every
    object inherits. *)
Definition holds (printers : EnvFile.Registry) (k : string) : bool :=
  bool_decide (is_Some (EnvFile.get printers k)) || bool_decide (k ∈ inherited_names).

(** [printers[k] = p]: under the name __proto__ the assignment replaces the
    prototype of the object and adds no property. *)
Definition assign (printers : EnvFile.Registry) (k : string) (p : EnvFile.Obj)
  : EnvFile.Registry :=
  if bool_decide (k = "__proto__") then printers else EnvFile.set printers k p.

(** [app.post("/api/printer/save")], on the object [loadPrinters()] returned. *)
Definition printer_save (printers : EnvFile.Registry) (body : EnvFile.Obj)
  : Response * Write EnvFile.Registry :=
  let id := key_of (id_of body) in
  let role := role_of body in
  let count := length (filter (λ kp, role_of (snd kp) = role) printers) in
  if negb (holds printers id) && bool_decide (3 ≤ count)%nat
  then (error_json 400 "Max 3 printers per role", None)
  else (json [("ok", JVBool true)], Some (assign printers id body)).

(** [app.post("/api/printer/delete")]: [id] is [req.body.id]. *)
Definition printer_delete (printers : EnvFile.Registry) (id : option string)
  : Response * Write EnvFile.Registry :=
  (json [("ok", JVBool true)], Some (filter (λ kp, fst kp ≠ key_of id) printers)).

(** [printers[k]] in the test print: a record of the registry, or else the
    member every object inherits under the name [k], which is truthy and has
    none of the properties [rawPrint] reads. *)
Definition no_properties : EnvPrinter.t := EnvPrinter.mk "" None None None None None.

Definition member (printers : gmap string EnvPrinter.t) (k : string) : option EnvPrinter.t :=
  match printers !! k with
  | Some p => Some p
  | None => if bool_decide (k ∈ inherited_names) then Some no_properties else None
  end.

(** [app.post("/api/printer/test")]: the route has no [auth] middleware and
    does not look at the status of the record. [printerId] is the property
    of the body, a string or missing. *)
Definition printer_test (printers : gmap string EnvPrinter.t) (printerId : option string)
    (net : NetOutcome) : Response * option RawResult :=
  match member printers (key_of printerId) with
  | None => (mkResponse 404 (BText "Not Found"), None)
  | Some p => (json [("ok", JVBool true)], Some (rawPrint p "TEST PRINT" net))
  end.

(** [app.post("/print")], after the [auth] middleware: a missing
    [x-printer-id] falls back to [DEFAULT_PRINTER], and a missing key reads
    the property named undefined. The response is sent before the
    connection of [rawPrint] has met anything. An inherited member has no
    status, so the answer under its name is that for a missing record. *)
Definition print (printers : gmap string EnvPrinter.t)
    (header_id DEFAULT_PRINTER text : option string) (net : NetOutcome)
  : Response * option RawResult :=
  let pid := if header_falsy header_id then DEFAULT_PRINTER else header_id in
  match printers !! default "undefined" pid with
  | None => (error_json 400 "Printer unavailable", None)
  | Some p =>
      if bool_decide (EnvPrinter.status p ≠ Some "enabled")
      then (error_json 400 "Printer unavailable", None)
      else
        let text := if header_falsy text then "" else default "" text in
        (json [("ok", JVBool true)], Some (rawPrint p text net))
  end.

End EnvServer.

(** ** Vocabulary of the statements, and the inputs they are run on *)

Abbreviation same_id p := (λ x : Printer.t, Printer.id x = Printer.id p).
Abbreviation other_id id := (λ x : Printer.t, Printer.id x ≠ id).

Definition saved : Response := json [("success", JVBool true)].

Definition role_count (r : string) (printers : list Printer.t) : nat :=
  length (filter (λ x, Printer.role x = r) printers).

Definition limited (r : string) : Prop := r = "CASHIER" ∨ r = "KITCHEN".

Definition env_role_count (r : option string) (registry : EnvFile.Registry) : nat :=
  length (filter (λ kp, EnvServer.role_of (snd kp) = r) registry).

Definition stored : Response := json [("ok", JVBool true)].

(** The name the save route of the printer.env server stores a body under. *)
Definition env_key (body : EnvFile.Obj) : string := EnvServer.key_of (EnvServer.id_of body).

Definition printer (id role : string) (enabled : bool) : Printer.t :=
  Printer.mk id (Some id) role (Printer.mkConnection "192.168.1.50" 9100) enabled.

Definition env_printer (id role status : string) : EnvPrinter.t :=
  EnvPrinter.mk id (Some role) (Some "192.168.1.60") (Some "9100") (Some "true") (Some status).

Definition three_cashiers : list Printer.t :=
  [printer "c1" "CASHIER" true; printer "c2" "CASHIER" true; printer "c3" "CASHIER" true].

Definition env_record (id role status : string) : EnvFile.Obj :=
  [("id", Some id); ("role", Some role); ("ip", Some "192.168.1.60");
   ("port", Some "9100"); ("cut", Some "true"); ("status", Some status)].

Definition three_kitchen_env : EnvFile.Registry :=
  [("k1", env_record "k1" "KITCHEN" "enabled");
   ("k2", env_record "k2" "KITCHEN" "enabled");
   ("k3", env_record "k3" "KITCHEN" "enabled")].



Definition three_bars : list Printer.t :=
  [printer "b1" "BAR" true; printer "b2" "BAR" true; printer "b3" "BAR" true].

Definition four_cashiers : list Printer.t := three_cashiers ++ [printer "c4" "CASHIER" true].

Definition renamed_c2 : Printer.t :=
  Printer.mk "c2" (Some "Front desk") "CASHIER" (Printer.mkConnection "192.168.1.77" 9100) true.

Ltac by_evaluation := apply (bool_decide_unpack _); vm_compute; exact I.

(** The response of a gate that refused, if it did. *)
Definition refusal (g : Gate) : option Response :=
  match g with
  | Deny r => Some r
  | Pass _ => None
  end.

Definition alice : Client.t :=
  Client.mk "clt-a1b2c3" "123456" (Some "CLIENT") (Some true) (Some "2024-05-01T10:00:00.000Z").

Definition bob_disabled : Client.t :=
  Client.mk "clt-d4e5f6" "654321" (Some "CLIENT") (Some false) (Some "2024-05-02T10:00:00.000Z").

Definition is_digit (c : ascii) : bool :=
  let n := nat_of_ascii c in (48 <=? n)%nat && (n <=? 57)%nat.

Fixpoint all_digits (s : string) : bool :=
  match s with
  | String c rest => is_digit c && all_digits rest
  | EmptyString => true
  end.

(** What [Math.random()] returns: a double at least 0 and below 1. *)
Definition is_random (x : spec_float) : Prop :=
  x = S754_zero false
  ∨ ∃ m e, x = S754_finite false m e ∧ bounded 53 1024 m e = true ∧ Z.pos m < 2 ^ (- e).

(** The record after [k] shifts of the mantissa [M]. *)
Definition shifted (M k : Z) (r : shr_record) : Prop :=
  0 ≤ shr_m r
  ∧ shr_m r * 2 ^ k ≤ M < (shr_m r + 1) * 2 ^ k
  ∧ (shr_r r = true ↔ 2 ^ k ≤ 2 * (M - shr_m r * 2 ^ k))
  ∧ (shr_r r || shr_s r = false ↔ M = shr_m r * 2 ^ k).

(** The double of value [m * 2^e], for [0 ≤ m ≤ 2^53]. *)
Definition rounded (m e : Z) : spec_float :=
  if m =? 0 then S754_zero false
  else if m =? 2 ^ 53 then S754_finite false (Z.to_pos (2 ^ 52)) (e + 1)
  else S754_finite false (Z.to_pos m) e.

(** The value of a non-negative double, in units of 2^-1200. *)
Definition scaled (x : spec_float) : Z :=
  match x with
  | S754_finite false m e => Z.pos m * 2 ^ (e + 1200)
  | _ => 0
  end.

(** The doubles 1/2 and 2251889885677795 / 2^52. *)
Definition one_half : spec_float := S754_finite false 4503599627370496 (-53).
Definition near_one_half : spec_float := S754_finite false 4503779771355590 (-53).

Definition minted_stable {rt : JsRuntime} (random_hex : string) (random : spec_float)
    (now : string) : Client.t :=
  Client.mk ("clt-" +:+ random_hex) (pin_text random) (Some "CLIENT") (Some true) (Some now).

Definition minted_env {rt : JsRuntime} (uuid : string) (random : spec_float) : Client.t :=
  Client.mk ("clt-" +:+ substring 0 6 uuid) (pin_text random) None None None.

(** A runtime to run the statements on concrete inputs: its parser accepts
    the two documents below and rejects every other text; its other functions
    are not consulted by those inputs, which are ASCII. *)
Definition empty_documents_runtime : JsRuntime := {|
  JSON_parse := λ s,
    if bool_decide (s = "[]") then Some (JsonArr [])
    else if bool_decide (s = "null") then Some JsonNull
    else None;
  StringToNumber := λ _, S754_nan;
  NumberToString_other := λ _, "NaN";
  trim_other := λ s, s;
  toLowerCase_other := λ s, s;
  toUpperCase_other := λ s, s;
  substring_other := λ _ _ s, s
|}.

(** The states of a file the store may find: no file, a blank file, a text
    [JSON.parse] rejects. *)
Definition unreadable {rt : JsRuntime} (file : File) : Prop :=
  file = None
  ∨ ∃ content, file = Some content
               ∧ (js_trim content = "" ∨ JSON_parse (js_trim content) = None).

(** The records [/print] of the first program of src/core/server.js accepts
    for a requested identifier, and those [/print] of part_000 accepts. *)
Definition Core_wanted {rt : JsRuntime} (printerId : string) (p : Printer.t) : Prop :=
  Printer.enabled p
  ∧ (toLowerCase (Printer.id p) = toLowerCase printerId
     ∨ toLowerCase <$> Printer.name p = Some (toLowerCase printerId)).

Definition Stable_wanted (printerId : string) (p : Printer.t) : Prop :=
  Printer.id p = printerId ∧ Printer.enabled p.

(** The identifier [/print] of part_000 looks up: the header, or else the
    property of the body. *)
Definition Stable_requested (header_id body_id : option string) : option string :=
  if header_falsy header_id then body_id else header_id.

Definition not_found : Response := error_json 404 "Printer not found or disabled".

Definition text_payload (text : string) : Core.Payload :=
  Core.mkPayload PUndefined (PStr text)
    (Core.mkInvoice [] (Core.mkMaster PUndefined PUndefined PUndefined PUndefined PUndefined) []).

Definition front_desk : Printer.t :=
  Printer.mk "p1" (Some "Front Desk") "CASHIER" (Printer.mkConnection "192.168.1.50" 9100) true.

Definition back_office_disabled : Printer.t :=
  Printer.mk "p2" (Some "Back Office") "CASHIER" (Printer.mkConnection "192.168.1.51" 9100) false.

Definition kitchen_env : gmap string EnvPrinter.t :=
  <["k1" := env_printer "k1" "KITCHEN" "enabled"]> ∅.



Definition is_row (c : Command) : Prop :=
  match c with
  | TableCustom _ => True
  | _ => False
  end.

Global Instance is_row_dec (c : Command) : Decision (is_row c) :=
  match c with
  | TableCustom _ => left I
  | _ => right (λ H, H)
  end.

(** The double closest to 19.999, which is what the literal denotes. *)
Definition double_19_999 : spec_float := S754_finite false 5629218059236409 (-48).

Definition espresso : Core.Item :=
  Core.mkItem (PStr "Espresso Macchiato Doppio") (PNum (double_of_Z 2)) (PNum double_19_999).

Definition no_total : Core.Item :=
  Core.mkItem (PStr "Water") (PNum (double_of_Z 1)) PUndefined.



(** ** Further vocabulary: invariants of the registry *)

Abbreviation ids printers := (Printer.id <$> printers).

(** No limited role has more than three printers. *)
Definition within_quota (printers : list Printer.t) : Prop :=
  ∀ r, limited r → (role_count r printers ≤ 3)%nat.

Definition env_within_quota (registry : EnvFile.Registry) : Prop :=
  ∀ r, (env_role_count r registry ≤ 3)%nat.

Definition bar_printer : Printer.t := printer "x1" "BAR" true.

Definition three_cashiers_and_bar : list Printer.t :=
  [printer "c1" "CASHIER" true; printer "c2" "CASHIER" true; printer "c3" "CASHIER" true;
   bar_printer].

Definition bar_turned_cashier : Printer.t := printer "x1" "CASHIER" true.


Global Instance Align_eq_dec : EqDecision Align := ltac:(solve_decision).
Global Instance Cell_eq_dec : EqDecision Cell := ltac:(solve_decision).
Global Instance Command_eq_dec : EqDecision Command := ltac:(solve_decision).

Definition count_cuts (job : list Command) : nat :=
  length (filter (λ c, c = Cut) job).

(** ** src/unnamed/part_000: the test print *)

Module StableTest.

(** What [await tp.execute()] gives the test print: a value, truthy or not,
    or an error. *)
Inductive ExecResult :=
| Resolved (ok : bool)
| Rejected (message : string).

Definition test_job (SERVER_ID now : string) (printer : Printer.t) : list Command :=
  [Println "==== ANDROPRINT TEST ====";
   Println ("Printer: " +:+ default "undefined" (Printer.name printer));
   Println ("Server : " +:+ SERVER_ID);
   Println now;
   Cut].

Definition failed (message : string) : Response :=
  status_json 500 [("success", JVBool false); ("printed", JVBool false);
                   ("error", JVStr message)].

(** [app.post("/api/printer/test")], after the [authRequired] middleware:
    [printerId] is [req.body.printerId], [online] is what [isPrinterOnline]
    resolves to, [now] is [new Date().toLocaleString()]. *)
Definition printer_test (SERVER_ID : string) (printers : list Printer.t)
    (printerId : option string) (online : bool) (now : string) (exec : ExecResult)
  : Response * list Attempt :=
  match js_find (λ p, Some (Printer.id p) = printerId ∧ Printer.enabled p) printers with
  | None => (error_json 404 "Printer not found", [])
  | Some printer =>
      if negb online
      then (status_json 500 [("printed", JVBool false); ("error", JVStr "Printer offline")], [])
      else
        let sent := [mkAttempt (Printer.connection printer) (test_job SERVER_ID now printer)] in
        match exec with
        | Resolved true => (json [("success", JVBool true); ("printed", JVBool true)], sent)
        | Resolved false => (failed "Execute failed", sent)
        | Rejected message => (failed message, sent)
        end
  end.

End StableTest.

(** The optional lines of an invoice: place, phone and tax id of the first
    company, and the party of the bill. *)
Definition optional_lines (data : Core.Invoice) : nat :=
  let comp := default (Core.mkCompany PUndefined PUndefined PUndefined PUndefined)
                      (head (Core.company data)) in
  length (filter (λ v, truthy v = true)
            [Core.Place comp; Core.Ph comp; Core.gst comp;
             Core.BillPartyName (Core.master data)]).

(** ** src/unnamed/part_000: the server identifier *)

Module StableId.

(** [getServerId]: [file] is server.id, [random_hex] is
    [crypto.randomBytes(4).toString("hex")]; the second component is the
    file after the call. *)
Definition getServerId {rt : JsRuntime} (file : File) (random_hex : string)
  : string * File :=
  match file with
  | Some content => (js_trim content, file)
  | None =>
      let id := "srv-" +:+ random_hex in
      (id, Some id)
  end.

End StableId.

Fixpoint no_space (s : string) : bool :=
  match s with
  | String c rest => negb (js_space c) && no_space rest
  | EmptyString => true
  end.

Fixpoint all_space (s : string) : bool :=
  match s with
  | String c rest => js_space c && all_space rest
  | EmptyString => true
  end.

(** The texts [toString("hex")] gives: digits and the letters a to f. *)
Definition hex_digit (c : ascii) : bool :=
  let n := nat_of_ascii c in
  ((48 <=? n)%nat && (n <=? 57)%nat) || ((97 <=? n)%nat && (n <=? 102)%nat).

Fixpoint all_hex (s : string) : bool :=
  match s with
  | String c rest => hex_digit c && all_hex rest
  | EmptyString => true
  end.

(** A gate lets the request through. *)
Definition passes (g : Gate) : Prop := ∃ client, g = Pass client.

Definition idle_only (hs : list Socket.happening) : Prop :=
  Forall (λ h, h = Socket.Idle) hs.

Definition env_k1 : EnvFile.Obj :=
  [("id", Some "k1"); ("role", Some "KITCHEN"); ("ip", Some "192.168.1.60");
   ("port", Some "9100"); ("cut", Some "true"); ("status", Some "enabled")].

Definition env_c1 : EnvFile.Obj :=
  [("id", Some "c1"); ("role", Some "CASHIER"); ("ip", Some "192.168.1.61")].

(** A property name of ASCII characters that no object inherits, and one
    that is no array index either. *)
Definition own_name (k : string) : bool :=
  is_ascii k && bool_decide (k ∉ inherited_names).

Definition plain_name (k : string) : bool :=
  own_name k && bool_decide (EnvFile.array_index k = None).

(** Registries that survive the file: ids and property names hold no
    character the format gives a meaning to. *)
Fixpoint has_char (c : ascii) (s : string) : bool :=
  match s with
  | String c' rest => bool_decide (c' = c) || has_char c rest
  | EmptyString => false
  end.

Definition field_ok {rt : JsRuntime} (kv : string * option string) : Prop :=
  plain_name (fst kv) = true
  ∧ fst kv ≠ "id"
  ∧ toLowerCase (toUpperCase (fst kv)) = fst kv
  ∧ has_char "=" (fst kv) = false
  ∧ EnvFile.has_line_terminator (fst kv) = false
  ∧ ∃ v, snd kv = Some v ∧ is_ascii v = true
         ∧ has_char "=" v = false ∧ has_char "010" v = false.

Definition printer_ok {rt : JsRuntime} (kp : string * EnvFile.Obj) : Prop :=
  plain_name (fst kp) = true
  ∧ has_char "_" (fst kp) = false
  ∧ has_char "=" (fst kp) = false
  ∧ EnvFile.has_line_terminator (fst kp) = false
  ∧ ∃ fields, snd kp = ("id", Some (fst kp)) :: fields
              ∧ fields ≠ [] ∧ NoDup fields.*1 ∧ Forall field_ok fields.

Definition registry_ok {rt : JsRuntime} (printers : EnvFile.Registry) : Prop :=
  NoDup printers.*1 ∧ Forall printer_ok printers.

(** The registry the next request loads: what [loadPrinters] reads from the
    text [savePrinters] wrote, or the registry read before when the handler
    wrote nothing. *)
Definition env_reloaded {rt : JsRuntime} {R} (before : EnvFile.Registry)
    (r : R * Write EnvFile.Registry) : EnvFile.Registry :=
  match snd r with
  | Some written => EnvFile.loadPrinters (Some (EnvFile.savePrinters written))
  | None => before
  end.

(** A record with no property besides its id, and a registry with every
    missing value spelt out the way a template literal prints it. *)
Definition bare (kp : string * EnvFile.Obj) : Prop :=
  Forall (λ kv, fst kv = "id") (snd kp).

#[global] Instance bare_dec (kp : string * EnvFile.Obj) : Decision (bare kp) :=
  ltac:(unfold bare; apply _).

Definition spelt (kv : string * option string) : string * option string :=
  (fst kv, Some (EnvFile.template (snd kv))).

Definition spelt_out (printers : EnvFile.Registry) : EnvFile.Registry :=
  (λ kp : string * EnvFile.Obj, (fst kp, spelt <$> snd kp)) <$> printers.

Definition env_bare : EnvFile.Obj := [("id", Some "b1")].

Definition env_no_ip : EnvFile.Obj :=
  [("id", Some "k2"); ("role", Some "KITCHEN"); ("ip", None)].


(** Evaluation of [printer_ok] and [registry_ok] on a given registry. *)
Ltac printer_ok_by_evaluation :=
  do 4 (split; [reflexivity|]);
  eexists; split; [reflexivity|]; split; [discriminate|]; split; [by_evaluation|];
  repeat apply Forall_cons_2; try apply Forall_nil_2;
  (split; [reflexivity|]; split; [discriminate|]; do 3 (split; [reflexivity|]);
   eexists; repeat split; reflexivity).

Ltac registry_ok_by_evaluation :=
  split; [by_evaluation|];
  repeat apply Forall_cons_2; try apply Forall_nil_2; printer_ok_by_evaluation.

(** * Properties *)

(** ** Arrays *)

Section Arrays.
Context {A : Type} (P : A → Prop) `{∀ x, Decision (P x)}.

Lemma js_find_None (l : list A) : js_find P l = None ↔ Forall (λ x, ¬ P x) l.
Proof.
  unfold js_find. rewrite fmap_None. apply list_find_None.
Qed.

Lemma js_find_Some_elem (l : list A) x : js_find P l = Some x → x ∈ l ∧ P x.
Proof.
  unfold js_find. intros Hf. apply fmap_Some in Hf as [[i y] [Hf ->]].
  apply list_find_Some in Hf as (Hl & HP & _). simpl. split; [|done].
  by eapply list_elem_of_lookup_2.
Qed.

Lemma js_find_is_Some (l : list A) x : x ∈ l → P x → is_Some (js_find P l).
Proof.
  intros Hx HP. unfold js_find. apply fmap_is_Some. by eapply list_find_elem_of.
Qed.

Lemma js_findIndex_found (l : list A) i x :
  list_find P l = Some (i, x) → js_findIndex P l = Z.of_nat i.
Proof. unfold js_findIndex. by intros ->. Qed.

Lemma js_findIndex_missing (l : list A) :
  list_find P l = None → js_findIndex P l = -1.
Proof. unfold js_findIndex. by intros ->. Qed.

Lemma js_set_index_found (l : list A) i x y :
  list_find P l = Some (i, x) →
  js_set_index l (js_findIndex P l) y = take i l ++ y :: drop (S i) l.
Proof.
  intros Hf. rewrite (js_findIndex_found _ _ _ Hf). unfold js_set_index.
  rewrite Nat2Z.id. apply insert_take_drop.
  apply list_find_Some in Hf as (Hl & _). by eapply lookup_lt_Some.
Qed.
(** [find] gives the first element that satisfies the predicate. *)
Lemma js_find_first (before after : list A) p :
  (∀ q, q ∈ before → ¬ P q) → P p → js_find P (before ++ p :: after) = Some p.
Proof.
  intros Hbefore Hp. unfold js_find. rewrite list_find_app_r.
  - simpl. by rewrite decide_True.
  - apply list_find_None, Forall_forall. done.
Qed.
End Arrays.

(** ** Strings *)

Lemma append_String (c : ascii) (s t : string) : String c s +:+ t = String c (s +:+ t).
Proof. done. Qed.

Lemma append_assoc (s t u : string) : (s +:+ t) +:+ u = s +:+ (t +:+ u).
Proof.
  induction s as [|c s IH]; [done|]. rewrite !append_String. by rewrite IH.
Qed.

Lemma append_empty_r (s : string) : s +:+ "" = s.
Proof.
  induction s as [|c s IH]; [done|].
  change (String c (s +:+ "") = String c s). by rewrite IH.
Qed.

Lemma is_ascii_append (s t : string) : is_ascii (s +:+ t) = is_ascii s && is_ascii t.
Proof.
  induction s as [|c s IH]; [done|]. rewrite append_String. cbn [is_ascii].
  by rewrite IH, andb_assoc.
Qed.

Lemma default_Some {A} (d a : A) : default d (Some a) = a.
Proof. done. Qed.

Lemma default_None {A} (d : A) : default d None = d.
Proof. done. Qed.

Section AsciiStrings.
Context {rt : JsRuntime}.

Lemma js_trim_ascii (s : string) : is_ascii s = true → js_trim s = trim_ascii s.
Proof. unfold js_trim. by intros ->. Qed.

Lemma toLowerCase_ascii (s : string) : is_ascii s = true → toLowerCase s = lower_ascii s.
Proof. unfold toLowerCase. by intros ->. Qed.

Lemma toUpperCase_ascii (s : string) : is_ascii s = true → toUpperCase s = upper_ascii s.
Proof. unfold toUpperCase. by intros ->. Qed.


End AsciiStrings.

(** ** The file printer.env *)

Section PrinterEnv.
Context {rt : JsRuntime}.

Lemma has_char_append (c : ascii) (s t : string) :
  has_char c (s +:+ t) = has_char c s || has_char c t.
Proof.
  induction s as [|c' s IH]; [done|]. rewrite append_String. cbn [has_char].
  rewrite IH. by rewrite orb_assoc.
Qed.

Lemma has_line_terminator_append (s t : string) :
  EnvFile.has_line_terminator (s +:+ t)
  = EnvFile.has_line_terminator s || EnvFile.has_line_terminator t.
Proof.
  induction s as [|c' s IH]; [done|]. rewrite append_String.
  cbn [EnvFile.has_line_terminator]. rewrite IH. by rewrite orb_assoc.
Qed.

Lemma has_line_terminator_chars (s : string) :
  EnvFile.has_line_terminator s = false → has_char "010" s = false.
Proof.
  induction s as [|c s IH]; [done|]. cbn [EnvFile.has_line_terminator has_char].
  unfold EnvFile.line_terminator. intros Hs. apply orb_false_iff in Hs as [Hc Hs].
  apply orb_false_iff in Hc as [Hc _]. rewrite Hc. by apply IH.
Qed.

Lemma split_no_sep (sep : ascii) (s : string) :
  has_char sep s = false → EnvFile.split sep s = [s].
Proof.
  induction s as [|c s IH]; [done|]. cbn [has_char EnvFile.split].
  intros Hs. apply orb_false_iff in Hs as [Hc Hs]. apply bool_decide_eq_false in Hc.
  rewrite decide_False by done. by rewrite IH.
Qed.

Lemma split_at_sep (sep : ascii) (s rest : string) :
  has_char sep s = false →
  EnvFile.split sep (s +:+ String sep rest) = s :: EnvFile.split sep rest.
Proof.
  induction s as [|c s IH].
  - intros _. change ("" +:+ String sep rest) with (String sep rest).
    cbn [EnvFile.split]. by rewrite decide_True.
  - cbn [has_char]. intros Hs. apply orb_false_iff in Hs as [Hc Hs].
    apply bool_decide_eq_false in Hc. rewrite append_String. cbn [EnvFile.split].
    rewrite decide_False by done. by rewrite IH.
Qed.

Lemma split_join (sep : ascii) (parts : list string) :
  parts ≠ [] → Forall (λ part, has_char sep part = false) parts →
  EnvFile.split sep (EnvFile.join (String sep "") parts) = parts.
Proof.
  induction parts as [|part parts IH]; [done|]. intros _ Hparts.
  apply Forall_cons in Hparts as [Hpart Hparts].
  destruct parts as [|next parts].
  - by apply split_no_sep.
  - change (EnvFile.join (String sep "") (part :: next :: parts))
      with (part +:+ String sep "" +:+ EnvFile.join (String sep "") (next :: parts)).
    change (String sep "" +:+ EnvFile.join (String sep "") (next :: parts))
      with (String sep (EnvFile.join (String sep "") (next :: parts))).
    rewrite split_at_sep by done. by rewrite IH.
Qed.

Lemma cut_at_first (sep : ascii) (before after : string) :
  has_char sep before = false →
  EnvFile.cut_at sep (before +:+ String sep after) = Some (before, after).
Proof.
  induction before as [|c s IH].
  - intros _. change ("" +:+ String sep after) with (String sep after).
    cbn [EnvFile.cut_at]. by rewrite decide_True.
  - cbn [has_char]. intros Hs. apply orb_false_iff in Hs as [Hc Hs].
    apply bool_decide_eq_false in Hc. rewrite append_String. cbn [EnvFile.cut_at].
    rewrite decide_False by done. by rewrite IH.
Qed.

Lemma upper_char_keeps (c sep : ascii) :
  sep = "="%char ∨ sep = "010"%char ∨ sep = "013"%char →
  bool_decide (upper_char c = sep) = bool_decide (c = sep).
Proof.
  intros [-> | [-> | ->]];
    destruct c as [[] [] [] [] [] [] [] []]; reflexivity.
Qed.

Lemma toUpperCase_has_char (sep : ascii) (s : string) :
  sep = "="%char ∨ sep = "010"%char ∨ sep = "013"%char → is_ascii s = true →
  has_char sep (toUpperCase s) = has_char sep s.
Proof.
  intros Hsep Hs. rewrite (toUpperCase_ascii s Hs). clear Hs.
  induction s as [|c s IH]; [done|].
  cbn [upper_ascii has_char]. by rewrite IH, upper_char_keeps.
Qed.

Lemma toUpperCase_line_terminator (s : string) :
  is_ascii s = true →
  EnvFile.has_line_terminator (toUpperCase s) = EnvFile.has_line_terminator s.
Proof.
  intros Hs. rewrite (toUpperCase_ascii s Hs). clear Hs.
  induction s as [|c s IH]; [done|].
  cbn [upper_ascii EnvFile.has_line_terminator]. rewrite IH.
  unfold EnvFile.line_terminator. by rewrite !upper_char_keeps by auto.
Qed.

Lemma own_name_ascii (k : string) : own_name k = true → is_ascii k = true.
Proof. unfold own_name. rewrite andb_true_iff. by intros [? _]. Qed.

Lemma own_name_not_inherited (k : string) : own_name k = true → k ∉ inherited_names.
Proof. unfold own_name. rewrite andb_true_iff, bool_decide_eq_true. by intros [_ ?]. Qed.

Lemma plain_name_own (k : string) : plain_name k = true → own_name k = true.
Proof. unfold plain_name. rewrite andb_true_iff. by intros [? _]. Qed.

(** Under an id no object inherits, a line creates the record it does not
    find. *)
Lemma load_record_own (printers : EnvFile.Registry) (id name : string) (v : option string) :
  id ∉ inherited_names →
  match EnvFile.get printers id with
  | Some p => EnvFile.set printers id (EnvFile.put p name v)
  | None =>
      if bool_decide (id ∈ inherited_names) then printers
      else EnvFile.set printers id (EnvFile.put [("id", Some id)] name v)
  end
  = EnvFile.set printers id
      (EnvFile.put (default [("id", Some id)] (EnvFile.get printers id)) name v).
Proof.
  intros Hown. destruct (EnvFile.get printers id); [done|].
  by rewrite bool_decide_false.
Qed.

Lemma put_own (p : EnvFile.Obj) (k : string) (v : option string) :
  k ≠ "__proto__" → EnvFile.put p k v = EnvFile.set p k v.
Proof. intros Hk. unfold EnvFile.put. by rewrite bool_decide_false. Qed.

Lemma own_name_not_proto (k : string) : own_name k = true → k ≠ "__proto__".
Proof. intros Hk%own_name_not_inherited ->. apply Hk. by_evaluation. Qed.

Lemma get_absent {V} (o : list (string * V)) (k : string) :
  k ∉ o.*1 → EnvFile.get o k = None.
Proof.
  intros Hk. unfold EnvFile.get. rewrite (proj2 (js_find_None _ o)); [done|].
  apply Forall_forall. intros kv Hkv Heq. apply Hk. rewrite <- Heq.
  by apply list_elem_of_fmap_2.
Qed.

Lemma get_last {V} (o : list (string * V)) (k : string) (v : V) :
  k ∉ o.*1 → EnvFile.get (o ++ [(k, v)]) k = Some v.
Proof.
  intros Hk. unfold EnvFile.get, js_find. rewrite list_find_app_r.
  - simpl. by rewrite decide_True.
  - apply list_find_None, Forall_forall. intros kv Hkv Heq. apply Hk. rewrite <- Heq.
    by apply list_elem_of_fmap_2.
Qed.

Lemma plain_name_no_index (k : string) :
  plain_name k = true → EnvFile.array_index k = None.
Proof.
  unfold plain_name. rewrite andb_true_iff, bool_decide_eq_true. by intros [_ ?].
Qed.

Lemma set_absent {V} (o : list (string * V)) (k : string) (v : V) :
  k ∉ o.*1 → EnvFile.array_index k = None → EnvFile.set o k v = o ++ [(k, v)].
Proof.
  intros Hk Hindex. unfold EnvFile.set. rewrite decide_False by done. by rewrite Hindex.
Qed.

Lemma set_last {V} (o : list (string * V)) (k : string) (v w : V) :
  k ∉ o.*1 → EnvFile.set (o ++ [(k, v)]) k w = o ++ [(k, w)].
Proof.
  intros Hk. unfold EnvFile.set. rewrite decide_True.
  2:{ rewrite fmap_app, elem_of_app. right. by left. }
  induction o as [|[k' v'] o IH].
  - cbn [app EnvFile.replace]. by rewrite decide_True.
  - rewrite fmap_cons, not_elem_of_cons in Hk. destruct Hk as [Hne Hk].
    cbn [app EnvFile.replace]. rewrite decide_False by done. by rewrite IH.
Qed.

(** What [loadPrinters] makes of a line [savePrinters] wrote for a property. *)
Lemma load_entry_line (printers : EnvFile.Registry) (id : string)
    (kv : string * option string) :
  own_name id = true → has_char "_" id = false → has_char "=" id = false →
  EnvFile.has_line_terminator id = false → field_ok kv →
  EnvFile.load_line printers (EnvFile.entry_line (Some id) kv)
  = EnvFile.set printers id
      (EnvFile.set (default [("id", Some id)] (EnvFile.get printers id)) (fst kv) (snd kv)).
Proof.
  intros Hown Hus Heq Hlt (Hplain & Hid & Hcase & Hfeq & Hflt & v & Hv & _ & Hveq & Hvlf).
  pose proof (own_name_ascii _ (plain_name_own _ Hplain)) as Hascii.
  destruct kv as [f ov]. simpl in *. subst ov.
  unfold EnvFile.load_line, EnvFile.entry_line. simpl EnvFile.template. cbn [fst snd].
  set (key := "PRINTER_" +:+ id +:+ "_" +:+ toUpperCase f).
  assert (Hline : "PRINTER_" +:+ id +:+ "_" +:+ toUpperCase f +:+ "=" +:+ v
                  = key +:+ String "=" v).
  { unfold key. by rewrite !append_assoc. }
  rewrite Hline.
  assert (Hkey : has_char "=" key = false).
  { unfold key. rewrite !has_char_append, Heq, toUpperCase_has_char, Hfeq by auto. done. }
  rewrite split_at_sep by done. rewrite (split_no_sep "=" v Hveq).
  replace (bool_decide (key +:+ String "=" v = "") || EnvFile.startsWith_hash (key +:+ String "=" v))
    with false by done.
  cbn [head default lookup list_lookup].
  assert (Hmatch : EnvFile.match_PRINTER key = Some (id, toUpperCase f)).
  { unfold EnvFile.match_PRINTER, key.
    change (EnvFile.strip_prefix "PRINTER_" ("PRINTER_" +:+ id +:+ "_" +:+ toUpperCase f))
      with (Some (id +:+ "_" +:+ toUpperCase f)).
    cbv beta iota.
    rewrite !has_line_terminator_append, Hlt, toUpperCase_line_terminator, Hflt by done.
    change ("_" +:+ toUpperCase f) with (String "_" (toUpperCase f)).
    simpl orb. cbv iota. by apply cut_at_first. }
  change (Datatypes.id key) with key. rewrite Hmatch.
  rewrite load_record_own by by apply own_name_not_inherited. rewrite Hcase.
  by rewrite put_own by by apply own_name_not_proto, plain_name_own.
Qed.

Lemma load_fields (acc : EnvFile.Registry) (id : string) (fields done : EnvFile.Obj) :
  own_name id = true → has_char "_" id = false → has_char "=" id = false →
  EnvFile.has_line_terminator id = false →
  id ∉ acc.*1 → "id" ∉ done.*1 → Forall field_ok fields → NoDup (done.*1 ++ fields.*1) →
  foldl EnvFile.load_line (acc ++ [(id, ("id", Some id) :: done)])
    (EnvFile.entry_line (Some id) <$> fields)
  = acc ++ [(id, ("id", Some id) :: done ++ fields)].
Proof.
  intros Hown Hus Heq Hlt Hacc. revert done.
  induction fields as [|[f v] fields IH]; intros done Hdone Hok Hnd.
  - by rewrite app_nil_r.
  - apply Forall_cons in Hok as [Hf Hok]. rewrite fmap_cons. cbn [foldl].
    rewrite (load_entry_line _ id (f, v) Hown Hus Heq Hlt Hf). cbn [fst snd].
    rewrite (get_last acc id _ Hacc), default_Some.
    rewrite fmap_cons in Hnd. cbn [fst] in Hnd.
    apply NoDup_app in Hnd as (Hnd1 & Hdisj & Hnd2).
    apply NoDup_cons in Hnd2 as [Hfresh Hnd2].
    assert (Hf_done : f ∉ done.*1).
    { intros Hin. apply (Hdisj f Hin). by left. }
    rewrite (set_absent (("id", Some id) :: done) f v).
    2:{ rewrite fmap_cons, not_elem_of_cons. split; [|done]. by destruct Hf as (_ & Hne & _). }
    2:{ apply plain_name_no_index. by destruct Hf as [Hplain _]. }
    rewrite (set_last acc id _ _ Hacc).
    change ((("id", Some id) :: done) ++ [(f, v)]) with (("id", Some id) :: (done ++ [(f, v)])).
    etrans; [apply (IH (done ++ [(f, v)]))|].
    + rewrite fmap_app, elem_of_app. intros [Hin | Hin]; [done|].
      apply list_elem_of_singleton in Hin. destruct Hf as (_ & Hne & _). by apply Hne.
    + done.
    + rewrite fmap_app. cbn [fmap list_fmap fst]. rewrite <- app_assoc. cbn [app].
      apply NoDup_app. split; [done|]. split; [|by apply NoDup_cons].
      intros x Hx Hin. apply elem_of_cons in Hin as [-> | Hin]; [done|].
      apply (Hdisj x Hx). by right.
    + by rewrite <- app_assoc.
Qed.

Lemma filter_fields (fields : EnvFile.Obj) :
  Forall field_ok fields → filter (λ kv, kv.1 ≠ "id") fields = fields.
Proof.
  induction fields as [|kv fields IH]; [done|]. intros Hok.
  apply Forall_cons in Hok as [(_ & Hne & _) Hok]. rewrite filter_cons_True by done.
  by rewrite IH.
Qed.

Lemma load_printer (acc : EnvFile.Registry) (kp : string * EnvFile.Obj) :
  kp.1 ∉ acc.*1 → printer_ok kp →
  foldl EnvFile.load_line acc (EnvFile.printer_lines kp.2) = acc ++ [kp].
Proof.
  destruct kp as [id p]. cbn [fst snd].
  intros Hacc (Hplain & Hus & Heq & Hlt & fields & Hp & Hsome & Hnd & Hok).
  cbn [fst snd] in *.
  subst p. unfold EnvFile.printer_lines.
  assert (Hid : EnvFile.get (("id", Some id) :: fields) "id" = Some (Some id)) by done.
  rewrite Hid, default_Some.
  rewrite filter_cons_False by (by intros Hne). rewrite (filter_fields _ Hok).
  rewrite foldl_app. cbn [foldl].
  destruct fields as [|[f v] fields]; [done|].
  apply Forall_cons in Hok as [Hf Hok]. rewrite fmap_cons. cbn [foldl].
  rewrite (load_entry_line _ id (f, v) (plain_name_own _ Hplain) Hus Heq Hlt Hf).
  cbn [fst snd]. rewrite (get_absent acc id Hacc), default_None.
  assert (Hne : f ≠ "id") by by destruct Hf as (_ & ? & _).
  rewrite (set_absent [("id", Some id)] f v).
  2:{ cbn [fmap list_fmap fst]. by intros ->%list_elem_of_singleton. }
  2:{ apply plain_name_no_index. by destruct Hf as [? _]. }
  rewrite (set_absent acc id _ Hacc (plain_name_no_index _ Hplain)).
  etrans; [apply (load_fields acc id fields [(f, v)] (plain_name_own _ Hplain) Hus Heq Hlt Hacc)|].
  4: done.
  - cbn [fmap list_fmap fst]. intros Hin%list_elem_of_singleton. by apply Hne.
  - done.
  - done.
Qed.

Lemma load_printers (printers acc : EnvFile.Registry) :
  NoDup (acc.*1 ++ printers.*1) → Forall printer_ok printers →
  foldl EnvFile.load_line acc (concat ((λ kp, EnvFile.printer_lines kp.2) <$> printers))
  = acc ++ printers.
Proof.
  revert acc. induction printers as [|kp printers IH]; intros acc Hnd Hok.
  - by rewrite app_nil_r.
  - apply Forall_cons in Hok as [Hkp Hok]. rewrite fmap_cons. cbn [concat].
    rewrite foldl_app. rewrite fmap_cons in Hnd.
    assert (Hfresh : kp.1 ∉ acc.*1).
    { apply NoDup_app in Hnd as (_ & Hdisj & _). intros Hin. apply (Hdisj _ Hin). by left. }
    rewrite (load_printer acc kp Hfresh Hkp). rewrite (IH (acc ++ [kp])).
    + by rewrite <- app_assoc.
    + rewrite fmap_app. cbn [fmap list_fmap]. rewrite <- app_assoc. exact Hnd.
    + done.
Qed.

Lemma entry_line_no_LF (id : string) (kv : string * option string) :
  EnvFile.has_line_terminator id = false → field_ok kv →
  has_char "010" (EnvFile.entry_line (Some id) kv) = false.
Proof.
  intros Hlt (Hplain & _ & _ & _ & Hflt & v & Hv & _ & _ & Hvlf). unfold EnvFile.entry_line.
  pose proof (own_name_ascii _ (plain_name_own _ Hplain)) as Hascii.
  rewrite Hv. unfold EnvFile.template. rewrite !default_Some.
  rewrite !has_char_append, Hvlf, toUpperCase_has_char by auto.
  by rewrite (has_line_terminator_chars _ Hlt), (has_line_terminator_chars _ Hflt).
Qed.

Lemma printer_lines_no_LF (kp : string * EnvFile.Obj) :
  printer_ok kp →
  Forall (λ l, has_char "010" l = false) (EnvFile.printer_lines kp.2).
Proof.
  destruct kp as [id p]. intros (_ & _ & _ & Hlt & fields & Hp & _ & _ & Hok).
  cbn [fst snd] in *. subst p. unfold EnvFile.printer_lines.
  assert (Hid : EnvFile.get (("id", Some id) :: fields) "id" = Some (Some id)) by done.
  rewrite Hid, default_Some.
  rewrite filter_cons_False by (by intros Hne). rewrite (filter_fields _ Hok).
  apply Forall_app. split; [|by apply Forall_singleton].
  apply Forall_fmap. eapply Forall_impl; [exact Hok|].
  intros kv Hkv. by apply entry_line_no_LF.
Qed.

(** X19. What [savePrinters] writes, [loadPrinters] reads back: for a
    registry with distinct ids, each a plain name without underscore, equals
    sign or line terminator, whose records hold their id first and at least
    one more property, with distinct plain lower-case names free of equals
    signs and line terminators and ASCII string values free of equals signs
    and line feeds, loading the saved text gives the registry itself. A
    missing file loads as the empty registry. *)
Theorem printer_env_round_trip (printers : EnvFile.Registry) :
  registry_ok printers →
  EnvFile.loadPrinters (Some (EnvFile.savePrinters printers)) = printers
  ∧ EnvFile.loadPrinters None = [].
Proof.
  intros [Hnd Hok]. split; [|done].
  unfold EnvFile.loadPrinters, EnvFile.savePrinters.
  rewrite split_join.
  - cbn [foldl]. change (EnvFile.load_line [] "TOTAL_PRINTERS=6") with (@nil (string * EnvFile.Obj)).
    by rewrite (load_printers printers []).
  - done.
  - apply Forall_cons. split; [done|]. apply Forall_concat, Forall_fmap.
    eapply Forall_impl; [exact Hok|]. intros kp Hkp. by apply printer_lines_no_LF.
Qed.


Lemma get_cons_ne {V} (o : list (string * V)) (k k' : string) (v' : V) :
  k' ≠ k → EnvFile.get ((k', v') :: o) k = EnvFile.get o k.
Proof.
  intros Hne. unfold EnvFile.get, js_find. cbn [list_find fst].
  rewrite decide_False by done.
  by destruct (list_find (λ kv : string * V, kv.1 = k) o) as [[i kv]|].
Qed.

Lemma get_cons_eq {V} (o : list (string * V)) (k : string) (v : V) :
  EnvFile.get ((k, v) :: o) k = Some v.
Proof. unfold EnvFile.get, js_find. cbn [list_find fst]. by rewrite decide_True. Qed.

Lemma get_set {V} (o : list (string * V)) (k : string) (v : V) :
  EnvFile.get (EnvFile.set o k v) k = Some v.
Proof.
  unfold EnvFile.set. destruct (decide (k ∈ o.*1)) as [Hin | Hout].
  - induction o as [|[k' v'] o IH]; [by apply elem_of_nil in Hin|].
    cbn [EnvFile.replace]. destruct (decide (k' = k)) as [Heq | Hne].
    + apply get_cons_eq.
    + rewrite get_cons_ne by done. apply IH.
      rewrite fmap_cons in Hin. apply elem_of_cons in Hin as [Heq | Hin]; [|done].
      by destruct Hne.
  - destruct (EnvFile.array_index k) as [n|]; [|by apply get_last].
    induction o as [|[k' v'] o IH]; [apply get_cons_eq|].
    rewrite fmap_cons, not_elem_of_cons in Hout. destruct Hout as [Hne Hout].
    cbn [EnvFile.add_index].
    destruct (EnvFile.array_index k') as [n'|]; [|apply get_cons_eq].
    destruct (n' <? n)%N; [|apply get_cons_eq].
    rewrite get_cons_ne by done. by apply IH.
Qed.


Lemma keys_replace {V} (o : list (string * V)) (k : string) (v : V) :
  (EnvFile.replace o k v).*1 = o.*1.
Proof.
  induction o as [|[k' v'] o IH]; [done|]. cbn [EnvFile.replace].
  destruct (decide (k' = k)) as [-> | Hne]; [done|]. by rewrite !fmap_cons, IH.
Qed.

Lemma keys_add_index {V} (o : list (string * V)) (n : N) (k : string) (v : V) (x : string) :
  x ∈ (EnvFile.add_index o n k v).*1 → x = k ∨ x ∈ o.*1.
Proof.
  induction o as [|[k' v'] o IH]; cbn [EnvFile.add_index].
  - intros Hx%list_elem_of_singleton. by left.
  - destruct (EnvFile.array_index k') as [n'|]; [destruct (n' <? n)%N|].
    + rewrite !fmap_cons, !elem_of_cons. intros [-> | Hx]; [by right; left|].
      destruct (IH Hx) as [-> | Hin]; [by left|by right; right].
    + rewrite fmap_cons, elem_of_cons. intros [-> | Hx]; [by left|by right].
    + rewrite fmap_cons, elem_of_cons. intros [-> | Hx]; [by left|by right].
Qed.

Lemma keys_set {V} (o : list (string * V)) (k : string) (v : V) (x : string) :
  x ∈ (EnvFile.set o k v).*1 → x = k ∨ x ∈ o.*1.
Proof.
  unfold EnvFile.set. destruct (decide (k ∈ o.*1)) as [Hin | Hout].
  - rewrite keys_replace. by right.
  - destruct (EnvFile.array_index k) as [n|]; [apply keys_add_index|].
    rewrite fmap_app, elem_of_app. intros [Hx | Hx%list_elem_of_singleton]; [by right|by left].
Qed.

Lemma cut_at_before (sep : ascii) (s before after : string) :
  EnvFile.cut_at sep s = Some (before, after) → has_char sep before = false.
Proof.
  revert before. induction s as [|c s IH]; intros before; [done|]. cbn [EnvFile.cut_at].
  destruct (decide (c = sep)) as [Heq | Hne].
  - by intros [= <- _].
  - destruct (EnvFile.cut_at sep s) as [[b a]|]; [|done]. intros [= <- <-].
    cbn [has_char]. rewrite (IH b eq_refl). by rewrite bool_decide_eq_false_2.
Qed.

Lemma load_line_ids (printers : EnvFile.Registry) (l : string) :
  Forall (λ id, has_char "_" id = false) printers.*1 →
  Forall (λ id, has_char "_" id = false) (EnvFile.load_line printers l).*1.
Proof.
  intros Hids. unfold EnvFile.load_line.
  destruct (bool_decide (l = "") || EnvFile.startsWith_hash l); [done|].
  destruct (EnvFile.match_PRINTER _) as [[id field]|] eqn:Hmatch; [|done].
  assert (Hid : has_char "_" id = false).
  { unfold EnvFile.match_PRINTER in Hmatch.
    destruct (EnvFile.strip_prefix _ _) as [rest|]; [|done].
    destruct (EnvFile.has_line_terminator rest); [done|]. by eapply cut_at_before. }
  assert (Hset : ∀ p, Forall (λ id, has_char "_" id = false) (EnvFile.set printers id p).*1).
  { intros p. apply Forall_forall. intros x Hx. apply keys_set in Hx as [-> | Hx]; [done|].
    by eapply Forall_forall in Hids. }
  destruct (EnvFile.get printers id); [apply Hset|].
  destruct (bool_decide _); [done | apply Hset].
Qed.

Lemma load_lines_ids (lines : list string) (printers : EnvFile.Registry) :
  Forall (λ id, has_char "_" id = false) printers.*1 →
  Forall (λ id, has_char "_" id = false) (foldl EnvFile.load_line printers lines).*1.
Proof.
  revert printers. induction lines as [|l lines IH]; intros printers Hids; [done|].
  cbn [foldl]. by apply IH, load_line_ids.
Qed.

(** X21. Whatever printer.env holds, [loadPrinters] yields no record under
    an id with an underscore in it: the id of a line ends at the first
    underscore after PRINTER_. *)
Theorem loaded_ids_hold_no_underscore (file : File) (id : string) :
  has_char "_" id = true → EnvFile.get (EnvFile.loadPrinters file) id = None.
Proof.
  intros Hid. apply get_absent. intros Hin.
  assert (Hids : Forall (λ id, has_char "_" id = false) (EnvFile.loadPrinters file).*1).
  { destruct file as [text|]; [|by apply Forall_nil]. by apply load_lines_ids, Forall_nil. }
  eapply Forall_forall in Hids; [|exact Hin]. congruence.
Qed.


Lemma bare_lines (kp : string * EnvFile.Obj) :
  bare kp → EnvFile.printer_lines kp.2 = [""].
Proof.
  destruct kp as [id p]. unfold bare, EnvFile.printer_lines. cbn [snd].
  generalize (default None (EnvFile.get p "id")). intros i Hbare.
  replace (filter (λ kv : string * option string, kv.1 ≠ "id") p)
    with (@nil (string * option string)); [done|].
  induction Hbare as [|kv p Hkv Hbare IH]; [done|].
  by rewrite filter_cons_False by (by intros Hne).
Qed.

Lemma printer_ok_not_bare (kp : string * EnvFile.Obj) : printer_ok kp → ¬ bare kp.
Proof.
  intros (_ & _ & _ & _ & fields & Hp & Hsome & _ & Hok) Hbare. unfold bare in Hbare.
  rewrite Hp in Hbare. apply Forall_cons in Hbare as [_ Hbare].
  destruct fields as [|kv fields]; [done|].
  apply Forall_cons in Hbare as [Hid _]. apply Forall_cons in Hok as [(_ & Hne & _) _].
  done.
Qed.

Lemma load_printers_but_bare (printers acc : EnvFile.Registry) :
  NoDup (acc.*1 ++ printers.*1) → Forall (λ kp, printer_ok kp ∨ bare kp) printers →
  foldl EnvFile.load_line acc (concat ((λ kp, EnvFile.printer_lines kp.2) <$> printers))
  = acc ++ filter (λ kp, ¬ bare kp) printers.
Proof.
  revert acc. induction printers as [|kp printers IH]; intros acc Hnd Hok.
  - by rewrite app_nil_r.
  - apply Forall_cons in Hok as [Hkp Hok]. rewrite fmap_cons. cbn [concat].
    rewrite foldl_app. rewrite fmap_cons in Hnd. destruct Hkp as [Hkp | Hkp].
    + assert (Hfresh : kp.1 ∉ acc.*1).
      { apply NoDup_app in Hnd as (_ & Hdisj & _). intros Hin. apply (Hdisj _ Hin). by left. }
      rewrite (load_printer acc kp Hfresh Hkp).
      rewrite filter_cons_True by by apply printer_ok_not_bare.
      rewrite (IH (acc ++ [kp])).
      * by rewrite <- app_assoc.
      * rewrite fmap_app. cbn [fmap list_fmap]. rewrite <- app_assoc. exact Hnd.
      * done.
    + rewrite (bare_lines kp Hkp). cbn [foldl].
      change (EnvFile.load_line acc "") with acc.
      rewrite filter_cons_False by (by intros Hnot). apply IH; [|done].
      apply NoDup_app in Hnd as (Hacc & Hdisj & Hrest). apply NoDup_cons in Hrest as [_ Hrest].
      apply NoDup_app. split; [done|]. split; [|done].
      intros x Hx Hin. apply (Hdisj x Hx). by right.
Qed.

Lemma saved_lines_no_LF (printers : EnvFile.Registry) :
  Forall (λ kp, printer_ok kp ∨ bare kp) printers →
  Forall (λ l, has_char "010" l = false)
    ("TOTAL_PRINTERS=6" :: concat ((λ kp, EnvFile.printer_lines kp.2) <$> printers)).
Proof.
  intros Hok. apply Forall_cons. split; [done|]. apply Forall_concat, Forall_fmap.
  eapply Forall_impl; [exact Hok|]. intros kp [Hkp | Hkp].
  - by apply printer_lines_no_LF.
  - change (Forall (λ l, has_char "010" l = false) (EnvFile.printer_lines kp.2)).
    rewrite (bare_lines kp Hkp). by apply Forall_singleton.
Qed.

Lemma load_saved (printers : EnvFile.Registry) :
  NoDup printers.*1 → Forall (λ kp, printer_ok kp ∨ bare kp) printers →
  EnvFile.loadPrinters (Some (EnvFile.savePrinters printers))
  = filter (λ kp, ¬ bare kp) printers.
Proof.
  intros Hnd Hok. unfold EnvFile.loadPrinters, EnvFile.savePrinters.
  rewrite split_join; [|done|by apply saved_lines_no_LF].
  cbn [foldl]. change (EnvFile.load_line [] "TOTAL_PRINTERS=6") with (@nil (string * EnvFile.Obj)).
  by rewrite (load_printers_but_bare printers []).
Qed.

Lemma load_saved_ok (printers : EnvFile.Registry) :
  registry_ok printers →
  EnvFile.loadPrinters (Some (EnvFile.savePrinters printers)) = printers.
Proof.
  intros [Hnd Hok]. rewrite load_saved.
  - eapply Forall_impl in Hok; [|exact printer_ok_not_bare]. clear Hnd.
    induction Hok as [|kp rest Hkp Hok IH]; [done|].
    rewrite filter_cons_True by done. by f_equal.
  - done.
  - eapply Forall_impl; [exact Hok|]. intros kp Hkp. by left.
Qed.

Lemma get_None_keys {V} (o : list (string * V)) (k : string) :
  EnvFile.get o k = None → k ∉ o.*1.
Proof.
  unfold EnvFile.get. intros Hget Hin. apply fmap_None, js_find_None in Hget.
  apply list_elem_of_fmap in Hin as ([k' v] & -> & Hin).
  eapply Forall_forall in Hget; [|exact Hin]. by apply Hget.
Qed.


Lemma get_replace_ne {V} (o : list (string * V)) (k k' : string) (v : V) :
  k ≠ k' → EnvFile.get (EnvFile.replace o k' v) k = EnvFile.get o k.
Proof.
  intros Hne. induction o as [|[k0 v0] o IH]; [done|]. cbn [EnvFile.replace].
  destruct (decide (k0 = k')) as [-> | Hne0].
  - by rewrite !get_cons_ne by done.
  - destruct (decide (k0 = k)) as [-> | Hk].
    + by rewrite !get_cons_eq.
    + by rewrite !get_cons_ne.
Qed.

Lemma Forall_replace {V} (P : string * V → Prop) (o : list (string * V)) (k : string) (v : V) :
  Forall P o → P (k, v) → Forall P (EnvFile.replace o k v).
Proof.
  intros Ho Hkv. induction Ho as [|[k' v'] o Hx Ho IH]; [done|]. cbn [EnvFile.replace].
  destruct (decide (k' = k)); by apply Forall_cons.
Qed.

(** Storing a record the file keeps in a registry the file keeps gives such
    a registry. *)
Lemma registry_ok_set (registry : EnvFile.Registry) (id : string) (body : EnvFile.Obj) :
  registry_ok registry → printer_ok (id, body) → registry_ok (EnvFile.set registry id body).
Proof.
  intros [Hnd Hok] Hbody. unfold EnvFile.set.
  destruct (decide (id ∈ registry.*1)) as [Hin | Hout].
  - split; [by rewrite keys_replace | by apply Forall_replace].
  - assert (Hplain : plain_name id = true) by by destruct Hbody as [? _].
    rewrite (plain_name_no_index _ Hplain). split.
    + rewrite fmap_app. apply NoDup_app. split; [done|]. split; [|apply NoDup_singleton].
      intros x Hx Hin%list_elem_of_singleton. by subst.
    + apply Forall_app. split; [done | by apply Forall_singleton].
Qed.

(** X23. A record with no property besides its id leaves no line in
    printer.env: loading what [savePrinters] wrote gives the registry without
    such records, the other records being as for the round trip. *)
Theorem bare_records_are_not_saved (printers : EnvFile.Registry) :
  NoDup printers.*1 → Forall (λ kp, printer_ok kp ∨ bare kp) printers →
  EnvFile.loadPrinters (Some (EnvFile.savePrinters printers))
  = filter (λ kp, ¬ bare kp) printers.
Proof. apply load_saved. Qed.

Lemma spelt_lines (p : EnvFile.Obj) :
  EnvFile.printer_lines (spelt <$> p) = EnvFile.printer_lines p.
Proof.
  unfold EnvFile.printer_lines. f_equal.
  assert (Hid : EnvFile.template (default None (EnvFile.get (spelt <$> p) "id"))
                = EnvFile.template (default None (EnvFile.get p "id"))).
  { induction p as [|[k v] p IH]; [done|]. rewrite fmap_cons.
    destruct (decide (k = "id")) as [-> | Hne].
    - unfold spelt at 1. cbn [fst snd]. by rewrite !get_cons_eq.
    - unfold spelt at 1. cbn [fst snd]. by rewrite !get_cons_ne. }
  unfold EnvFile.entry_line. rewrite Hid.
  generalize (EnvFile.template (default None (EnvFile.get p "id"))). clear Hid. intros i.
  induction p as [|[k v] p IH]; [done|]. rewrite fmap_cons.
  destruct (decide (k = "id")) as [-> | Hne].
  - rewrite !filter_cons_False by (by intros Hne). apply IH.
  - rewrite !filter_cons_True by done. by rewrite !fmap_cons, IH.
Qed.

Lemma spelt_out_saved (printers : EnvFile.Registry) :
  EnvFile.savePrinters (spelt_out printers) = EnvFile.savePrinters printers.
Proof.
  unfold EnvFile.savePrinters, spelt_out. do 3 f_equal.
  rewrite <- list_fmap_compose. apply list_fmap_ext. intros i kp _. apply spelt_lines.
Qed.

(** X24. [savePrinters] writes a missing value, and a missing id, as the
    text undefined: loading the saved text gives the registry with every
    [undefined] spelt out as that string, when the registry so spelt is one
    the round trip holds for. *)
Theorem undefined_is_saved_as_text (printers : EnvFile.Registry) :
  registry_ok (spelt_out printers) →
  EnvFile.loadPrinters (Some (EnvFile.savePrinters printers)) = spelt_out printers.
Proof.
  intros [Hnd Hok]. rewrite <- spelt_out_saved. rewrite load_saved.
  - eapply Forall_impl in Hok; [|exact printer_ok_not_bare].
    induction Hok as [|kp rest Hkp Hok IH]; [done|].
    rewrite filter_cons_True by done. f_equal. apply IH.
    by apply NoDup_cons in Hnd as [_ ?].
  - done.
  - eapply Forall_impl; [exact Hok|]. intros kp Hkp. by left.
Qed.

End PrinterEnv.

Section PrinterEnvExamples.
#[local] Existing Instance empty_documents_runtime.

Lemma printer_env_round_trip_witness :
  registry_ok [("k1", env_k1); ("c1", env_c1)]
  ∧ EnvFile.loadPrinters (Some (EnvFile.savePrinters [("k1", env_k1); ("c1", env_c1)]))
    = [("k1", env_k1); ("c1", env_c1)].
Proof.
  assert (Hok : registry_ok [("k1", env_k1); ("c1", env_c1)]).
  { split; [by_evaluation|].
    repeat apply Forall_cons_2; try apply Forall_nil_2;
      (do 4 (split; [reflexivity|]);
       eexists; split; [reflexivity|]; split; [discriminate|]; split; [by_evaluation|];
       repeat apply Forall_cons_2; try apply Forall_nil_2;
       (split; [reflexivity|]; split; [discriminate|]; do 3 (split; [reflexivity|]);
        eexists; repeat split; reflexivity)). }
  split; [exact Hok|].
  exact (proj1 (printer_env_round_trip _ Hok)).
Defined.


Lemma loaded_ids_hold_no_underscore_witness :
  EnvFile.get
    (EnvFile.loadPrinters
       (Some (EnvFile.savePrinters [("bar_1", [("id", Some "bar_1"); ("ip", Some "10.0.0.7")])])))
    "bar_1" = None.
Proof.
  assert (H : has_char "_" "bar_1" = true) by reflexivity.
  exact (loaded_ids_hold_no_underscore _ "bar_1" H).
Defined.


Lemma bare_records_are_not_saved_witness :
  EnvFile.loadPrinters (Some (EnvFile.savePrinters [("b1", env_bare); ("c1", env_c1)]))
  = [("c1", env_c1)].
Proof.
  assert (Hnd : NoDup [("b1", env_bare); ("c1", env_c1)].*1) by by_evaluation.
  assert (Hok : Forall (λ kp, printer_ok kp ∨ bare kp) [("b1", env_bare); ("c1", env_c1)]).
  { apply Forall_cons_2; [right; by_evaluation|]. apply Forall_cons_2; [left|apply Forall_nil_2].
    do 4 (split; [reflexivity|]).
    eexists; split; [reflexivity|]; split; [discriminate|]; split; [by_evaluation|].
    repeat apply Forall_cons_2; try apply Forall_nil_2;
      (split; [reflexivity|]; split; [discriminate|]; do 3 (split; [reflexivity|]);
       eexists; repeat split; reflexivity). }
  exact (bare_records_are_not_saved _ Hnd Hok).
Defined.

Lemma undefined_is_saved_as_text_witness :
  EnvFile.loadPrinters (Some (EnvFile.savePrinters [("k2", env_no_ip)]))
  = [("k2", [("id", Some "k2"); ("role", Some "KITCHEN"); ("ip", Some "undefined")])].
Proof.
  assert (Hok : registry_ok (spelt_out [("k2", env_no_ip)])).
  { split; [by_evaluation|]. apply Forall_cons_2; [|apply Forall_nil_2].
    do 4 (split; [reflexivity|]).
    eexists; split; [reflexivity|]; split; [discriminate|]; split; [by_evaluation|].
    repeat apply Forall_cons_2; try apply Forall_nil_2;
      (split; [reflexivity|]; split; [discriminate|]; do 3 (split; [reflexivity|]);
       eexists; repeat split; reflexivity). }
  exact (undefined_is_saved_as_text _ Hok).
Defined.

End PrinterEnvExamples.

(** ** The printer registry *)

Lemma filter_other_replace (l : list Printer.t) i x p :
  l !! i = Some x → Printer.id x = Printer.id p →
  filter (other_id (Printer.id p)) (take i l ++ p :: drop (S i) l)
  = filter (other_id (Printer.id p)) l.
Proof.
  intros Hl Hx. rewrite <- (take_drop_middle l i x Hl) at 3.
  rewrite !filter_app. f_equal.
  rewrite !filter_cons_False; [done | |]; intros Hne; by apply Hne.
Qed.

Lemma filter_other_push (l : list Printer.t) p :
  filter (other_id (Printer.id p)) (l ++ [p]) = filter (other_id (Printer.id p)) l.
Proof.
  rewrite filter_app, filter_cons_False, filter_nil, app_nil_r; [done|].
  intros Hne. by apply Hne.
Qed.

Lemma Final_save_existing (printers : list Printer.t) p i x :
  list_find (same_id p) printers = Some (i, x) →
  Final.printer_save printers p = (saved, Some (take i printers ++ p :: drop (S i) printers)).
Proof.
  intros Hf. unfold Final.printer_save, js_find.
  rewrite Hf. simpl. by rewrite (js_set_index_found _ _ _ _ _ Hf).
Qed.

Lemma Stable_save_existing (printers : list Printer.t) p i x :
  list_find (same_id p) printers = Some (i, x) →
  Stable.printer_save printers p = (saved, Some (take i printers ++ p :: drop (S i) printers)).
Proof.
  intros Hf. unfold Stable.printer_save.
  rewrite (js_set_index_found _ _ _ _ _ Hf), (js_findIndex_found _ _ _ _ Hf).
  rewrite bool_decide_true by lia. done.
Qed.

Lemma Stable_save_new (printers : list Printer.t) p :
  list_find (same_id p) printers = None →
  Stable.printer_save printers p = (saved, Some (printers ++ [p])).
Proof.
  intros Hf. unfold Stable.printer_save.
  rewrite (js_findIndex_missing _ _ Hf). done.
Qed.

Lemma Final_save_new_rejected (printers : list Printer.t) p :
  list_find (same_id p) printers = None →
  limited (Printer.role p) → (3 ≤ role_count (Printer.role p) printers)%nat →
  ∃ msg, Final.printer_save printers p = (error_json 400 msg, None).
Proof.
  intros Hf Hlim Hc. unfold Final.printer_save, js_find.
  rewrite Hf. simpl. unfold role_count in Hc. destruct Hlim as [Hr | Hr].
  - rewrite Hr in Hc |- *. rewrite !bool_decide_true by done. simpl. eauto.
  - rewrite Hr in Hc |- *. rewrite (bool_decide_false ("KITCHEN" = "CASHIER")) by done.
    simpl. rewrite !bool_decide_true by done. simpl. eauto.
Qed.

Lemma Final_save_new_appended (printers : list Printer.t) p :
  list_find (same_id p) printers = None →
  ¬ limited (Printer.role p) ∨ (role_count (Printer.role p) printers < 3)%nat →
  Final.printer_save printers p = (saved, Some (printers ++ [p])).
Proof.
  intros Hf Hc. unfold Final.printer_save, js_find.
  rewrite Hf. simpl. unfold role_count, limited in Hc.
  destruct (decide (Printer.role p = "CASHIER")) as [Hr | Hr].
  - rewrite Hr in Hc |- *. rewrite (bool_decide_false (3 ≤ _)%nat).
    + rewrite andb_false_r. rewrite (bool_decide_false ("CASHIER" = "KITCHEN")) by done. done.
    + destruct Hc as [Hc | Hc]; [exfalso; apply Hc; by left | lia].
  - rewrite (bool_decide_false _ Hr). simpl.
    destruct (decide (Printer.role p = "KITCHEN")) as [Hk | Hk].
    + rewrite Hk in Hc |- *. rewrite (bool_decide_false (3 ≤ _)%nat).
      * by rewrite andb_false_r.
      * destruct Hc as [Hc | Hc]; [exfalso; apply Hc; by right | lia].
    + by rewrite (bool_decide_false _ Hk).
Qed.

Lemma list_find_new (printers : list Printer.t) p :
  Printer.id p ∉ (Printer.id <$> printers) →
  list_find (same_id p) printers = None.
Proof.
  intros Hnew. apply list_find_None, Forall_forall. intros x Hx Heq.
  apply Hnew. rewrite <- Heq. by apply list_elem_of_fmap_2.
Qed.

Lemma Final_save_new_cases (printers : list Printer.t) p :
  list_find (same_id p) printers = None →
  Final.printer_save printers p = (saved, Some (printers ++ [p]))
  ∨ ∃ msg, Final.printer_save printers p = (error_json 400 msg, None).
Proof.
  intros Hf.
  destruct (decide (limited (Printer.role p))) as [Hlim | Hlim].
  - destruct (decide (3 ≤ role_count (Printer.role p) printers)%nat) as [Hc | Hc].
    + right. by apply Final_save_new_rejected.
    + left. apply Final_save_new_appended; [done | right; lia].
  - left. apply Final_save_new_appended; [done | by left].
Qed.

Lemma Final_save_frame (printers : list Printer.t) p :
  filter (other_id (Printer.id p)) (persisted printers (Final.printer_save printers p))
  = filter (other_id (Printer.id p)) printers.
Proof.
  destruct (list_find (same_id p) printers) as [[i x]|] eqn:Hf.
  - rewrite (Final_save_existing _ _ _ _ Hf). unfold persisted. simpl.
    apply list_find_Some in Hf as (Hl & Hx & _). by eapply filter_other_replace.
  - destruct (Final_save_new_cases _ _ Hf) as [-> | [msg ->]]; unfold persisted; simpl.
    + apply filter_other_push.
    + done.
Qed.

Lemma Stable_save_frame (printers : list Printer.t) p :
  filter (other_id (Printer.id p)) (persisted printers (Stable.printer_save printers p))
  = filter (other_id (Printer.id p)) printers.
Proof.
  destruct (list_find (same_id p) printers) as [[i x]|] eqn:Hf.
  - rewrite (Stable_save_existing _ _ _ _ Hf). unfold persisted. simpl.
    apply list_find_Some in Hf as (Hl & Hx & _). by eapply filter_other_replace.
  - rewrite (Stable_save_new _ _ Hf). unfold persisted. simpl. apply filter_other_push.
Qed.

Section EnvRegistry.
Context {rt : JsRuntime}.


Lemma Env_save_refused (registry : EnvFile.Registry) (body : EnvFile.Obj) :
  EnvServer.holds registry (env_key body) = false →
  (3 ≤ env_role_count (EnvServer.role_of body) registry)%nat →
  EnvServer.printer_save registry body = (error_json 400 "Max 3 printers per role", None).
Proof.
  intros Hnew Hc. unfold EnvServer.printer_save. cbv zeta.
  fold (env_key body). fold (env_role_count (EnvServer.role_of body) registry).
  rewrite Hnew. by rewrite bool_decide_true.
Qed.

Lemma Env_save_stored (registry : EnvFile.Registry) (body : EnvFile.Obj) :
  EnvServer.holds registry (env_key body) = true
  ∨ (env_role_count (EnvServer.role_of body) registry < 3)%nat →
  EnvServer.printer_save registry body
  = (stored, Some (EnvServer.assign registry (env_key body) body)).
Proof.
  intros Hc. unfold EnvServer.printer_save. cbv zeta.
  fold (env_key body). fold (env_role_count (EnvServer.role_of body) registry).
  destruct Hc as [-> | Hc]; [done|].
  rewrite (bool_decide_false (3 ≤ _)%nat) by lia. by rewrite andb_false_r.
Qed.

Lemma Env_assign_own (registry : EnvFile.Registry) (k : string) (body : EnvFile.Obj) :
  k ∉ inherited_names → EnvServer.assign registry k body = EnvFile.set registry k body.
Proof.
  intros Hown. unfold EnvServer.assign. rewrite bool_decide_false; [done|].
  intros ->. apply Hown. by_evaluation.
Qed.

Lemma Env_reloaded_set (registry : EnvFile.Registry) (body : EnvFile.Obj) :
  registry_ok registry → printer_ok (env_key body, body) →
  EnvServer.holds registry (env_key body) = true
  ∨ (env_role_count (EnvServer.role_of body) registry < 3)%nat →
  env_reloaded registry (EnvServer.printer_save registry body)
  = EnvFile.set registry (env_key body) body.
Proof.
  intros Hok Hbody Hc. rewrite (Env_save_stored _ _ Hc). unfold env_reloaded. cbn [snd].
  assert (Hown : env_key body ∉ inherited_names).
  { destruct Hbody as [Hplain _]. by apply own_name_not_inherited, plain_name_own. }
  rewrite (Env_assign_own _ _ _ Hown). by apply load_saved_ok, registry_ok_set.
Qed.



End EnvRegistry.

(** C10 (amended). A save leaves every record with another id as it is and
    where it is among the others; a save of an id in the registry puts the
    record at the position of the first record with that id; a save of a new
    id appends it in part_000, and in src/server.js appends it unless the
    role is CASHIER or KITCHEN and the registry holds three records of it, in
    which case nothing is written; a delete keeps exactly the records with
    another id, in order. *)
Theorem save_delete_frame (printers : list Printer.t) (p : Printer.t) (id : string) :
  (filter (other_id (Printer.id p)) (persisted printers (Final.printer_save printers p))
   = filter (other_id (Printer.id p)) printers
   ∧ filter (other_id (Printer.id p)) (persisted printers (Stable.printer_save printers p))
     = filter (other_id (Printer.id p)) printers)
  ∧ (persisted printers (Final.printer_delete printers id) = filter (other_id id) printers
     ∧ persisted printers (Stable.printer_delete printers id) = filter (other_id id) printers)
  ∧ (∀ i x, list_find (same_id p) printers = Some (i, x) →
       persisted printers (Final.printer_save printers p)
       = take i printers ++ p :: drop (S i) printers
       ∧ persisted printers (Stable.printer_save printers p)
         = take i printers ++ p :: drop (S i) printers)
  ∧ (Printer.id p ∉ (Printer.id <$> printers) →
       Stable.printer_save printers p = (saved, Some (printers ++ [p]))
       ∧ (¬ limited (Printer.role p) ∨ (role_count (Printer.role p) printers < 3)%nat →
          Final.printer_save printers p = (saved, Some (printers ++ [p])))
       ∧ (limited (Printer.role p) → (3 ≤ role_count (Printer.role p) printers)%nat →
          snd (Final.printer_save printers p) = None
          ∧ persisted printers (Final.printer_save printers p) = printers)).
Proof.
  split; [split; [apply Final_save_frame | apply Stable_save_frame]|].
  split; [by split|]. split.
  - intros i x Hf.
    by rewrite (Final_save_existing _ _ _ _ Hf), (Stable_save_existing _ _ _ _ Hf).
  - intros Hnew. apply list_find_new in Hnew. split; [by apply Stable_save_new|]. split.
    + intros Hc. by apply Final_save_new_appended.
    + intros Hlim Hc.
      by destruct (Final_save_new_rejected printers p Hnew Hlim Hc) as [msg ->].
Qed.

Section RegistryExamples.
#[local] Existing Instance empty_documents_runtime.





Lemma save_delete_frame_witness :
  (list_find (same_id renamed_c2) four_cashiers = Some (1%nat, printer "c2" "CASHIER" true)
   ∧ persisted four_cashiers (Final.printer_save four_cashiers renamed_c2)
     = [printer "c1" "CASHIER" true; renamed_c2; printer "c3" "CASHIER" true;
        printer "c4" "CASHIER" true]
   ∧ persisted four_cashiers (Stable.printer_save four_cashiers renamed_c2)
     = [printer "c1" "CASHIER" true; renamed_c2; printer "c3" "CASHIER" true;
        printer "c4" "CASHIER" true])
  ∧ (Printer.id (printer "b4" "BAR" true) ∉ (Printer.id <$> three_bars))
  ∧ Stable.printer_save three_bars (printer "b4" "BAR" true)
    = (saved, Some (three_bars ++ [printer "b4" "BAR" true]))
  ∧ Final.printer_save three_bars (printer "b4" "BAR" true)
    = (saved, Some (three_bars ++ [printer "b4" "BAR" true])).
Proof.
  assert (Hf : list_find (same_id renamed_c2) four_cashiers
               = Some (1%nat, printer "c2" "CASHIER" true)) by reflexivity.
  assert (Hnew : Printer.id (printer "b4" "BAR" true) ∉ (Printer.id <$> three_bars))
    by by_evaluation.
  assert (Hbar : ¬ limited (Printer.role (printer "b4" "BAR" true))
                 ∨ (role_count (Printer.role (printer "b4" "BAR" true)) three_bars < 3)%nat).
  { left. intros [Hr | Hr]; vm_compute in Hr; discriminate. }
  destruct (save_delete_frame four_cashiers renamed_c2 "c2") as (_ & _ & Hplace & _).
  destruct (save_delete_frame three_bars (printer "b4" "BAR" true) "b4")
    as (_ & _ & _ & Hpush).
  destruct (Hpush Hnew) as (Hstable & Hfinal & _).
  split; [split; [exact Hf | exact (Hplace _ _ Hf)]|].
  split; [exact Hnew|]. split; [exact Hstable | exact (Hfinal Hbar)].
Defined.

(** C10, as stated, fails in src/server.js: a save of a new id is not always
    appended. With three CASHIER printers in the registry a fourth one is
    refused and the registry stays as it is, while part_000 appends it. *)
Lemma save_of_new_id_not_always_appended :
  (Printer.id (printer "c4" "CASHIER" true) ∉ (Printer.id <$> three_cashiers))
  ∧ Final.printer_save three_cashiers (printer "c4" "CASHIER" true)
    = (error_json 400 "Max Cashier printers reached", None)
  ∧ persisted three_cashiers (Final.printer_save three_cashiers (printer "c4" "CASHIER" true))
    = three_cashiers
  ∧ persisted three_cashiers (Final.printer_save three_cashiers (printer "c4" "CASHIER" true))
    ≠ three_cashiers ++ [printer "c4" "CASHIER" true]
  ∧ persisted three_cashiers (Stable.printer_save three_cashiers (printer "c4" "CASHIER" true))
    = three_cashiers ++ [printer "c4" "CASHIER" true].
Proof.
  split; [by_evaluation|]. split; [reflexivity|]. split; [reflexivity|].
  split; [|reflexivity]. vm_compute. discriminate.
Qed.

End RegistryExamples.

(** ** The client gate *)

Lemma header_present (h : option string) :
  header_falsy h = false → ∃ s, h = Some s ∧ s ≠ "".
Proof.
  destruct h as [s|]; [|done]. simpl. intros Hs%bool_decide_eq_false. eauto.
Qed.

Lemma Stable_auth_disabled clients cid key :
  Stable.authRequired false clients cid key = Pass None.
Proof. done. Qed.

Lemma Stable_auth_missing clients cid key :
  header_falsy cid || header_falsy key = true →
  Stable.authRequired true clients cid key
  = Deny (error_json 401 "Client ID / Print Key missing").
Proof. intros Hm. unfold Stable.authRequired. simpl. by rewrite Hm. Qed.

Lemma Stable_auth_present clients cid key :
  header_falsy cid || header_falsy key = false →
  Stable.authRequired true clients cid key
  = match js_find (λ c, Some (Client.id c) = cid) clients with
    | None => Deny (error_json 403 "Client not allowed")
    | Some client =>
        if negb (Client.truthy_enabled client)
        then Deny (error_json 403 "Client not allowed")
        else if bool_decide (Some (Client.pin client) ≠ key)
             then Deny (error_json 403 "Invalid Print Key")
             else Pass (Some client)
    end.
Proof. intros Hm. unfold Stable.authRequired. simpl. by rewrite Hm. Qed.

Lemma Final_auth_cases clients cid key :
  (Final.authCheck true clients cid key = Pass None
   ∨ Final.authCheck true clients cid key = Deny (error_json 401 "Unauthorized"))
  ∧ (Final.authCheck true clients cid key = Pass None
     ↔ ∃ c, c ∈ clients ∧ Some (Client.id c) = cid ∧ Some (Client.pin c) = key
            ∧ Client.truthy_enabled c = true).
Proof.
  unfold Final.authCheck. simpl.
  destruct (js_find _ clients) as [c|] eqn:Hf.
  - split; [by left|]. split; [|done].
    intros _. apply js_find_Some_elem in Hf as (Hc & Hid & Hpin & He).
    exists c. repeat split; try done. by apply Is_true_true.
  - split; [by right|]. split; [done|]. intros (c & Hc & Hid & Hpin & He).
    apply js_find_None in Hf. rewrite Forall_forall in Hf.
    exfalso. apply (Hf c Hc). repeat split; try done. by apply Is_true_true.
Qed.

(** C3 (amended). With the flag off every gate lets the request through. With
    the flag on, the gate of part_000 answers 401 exactly when the client id
    or the key is missing or empty; otherwise it answers 403 exactly when no
    client has the id, or the client found for the id is not enabled, or its
    pin is not the key, and the message of that 403 is "Invalid Print Key"
    when the pin alone is wrong and "Client not allowed" in the two other
    cases; otherwise it passes the request on with the client. The gate of
    src/server.js answers 401 "Unauthorized" whenever no enabled client has
    the id and the key, missing credentials included. *)
Theorem auth_gate_outcomes (clients : list Client.t) (cid key : option string) :
  let found := js_find (λ c, Some (Client.id c) = cid) clients in
  let missing := header_falsy cid || header_falsy key in
  (Stable.authRequired false clients cid key = Pass None
   ∧ Final.authCheck false clients cid key = Pass None)
  ∧ (status <$> refusal (Stable.authRequired true clients cid key) = Some 401
     ↔ missing = true)
  ∧ (status <$> refusal (Stable.authRequired true clients cid key) = Some 403
     ↔ missing = false
       ∧ (found = None
          ∨ ∃ c, found = Some c
                 ∧ (Client.truthy_enabled c = false ∨ Some (Client.pin c) ≠ key)))
  ∧ (missing = false →
     (found = None →
        Stable.authRequired true clients cid key = Deny (error_json 403 "Client not allowed"))
     ∧ (∀ c, found = Some c →
          (Client.truthy_enabled c = false →
             Stable.authRequired true clients cid key
             = Deny (error_json 403 "Client not allowed"))
          ∧ (Client.truthy_enabled c = true → Some (Client.pin c) ≠ key →
             Stable.authRequired true clients cid key
             = Deny (error_json 403 "Invalid Print Key"))
          ∧ (Client.truthy_enabled c = true → Some (Client.pin c) = key →
             Stable.authRequired true clients cid key = Pass (Some c))))
  ∧ (Final.authCheck true clients cid key = Pass None
     ∨ Final.authCheck true clients cid key = Deny (error_json 401 "Unauthorized"))
  ∧ (Final.authCheck true clients cid key = Pass None
     ↔ ∃ c, c ∈ clients ∧ Some (Client.id c) = cid ∧ Some (Client.pin c) = key
            ∧ Client.truthy_enabled c = true).
Proof.
  cbv zeta. split; [done|].
  destruct (header_falsy cid || header_falsy key) eqn:Hm.
  - rewrite (Stable_auth_missing _ _ _ Hm). simpl.
    split; [done|]. split; [split; [done | by intros [? _]]|].
    split; [done|]. apply Final_auth_cases.
  - rewrite (Stable_auth_present _ _ _ Hm).
    split; [|split; [|split; [|apply Final_auth_cases]]].
    + split; [|done]. destruct (js_find _ clients) as [c|]; [|done].
      destruct (negb _); [done|]. by destruct (bool_decide _).
    + destruct (js_find _ clients) as [c|]; [|by split; [auto|]].
      destruct (Client.truthy_enabled c) eqn:He; simpl.
      * destruct (decide (Some (Client.pin c) ≠ key)) as [Hp | Hp].
        -- rewrite (bool_decide_true _ Hp). simpl. split; [|done].
           intros _. split; [done|]. right. exists c. auto.
        -- rewrite (bool_decide_false _ Hp). simpl. split; [done|].
           intros [_ [Hn | (c' & Hc' & [Hd | Hd])]]; simplify_eq; try congruence; by destruct Hp.
      * split; [|done]. intros _. split; [done|]. right. exists c. auto.
    + intros _. destruct (js_find _ clients) as [c|]; (split; [done|]).
      * intros c' [= <-]. split; [|split].
        -- by intros ->.
        -- intros -> Hp. simpl. by rewrite (bool_decide_true _ Hp).
        -- intros -> Hp. simpl. rewrite bool_decide_false; [done|]. by intros Hne.
      * done.
Qed.

Lemma Core_auth_refusals_alike clients cid key :
  header_falsy cid || header_falsy key = false →
  Core.authRequired true clients cid key = Pass None
  ∨ Core.authRequired true clients cid key = Deny (error_json 403 "Invalid client").
Proof.
  intros Hm. unfold Core.authRequired. simpl. rewrite Hm.
  destruct (js_find _ clients); auto.
Qed.

Lemma auth_gate_outcomes_witness :
  header_falsy (Some "clt-a1b2c3") || header_falsy (Some "123456") = false
  ∧ js_find (λ c, Some (Client.id c) = Some "clt-a1b2c3") [bob_disabled; alice] = Some alice
  ∧ Client.truthy_enabled alice = true
  ∧ Stable.authRequired true [bob_disabled; alice] (Some "clt-a1b2c3") (Some "123456")
    = Pass (Some alice).
Proof.
  assert (Hm : header_falsy (Some "clt-a1b2c3") || header_falsy (Some "123456") = false)
    by reflexivity.
  assert (Hf : js_find (λ c, Some (Client.id c) = Some "clt-a1b2c3") [bob_disabled; alice]
               = Some alice) by reflexivity.
  split; [exact Hm|]. split; [exact Hf|]. split; [reflexivity|].
  destruct (auth_gate_outcomes [bob_disabled; alice] (Some "clt-a1b2c3") (Some "123456"))
    as (_ & _ & _ & Hpresent & _).
  destruct (Hpresent Hm) as [_ Hfound].
  destruct (Hfound alice Hf) as (_ & _ & Hpass).
  apply Hpass; reflexivity.
Defined.

(** C3, as stated, fails: in part_000 the response to a wrong key is not the
    response to an unknown or a disabled client, and in src/server.js a wrong
    key is answered 401, not 403. *)
Lemma auth_refusals_differ :
  Stable.authRequired true [alice; bob_disabled] (Some "clt-a1b2c3") (Some "000000")
  = Deny (error_json 403 "Invalid Print Key")
  ∧ Stable.authRequired true [alice; bob_disabled] (Some "clt-ffffff") (Some "000000")
    = Deny (error_json 403 "Client not allowed")
  ∧ Stable.authRequired true [alice; bob_disabled] (Some "clt-d4e5f6") (Some "654321")
    = Deny (error_json 403 "Client not allowed")
  ∧ error_json 403 "Invalid Print Key" ≠ error_json 403 "Client not allowed"
  ∧ Final.authCheck true [alice; bob_disabled] (Some "clt-a1b2c3") (Some "000000")
    = Deny (error_json 401 "Unauthorized").
Proof. repeat split; try reflexivity. discriminate. Qed.

(** ** Decimal digits *)

Lemma length_append (s1 s2 : string) :
  String.length (s1 +:+ s2) = (String.length s1 + String.length s2)%nat.
Proof. induction s1 as [|c s1 IH]; simpl; [done | by rewrite IH]. Qed.

Lemma all_digits_append (s1 s2 : string) :
  all_digits (s1 +:+ s2) = all_digits s1 && all_digits s2.
Proof. induction s1 as [|c s1 IH]; simpl; [done | by rewrite IH, andb_assoc]. Qed.

Lemma digit_char_is_digit (d : Z) : 0 ≤ d < 10 → is_digit (digit_char d) = true.
Proof.
  intros Hd. assert (Hcases : d = 0 ∨ d = 1 ∨ d = 2 ∨ d = 3 ∨ d = 4 ∨ d = 5
                              ∨ d = 6 ∨ d = 7 ∨ d = 8 ∨ d = 9) by lia.
  repeat destruct Hcases as [-> | Hcases]; try reflexivity. by subst.
Qed.

Lemma decimal_fuel_small (fuel : nat) (n : Z) :
  n < 10 → decimal_fuel (S fuel) n = String (digit_char n) "".
Proof. intros Hn. cbn [decimal_fuel]. by rewrite (proj2 (Z.ltb_lt n 10) Hn). Qed.

Lemma decimal_fuel_step (fuel : nat) (n : Z) :
  10 ≤ n →
  decimal_fuel (S fuel) n
  = decimal_fuel fuel (n / 10) +:+ String (digit_char (n mod 10)) "".
Proof. intros Hn. cbn [decimal_fuel]. by rewrite (proj2 (Z.ltb_ge n 10) Hn). Qed.

Lemma decimal_fuel_digits (fuel : nat) (n : Z) :
  0 ≤ n → all_digits (decimal_fuel fuel n) = true.
Proof.
  revert n. induction fuel as [|fuel IH]; intros n Hn; [done|].
  destruct (decide (n < 10)) as [Hs | Hs].
  - rewrite decimal_fuel_small by done. cbn [all_digits].
    rewrite digit_char_is_digit by lia. done.
  - rewrite decimal_fuel_step by lia. rewrite all_digits_append. cbn [all_digits].
    rewrite IH by (apply Z.div_pos; lia).
    rewrite digit_char_is_digit; [done|]. apply Z.mod_pos_bound. lia.
Qed.

Lemma decimal_fuel_length (k : nat) (n lo : Z) (digits : nat) :
  lo = 10 ^ Z.of_nat digits → lo ≤ n < 10 * lo →
  String.length (decimal_fuel (S digits + k) n) = S digits.
Proof.
  revert n lo. induction digits as [|digits IH]; intros n lo -> Hn.
  - change (10 ^ Z.of_nat 0) with 1 in Hn. rewrite decimal_fuel_small by lia. done.
  - rewrite Nat2Z.inj_succ, Z.pow_succ_r in Hn by lia.
    assert (0 < 10 ^ Z.of_nat digits) by (apply Z.pow_pos_nonneg; lia).
    change (S (S digits) + k)%nat with (S (S digits + k)).
    rewrite decimal_fuel_step by lia. rewrite length_append.
    rewrite (IH (n / 10) (10 ^ Z.of_nat digits)); [cbn [String.length]; lia | done |].
    split.
    + apply Z.div_le_lower_bound; lia.
    + apply Z.div_lt_upper_bound; lia.
Qed.

Lemma decimal_six_digits (n : Z) :
  100000 ≤ n ≤ 999999 →
  String.length (decimal n) = 6%nat ∧ all_digits (decimal n) = true.
Proof.
  intros Hn. split; [|apply decimal_fuel_digits; lia].
  unfold decimal.
  assert (Hlog : 16 ≤ Z.log2 n).
  { change 16 with (Z.log2 100000). apply Z.log2_le_mono. lia. }
  replace (S (Z.to_nat (Z.log2 n))) with (6 + (Z.to_nat (Z.log2 n) - 5))%nat by lia.
  apply (decimal_fuel_length _ n 100000 5); [done | lia].
Qed.

(** ** Doubles: rounding of the product and the sum of the pin *)

Lemma digits2_pos_bounds (m : positive) :
  2 ^ (Z.pos (digits2_pos m) - 1) ≤ Z.pos m < 2 ^ Z.pos (digits2_pos m).
Proof.
  induction m as [m IH | m IH |]; cbn [digits2_pos]; [| |done].
  - rewrite Pos2Z.inj_succ. change (Z.pos m~1) with (2 * Z.pos m + 1).
    replace (Z.succ (Z.pos (digits2_pos m)) - 1) with (Z.succ (Z.pos (digits2_pos m) - 1)) by lia.
    rewrite !Z.pow_succ_r by lia. lia.
  - rewrite Pos2Z.inj_succ. change (Z.pos m~0) with (2 * Z.pos m).
    replace (Z.succ (Z.pos (digits2_pos m)) - 1) with (Z.succ (Z.pos (digits2_pos m) - 1)) by lia.
    rewrite !Z.pow_succ_r by lia. lia.
Qed.

Lemma shifted_0 (M : Z) : 0 ≤ M → shifted M 0 (Build_shr_record M false false).
Proof.
  intros HM. unfold shifted. cbn [shr_m shr_r shr_s]. rewrite Z.pow_0_r.
  split; [done|]. split; [lia|]. split; [split; [done | lia]|]. split; [lia | done].
Qed.

Lemma shifted_1 (M k : Z) (r : shr_record) :
  0 ≤ k → shifted M k r → shifted M (k + 1) (shr_1 r).
Proof.
  intros Hk (Hm & Hbounds & Hr & Hs). destruct r as [m r s]. cbn [shr_m shr_r shr_s] in *.
  assert (Hpow : 2 ^ (k + 1) = 2 * 2 ^ k) by (rewrite Z.pow_add_r by lia; lia).
  assert (Hpos : 0 < 2 ^ k) by (apply Z.pow_pos_nonneg; lia).
  unfold shifted. rewrite Hpow. generalize dependent (2 ^ k). intros a Hbounds Hr Hs _ Ha.
  assert (Hrs : r || s = false ↔ M = m * a) by exact Hs. clear Hs.
  destruct m as [|[p|p|]|p]; cbn [shr_1 shr_m shr_r shr_s]; [| | | |lia].
  - split; [done|]. split; [lia|]. split; [split; [done | intros; exfalso; lia]|].
    rewrite orb_false_l, Hrs. lia.
  - change (Z.pos p~1) with (2 * Z.pos p + 1) in *.
    split; [lia|]. split; [lia|]. split; [split; [lia | done]|].
    rewrite orb_true_l. split; [done | intros; exfalso; lia].
  - change (Z.pos p~0) with (2 * Z.pos p) in *.
    split; [lia|]. split; [lia|]. split; [split; [done | intros; exfalso; lia]|].
    rewrite orb_false_l, Hrs. lia.
  - split; [done|]. split; [lia|]. split; [split; [lia | done]|].
    rewrite orb_true_l. split; [done | intros; exfalso; lia].
Qed.

Lemma shifted_iter (M : Z) (p : positive) (k : Z) (r : shr_record) :
  0 ≤ k → shifted M k r → shifted M (k + Z.pos p) (SpecFloat.iter_pos shr_1 p r).
Proof.
  revert k r. induction p as [p IH | p IH |]; intros k r Hk Hr; cbn [SpecFloat.iter_pos].
  - replace (k + Z.pos p~1) with (k + 1 + Z.pos p + Z.pos p) by lia.
    apply IH; [lia|]. apply IH; [lia|]. by apply shifted_1.
  - replace (k + Z.pos p~0) with (k + Z.pos p + Z.pos p) by lia.
    apply IH; [lia|]. by apply IH.
  - by apply shifted_1.
Qed.

Lemma fexp_unfold (e : Z) : fexp 53 1024 e = Z.max (e - 53) (-1074).
Proof. reflexivity. Qed.

Lemma round_nearest_even_cases (m : Z) (r s : bool) :
  let mr := round_nearest_even m (loc_of_shr_record (Build_shr_record m r s)) in
  (mr = m ∨ mr = m + 1) ∧ (mr = m + 1 → r = true) ∧ (r || s = false → mr = m).
Proof.
  cbv zeta. destruct r, s; cbn [loc_of_shr_record round_nearest_even]; try (split; [|split]; auto; lia).
  destruct (Z.even m); split; auto; split; auto; try lia; done.
Qed.

Lemma second_shift (mr e1 : Z) :
  0 ≤ mr ≤ 2 ^ 53 → -1074 ≤ e1 ≤ 900 →
  (let '(mrs, e2) := shr_fexp 53 1024 mr e1 loc_Exact in
   match shr_m mrs with
   | Z0 => S754_zero false
   | Zpos m => if e2 <=? 1024 - 53 then S754_finite false m e2 else S754_infinity false
   | Zneg _ => S754_nan
   end) = rounded mr e1.
Proof.
  intros Hmr He. unfold shr_fexp, rounded.
  change (2 ^ 53) with 9007199254740992 in *.
  destruct mr as [|q|q]; [| |lia].
  - cbn [Zdigits2]. rewrite fexp_unfold.
    replace (Z.max (0 + e1 - 53) (-1074) - e1) with (Z.max (-53) (-1074 - e1)) by lia.
    destruct (Z.max (-53) (-1074 - e1)) eqn:Hn; try lia; done.
  - cbn [Zdigits2]. rewrite fexp_unfold.
    destruct (decide (q = 9007199254740992%positive)) as [-> | Hq].
    + change (Z.pos (digits2_pos 9007199254740992)) with 54.
      replace (Z.max (54 + e1 - 53) (-1074) - e1) with 1 by lia.
      cbn [shr shr_record_of_loc SpecFloat.iter_pos shr_1 shr_m].
      change (1024 - 53) with 971. rewrite (proj2 (Z.leb_le (e1 + 1) 971)) by lia. done.
    + pose proof (digits2_pos_bounds q) as Hd.
      assert (Hlt : Z.pos q < 2 ^ 53) by (change (2 ^ 53) with 9007199254740992; lia).
      assert (Hdq : Z.pos (digits2_pos q) ≤ 53).
      { destruct (decide (Z.pos (digits2_pos q) ≤ 53)) as [|Hgt]; [done|]. exfalso.
        assert (2 ^ 53 ≤ 2 ^ (Z.pos (digits2_pos q) - 1)) by (apply Z.pow_le_mono_r; lia).
        lia. }
      assert (Hne : (Z.pos q =? 9007199254740992) = false) by (apply Z.eqb_neq; lia).
      change (1024 - 53) with 971.
      destruct (Z.max (Z.pos (digits2_pos q) + e1 - 53) (-1074) - e1) eqn:Hn; try lia;
        cbn [shr shr_record_of_loc shr_m];
        rewrite (proj2 (Z.leb_le e1 971)) by lia; cbn [Z.eqb]; 
        change (Z.pos q =? 9007199254740992) with (Z.pos q =? 9007199254740992) in Hne;
        cbn [Z.eqb] in Hne; rewrite Hne; done.
Qed.

Lemma binary_round_aux_pos (mm : positive) (E : Z) :
  let M := Z.pos mm in
  let e1 := Z.max E (fexp 53 1024 (Z.pos (digits2_pos mm) + E)) in
  let n := e1 - E in
  Z.pos (digits2_pos mm) + E ≤ 100 → -1200 ≤ E ≤ 0 →
  ∃ mr, binary_round_aux 53 1024 false M E loc_Exact = rounded mr e1
        ∧ 0 ≤ mr ≤ 2 ^ 53
        ∧ (mr - 1) * 2 ^ n ≤ M < (mr + 1) * 2 ^ n
        ∧ (M < mr * 2 ^ n → 2 ^ n ≤ 2 * (M - (mr - 1) * 2 ^ n)).
Proof.
  cbv zeta. intros Hd HE. pose proof (digits2_pos_bounds mm) as HM.
  set (d := Z.pos (digits2_pos mm)) in *. rewrite fexp_unfold.
  unfold binary_round_aux. unfold shr_fexp at 1. cbn [Zdigits2]. fold d. rewrite fexp_unfold.
  cbn [shr_record_of_loc].
  destruct (Z.max (d + E - 53) (-1074) - E) as [|p|p] eqn:Hn.
  - (* no shift *)
    cbn [shr shr_m loc_of_shr_record round_nearest_even].
    assert (He1 : Z.max E (Z.max (d + E - 53) (-1074)) = E) by lia. rewrite He1.
    assert (Hlt : Z.pos mm < 2 ^ 53).
    { eapply Z.lt_le_trans; [apply HM|]. apply Z.pow_le_mono_r; lia. }
    exists (Z.pos mm). split; [apply second_shift; lia|].
    replace (E - E) with 0 by lia. rewrite Z.pow_0_r. lia.
  - cbn [shr].
    assert (He1 : Z.max E (Z.max (d + E - 53) (-1074)) = E + Z.pos p) by lia. rewrite He1.
    replace (E + Z.pos p - E) with (Z.pos p) by lia.
    pose proof (shifted_iter (Z.pos mm) p 0 (Build_shr_record (Z.pos mm) false false)
                  (Z.le_refl 0) (shifted_0 _ (Pos2Z.is_nonneg mm))) as Hsh.
    rewrite Z.add_0_l in Hsh.
    destruct (SpecFloat.iter_pos shr_1 p _) as [m1 r s]. destruct Hsh as (Hm1 & Hb & Hr & Hs).
    cbn [shr_m shr_r shr_s] in *.
    pose proof (round_nearest_even_cases m1 r s) as Hround. cbv zeta in Hround.
    set (mr := round_nearest_even m1 _) in *. destruct Hround as (Hcases & Hup & Hexact).
    assert (Hpos : 0 < 2 ^ Z.pos p) by (apply Z.pow_pos_nonneg; lia).
    assert (Hm53 : m1 < 2 ^ 53).
    { assert (2 ^ d ≤ 2 ^ (53 + Z.pos p)) by (apply Z.pow_le_mono_r; lia).
      rewrite Z.pow_add_r in H by lia. nia. }
    exists mr. split; [apply second_shift; lia|]. split; [lia|]. split.
    + destruct Hcases as [-> | ->]; nia.
    + intros Hlt. destruct Hcases as [Heq | Heq]; [rewrite Heq in Hlt; lia|].
      rewrite Heq. replace (m1 + 1 - 1) with m1 by lia. by apply Hr, Hup.
  - (* no shift *)
    cbn [shr shr_m loc_of_shr_record round_nearest_even].
    assert (He1 : Z.max E (Z.max (d + E - 53) (-1074)) = E) by lia. rewrite He1.
    assert (Hlt : Z.pos mm < 2 ^ 53).
    { eapply Z.lt_le_trans; [apply HM|]. apply Z.pow_le_mono_r; lia. }
    exists (Z.pos mm). split; [apply second_shift; lia|].
    replace (E - E) with 0 by lia. rewrite Z.pow_0_r. lia.
Qed.

Lemma scaled_rounded (mr e1 : Z) :
  0 ≤ mr ≤ 2 ^ 53 → -1200 ≤ e1 → scaled (rounded mr e1) = mr * 2 ^ (e1 + 1200).
Proof.
  intros Hmr He. unfold rounded. change (2 ^ 53) with 9007199254740992 in *.
  destruct (mr =? 0) eqn:H0; [apply Z.eqb_eq in H0; by subst|]. apply Z.eqb_neq in H0.
  destruct (mr =? 9007199254740992) eqn:H53.
  - apply Z.eqb_eq in H53. subst mr. cbn [scaled].
    replace (e1 + 1 + 1200) with (Z.succ (e1 + 1200)) by lia.
    rewrite Z.pow_succ_r by lia. change (Z.pos (Z.to_pos (2 ^ 52))) with 4503599627370496.
    generalize (2 ^ (e1 + 1200)). intros. lia.
  - cbn [scaled]. rewrite Z2Pos.id by lia. done.
Qed.

Lemma Math_floor_scaled (m : positive) (e : Z) :
  -1200 ≤ e → Math_floor (S754_finite false m e)
              = Some (scaled (S754_finite false m e) / 2 ^ 1200).
Proof.
  intros He. cbn [Math_floor scaled]. f_equal. destruct (0 <=? e) eqn:Hs.
  - apply Z.leb_le in Hs. rewrite Z.pow_add_r by lia. rewrite Z.mul_assoc.
    rewrite Z.div_mul; [done|]. apply Z.pow_nonzero; lia.
  - apply Z.leb_gt in Hs.
    assert (Hsplit : 2 ^ 1200 = 2 ^ (e + 1200) * 2 ^ (- e)).
    { rewrite <- Z.pow_add_r by lia. f_equal. lia. }
    rewrite Hsplit, (Z.mul_comm (Z.pos m)).
    rewrite Z.div_mul_cancel_l; [done| |]; apply Z.pow_nonzero; lia.
Qed.

Lemma Math_floor_rounded (mr e1 : Z) :
  0 ≤ mr ≤ 2 ^ 53 → -1200 ≤ e1 →
  Math_floor (rounded mr e1) = Some (mr * 2 ^ (e1 + 1200) / 2 ^ 1200).
Proof.
  intros Hmr He. rewrite <- scaled_rounded by done. unfold rounded.
  destruct (mr =? 0); [done|].
  destruct (mr =? 2 ^ 53); apply Math_floor_scaled; lia.
Qed.

Lemma shl_align_value (mx : positive) (ex ez : Z) :
  ez ≤ ex → Z.pos (fst (shl_align mx ex ez)) = Z.pos mx * 2 ^ (ex - ez).
Proof.
  intros Hle. unfold shl_align. destruct (ez - ex) as [|d|d] eqn:Hd; try lia.
  - replace (ex - ez) with 0 by lia. cbn [fst]. lia.
  - cbn [fst]. replace (ex - ez) with (Z.pos d) by lia. clear Hd Hle.
    induction d as [|d IH] using Pos.peano_ind.
    + cbn [Pos.iter]. change (Z.pos mx~0) with (2 * Z.pos mx). lia.
    + rewrite Pos.iter_succ. change (Z.pos (Pos.iter xO mx d)~0) with (2 * Z.pos (Pos.iter xO mx d)).
      rewrite IH, Pos2Z.inj_succ, Z.pow_succ_r by lia. lia.
Qed.

Lemma pow2_lt_exp (a b : Z) : 0 ≤ b → 2 ^ a < 2 ^ b → a < b.
Proof. intros Hb Hlt. apply (Z.pow_lt_mono_r_iff 2); [lia | done | done]. Qed.

Lemma pow2_pos (a : Z) : 0 ≤ a → 0 < 2 ^ a.
Proof. intros Ha. apply Z.pow_pos_nonneg; lia. Qed.

Lemma mul_le_cancel (a b w : Z) : 0 < w → a * w ≤ b * w → a ≤ b.
Proof. intros Hw. by apply Z.mul_le_mono_pos_r. Qed.

Lemma mul_lt_cancel (a b w : Z) : 0 < w → a * w < b * w → a < b.
Proof. intros Hw. by apply Z.mul_lt_mono_pos_r. Qed.

(** A sum between two points of the grid is rounded between them. *)
Lemma rounded_between (mr ms T U W lo hi : Z) :
  0 < T → 0 < U → W = T * U →
  lo * W ≤ ms * U ≤ hi * W →
  (mr - 1) * T ≤ ms < (mr + 1) * T →
  (ms < mr * T → T ≤ 2 * (ms - (mr - 1) * T)) →
  lo ≤ mr ≤ hi.
Proof.
  intros HT HU -> [Hlo Hhi] [Hb1 Hb2] Hup.
  assert (HW : 0 < T * U) by lia. split.
  - assert (lo < mr + 1); [|lia]. apply (mul_lt_cancel _ _ (T * U) HW).
    eapply Z.le_lt_trans; [exact Hlo|]. rewrite Z.mul_assoc.
    by apply Z.mul_lt_mono_pos_r.
  - destruct (decide (ms < mr * T)) as [Hlt | Hge].
    + assert (mr - 1 < hi); [|lia]. apply (mul_lt_cancel _ _ (T * U) HW).
      eapply Z.lt_le_trans; [|exact Hhi]. rewrite Z.mul_assoc.
      apply Z.mul_lt_mono_pos_r; [done|]. specialize (Hup Hlt). lia.
    + apply (mul_le_cancel _ _ (T * U) HW).
      etrans; [|exact Hhi]. rewrite Z.mul_assoc.
      apply Z.mul_le_mono_nonneg_r; lia.
Qed.

Lemma sum_floor (my : positive) (ey : Z) :
  -1200 ≤ ey ≤ 100 →
  Z.pos my * 2 ^ (ey + 1200) ≤ 900000 * 2 ^ 1200 - 2 ^ 1167 →
  ∃ n, Math_floor (SFadd 53 1024 (double_of_Z 100000) (S754_finite false my ey)) = Some n
       ∧ 100000 ≤ n ≤ 999999.
Proof.
  intros Hey Hy.
  change (double_of_Z 100000) with (S754_finite false 6871947673600000 (-36)).
  cbn [SFadd cond_Zopp]. set (ez := Z.min (-36) ey).
  assert (Hez : -1200 ≤ ez ≤ -36) by lia.
  rewrite !shl_align_value by lia.
  set (U := 2 ^ (ez + 1200)).
  assert (HU : 0 < U) by (apply pow2_pos; lia).
  assert (HA : 6871947673600000 * 2 ^ (-36 - ez) * U = 100000 * 2 ^ 1200).
  { unfold U. rewrite <- Z.mul_assoc, <- Z.pow_add_r by lia.
    replace (-36 - ez + (ez + 1200)) with 1164 by lia.
    change 6871947673600000 with (100000 * 2 ^ 36).
    rewrite <- Z.mul_assoc, <- Z.pow_add_r by lia. done. }
  assert (HB : Z.pos my * 2 ^ (ey - ez) * U = Z.pos my * 2 ^ (ey + 1200)).
  { unfold U. rewrite <- Z.mul_assoc, <- Z.pow_add_r by lia. f_equal. f_equal. lia. }
  assert (HposA : 0 < 6871947673600000 * 2 ^ (-36 - ez)).
  { apply Z.mul_pos_pos; [lia | apply pow2_pos; lia]. }
  assert (HposB : 0 < Z.pos my * 2 ^ (ey - ez)).
  { apply Z.mul_pos_pos; [lia | apply pow2_pos; lia]. }
  destruct (6871947673600000 * 2 ^ (-36 - ez) + Z.pos my * 2 ^ (ey - ez)) as [|ms|ms] eqn:Hms;
    [lia| |lia].
  assert (Hvy : 0 < Z.pos my * 2 ^ (ey + 1200)).
  { apply Z.mul_pos_pos; [lia | apply pow2_pos; lia]. }
  assert (Hs : Z.pos ms * U = 100000 * 2 ^ 1200 + Z.pos my * 2 ^ (ey + 1200)).
  { rewrite <- Hms, Z.mul_add_distr_r, HA, HB. done. }
  clear Hms HA HB HposA HposB.
  set (vy := Z.pos my * 2 ^ (ey + 1200)) in *. clearbody vy.
  cbn [binary_normalize]. unfold binary_round.
  pose proof (digits2_pos_bounds ms) as Hd. set (d := Z.pos (digits2_pos ms)) in *.
  assert (Hd1 : 1 ≤ d) by (unfold d; lia).
  assert (H1167 : 0 < 2 ^ 1167) by (by apply pow2_pos).
  assert (H1200 : 0 < 2 ^ 1200) by (by apply pow2_pos).
  assert (Hdlo : 17 ≤ d + ez).
  { assert (Hlt : 2 ^ (16 + 1200) < 2 ^ (d + (ez + 1200))); [|apply pow2_lt_exp in Hlt; lia].
    rewrite (Z.pow_add_r 2 d) by lia. fold U.
    rewrite (Z.pow_add_r 2 16 1200) by lia. change (2 ^ 16) with 65536.
    destruct Hd as [_ Hd]. revert Hd Hs Hvy HU H1200.
    generalize (2 ^ 1200), (2 ^ d), (Z.pos ms). clear. intros. nia. }
  assert (Hdhi : d + ez ≤ 20).
  { assert (Hlt : 2 ^ (d - 1 + (ez + 1200)) < 2 ^ (20 + 1200)); [|apply pow2_lt_exp in Hlt; lia].
    rewrite (Z.pow_add_r 2 (d - 1)) by lia. fold U.
    rewrite (Z.pow_add_r 2 20 1200) by lia. change (2 ^ 20) with 1048576.
    destruct Hd as [Hd _]. revert Hd Hs Hy Hvy HU H1200 H1167.
    generalize (2 ^ 1200), (2 ^ 1167), (2 ^ (d - 1)), (Z.pos ms). clear. intros. nia. }
  assert (Hnoshift : shl_align ms ez (fexp 53 1024 (d + ez)) = (ms, ez)).
  { rewrite fexp_unfold. unfold shl_align.
    destruct (Z.max (d + ez - 53) (-1074) - ez) eqn:Hshift; [done | done | lia]. }
  rewrite Hnoshift.
  destruct (binary_round_aux_pos ms ez) as (mr & -> & Hmr & Hb & Hup); [fold d; lia | lia | ].
  fold d in Hb, Hup |- *. rewrite fexp_unfold in Hb, Hup |- *.
  assert (He1 : Z.max ez (Z.max (d + ez - 53) (-1074)) = d + ez - 53) by lia.
  rewrite He1 in Hb, Hup |- *. clear He1 Hnoshift.
  rewrite Math_floor_rounded by lia. eexists. split; [reflexivity|].
  set (e1 := d + ez - 53) in *.
  assert (He1 : -36 ≤ e1 ≤ -33) by (unfold e1; lia).
  set (T := 2 ^ (e1 - ez)) in *.
  assert (HT : 0 < T) by (apply pow2_pos; lia).
  assert (HW : 2 ^ (e1 + 1200) = T * U)
    by (unfold T, U; rewrite <- Z.pow_add_r by lia; f_equal; lia).
  assert (HK : 2 ^ 1200 = 2 ^ (- e1) * 2 ^ (e1 + 1200))
    by (rewrite <- Z.pow_add_r by lia; f_equal; lia).
  assert (HG : 2 ^ 1167 = 2 ^ (-33 - e1) * 2 ^ (e1 + 1200))
    by (rewrite <- Z.pow_add_r by lia; f_equal; lia).
  assert (Hc : 0 < 2 ^ (- e1)) by (apply pow2_pos; lia).
  assert (Hc' : 0 < 2 ^ (-33 - e1)) by (apply pow2_pos; lia).
  rewrite HK in Hs, Hy |- *. rewrite HG in Hy. clear HK HG H1167 H1200.
  set (W := 2 ^ (e1 + 1200)) in *. set (c := 2 ^ (- e1)) in *. set (c' := 2 ^ (-33 - e1)) in *.
  clearbody W c c' T U. 
  assert (Hgoal : 100000 * c ≤ mr ≤ 1000000 * c - c').
  { apply (rounded_between mr (Z.pos ms) T U W); try done. rewrite Hs. split; nia. }
  assert (HW0 : 0 < W) by (subst W; lia).
  rewrite (Z.mul_comm c W), (Z.mul_comm mr W).
  rewrite Z.div_mul_cancel_l by lia. split.
  - apply Z.div_le_lower_bound; lia.
  - assert (mr / c < 1000000); [|lia]. apply Z.div_lt_upper_bound; lia.
Qed.

Lemma random_below_one (m : positive) (e : Z) :
  bounded 53 1024 m e = true → Z.pos m < 2 ^ (- e) →
  -1074 ≤ e ≤ -1 ∧ Z.pos m * 2 ^ (e + 1200) ≤ 2 ^ 1200 - 2 ^ 1147.
Proof.
  unfold bounded, canonical_mantissa. rewrite andb_true_iff, Z.eqb_eq, fexp_unfold.
  intros [Hcan _] Hlt. pose proof (digits2_pos_bounds m) as Hd.
  set (d := Z.pos (digits2_pos m)) in *.
  assert (He : e ≤ -1).
  { destruct (decide (e ≤ -1)) as [|Hpos]; [done|]. exfalso.
    assert (2 ^ (- e) ≤ 1); [|lia].
    destruct (decide (e = 0)) as [-> | Hne]; [done|]. rewrite Z.pow_neg_r; lia. }
  split; [lia|].
  assert (Hu : 0 < 2 ^ (e + 1200)) by (apply pow2_pos; lia).
  destruct (decide (-53 ≤ e)) as [Hbig | Hsmall].
  - assert (HK : 2 ^ 1200 = 2 ^ (- e) * 2 ^ (e + 1200))
      by (rewrite <- Z.pow_add_r by lia; f_equal; lia).
    assert (HP : 2 ^ 1147 ≤ 2 ^ (e + 1200)) by (apply Z.pow_le_mono_r; lia).
    rewrite HK. revert Hlt Hu HP. generalize (2 ^ (- e)), (2 ^ (e + 1200)), (2 ^ 1147), (Z.pos m).
    clear. intros. nia.
  - assert (Hm : Z.pos m < 2 ^ 53).
    { eapply Z.lt_le_trans; [apply Hd|]. apply Z.pow_le_mono_r; lia. }
    assert (HP : 2 ^ 53 * 2 ^ (e + 1200) ≤ 2 ^ 1199).
    { rewrite <- Z.pow_add_r by lia. apply Z.pow_le_mono_r; lia. }
    assert (HQ : 2 ^ 1199 ≤ 2 ^ 1200 - 2 ^ 1147).
    { change (2 ^ 1200) with (2 ^ 53 * 2 ^ 1147). change (2 ^ 1199) with (2 ^ 52 * 2 ^ 1147).
      assert (0 < 2 ^ 1147) by (by apply pow2_pos).
      change (2 ^ 53) with 9007199254740992. change (2 ^ 52) with 4503599627370496.
      generalize dependent (2 ^ 1147). clear. intros. lia. }
    revert Hm Hu HP HQ. change (2 ^ 53) with 9007199254740992.
    generalize (2 ^ 1200), (2 ^ 1199), (2 ^ (e + 1200)), (2 ^ 1147), (Z.pos m).
    clear. intros. nia.
Qed.

Lemma product_bound (m : positive) (e : Z) :
  bounded 53 1024 m e = true → Z.pos m < 2 ^ (- e) →
  ∃ mr e1, SFmul 53 1024 (S754_finite false m e) (double_of_Z 900000) = rounded mr e1
           ∧ 0 ≤ mr ≤ 2 ^ 53 ∧ -1200 ≤ e1 ≤ 99
           ∧ mr * 2 ^ (e1 + 1200) ≤ 900000 * 2 ^ 1200 - 2 ^ 1167.
Proof.
  intros Hbounded Hlt. destruct (random_below_one m e Hbounded Hlt) as [He Ha].
  change (double_of_Z 900000) with (S754_finite false 7730941132800000 (-33)).
  cbn [SFmul xorb]. set (E := e + -33). set (mm := (m * 7730941132800000)%positive).
  pose proof (digits2_pos_bounds mm) as Hd.
  assert (HM : Z.pos mm = Z.pos m * 7730941132800000) by done.
  set (d := Z.pos (digits2_pos mm)) in *.
  assert (Hd1 : 1 ≤ d) by (unfold d; lia).
  assert (HdE : d + E ≤ 20).
  { assert (Hp : 2 ^ (d - 1) < 2 ^ (53 - e)); [|apply pow2_lt_exp in Hp; lia].
    replace (53 - e) with (53 + - e) by lia.
    rewrite (Z.pow_add_r 2 53 (- e)) by lia. change (2 ^ 53) with 9007199254740992.
    destruct Hd as [Hd _]. rewrite HM in Hd. pose proof (Pos2Z.is_pos m) as Hm0.
    revert Hd Hlt Hm0.
    generalize (2 ^ (d - 1)), (2 ^ (- e)), (Z.pos m). clear. intros. lia. }
  destruct (binary_round_aux_pos mm E) as (mr & -> & Hmr & Hb & Hup);
    [fold d; lia | unfold E; lia |].
  fold d in Hb, Hup |- *. rewrite fexp_unfold in Hb, Hup |- *.
  set (e1 := Z.max E (Z.max (d + E - 53) (-1074))) in *.
  exists mr, e1. split; [done|]. split; [done|]. split; [unfold e1, E; lia|].
  set (u := 2 ^ (E + 1200)).
  assert (Hu : 0 < u) by (apply pow2_pos; unfold E; lia).
  set (T := 2 ^ (e1 - E)) in *.
  assert (HT : 0 < T) by (apply pow2_pos; unfold e1; lia).
  assert (HW : 2 ^ (e1 + 1200) = T * u).
  { unfold T, u. rewrite <- Z.pow_add_r by (unfold e1, E; lia). f_equal. lia. }
  assert (Hx : Z.pos mm * u = 900000 * (Z.pos m * 2 ^ (e + 1200))).
  { rewrite HM. unfold u, E. change 7730941132800000 with (900000 * 2 ^ 33).
    replace (e + 1200) with (33 + (e + -33 + 1200)) by lia.
    rewrite (Z.pow_add_r 2 33) by lia. ring. }
  set (a := Z.pos m * 2 ^ (e + 1200)) in *.
  assert (HP : 0 < 2 ^ 1147) by (by apply pow2_pos).
  rewrite HW.
  destruct (decide (d + E ≤ 19)) as [Hsmall | Hbig].
  - assert (He1 : e1 ≤ -34) by (unfold e1, E in *; lia).
    assert (HWle : T * u ≤ 2 ^ 1166).
    { rewrite <- HW. apply Z.pow_le_mono_r; lia. }
    assert (Hxlt : Z.pos mm * u < 2 ^ 1219).
    { eapply Z.lt_le_trans; [apply Z.mul_lt_mono_pos_r; [done | apply Hd]|].
      unfold u. rewrite <- Z.pow_add_r by (unfold E; lia). apply Z.pow_le_mono_r; lia. }
    assert (Hstep : (mr - 1) * (T * u) ≤ Z.pos mm * u).
    { rewrite Z.mul_assoc. apply Z.mul_le_mono_nonneg_r; lia. }
    revert HWle Hxlt Hstep.
    change (2 ^ 1166) with (524288 * 2 ^ 1147). change (2 ^ 1219) with (2 ^ 72 * 2 ^ 1147).
    change (2 ^ 1200) with (9007199254740992 * 2 ^ 1147).
    change (2 ^ 1167) with (1048576 * 2 ^ 1147). change (2 ^ 72) with 4722366482869645213696.
    revert HP. generalize (2 ^ 1147), (T * u), (Z.pos mm * u). clear. intros. lia.
  - assert (He1 : e1 = -33) by (unfold e1, E in *; lia).
    assert (HWeq : T * u = 2 ^ 1167) by (rewrite <- HW, He1; done).
    assert (Hlt9 : mr < 7730941132800000).
    { apply (mul_lt_cancel _ _ (T * u)); [lia|].
      destruct (decide (Z.pos mm < mr * T)) as [Hround | Hexact].
      - specialize (Hup Hround).
        assert (Hup' : T * u ≤ 2 * (Z.pos mm * u - (mr - 1) * (T * u))).
        { replace (2 * (Z.pos mm * u - (mr - 1) * (T * u)))
            with (2 * (Z.pos mm - (mr - 1) * T) * u) by ring.
          apply Z.mul_le_mono_nonneg_r; lia. }
        rewrite Hx in Hup'. rewrite HWeq in *. revert Hup' Ha.
        change (2 ^ 1200) with (9007199254740992 * 2 ^ 1147).
        change (2 ^ 1167) with (1048576 * 2 ^ 1147).
        revert HP. generalize (2 ^ 1147), a. clear. intros. lia.
      - assert (Hle : mr * (T * u) ≤ Z.pos mm * u).
        { rewrite Z.mul_assoc. apply Z.mul_le_mono_nonneg_r; lia. }
        rewrite Hx in Hle. rewrite HWeq in *. revert Hle Ha.
        change (2 ^ 1200) with (9007199254740992 * 2 ^ 1147).
        change (2 ^ 1167) with (1048576 * 2 ^ 1147).
        revert HP. generalize (2 ^ 1147), a. clear. intros. lia. }
    rewrite HWeq. change (2 ^ 1200) with (8589934592 * 2 ^ 1167).
    assert (0 < 2 ^ 1167) by (by apply pow2_pos).
    generalize dependent (2 ^ 1167). clear -Hlt9. intros. nia.
Qed.

(** The number [Math.floor(100000 + Math.random() * 900000)] is an integer
    of six digits, with the product and the sum rounded to doubles. *)
Lemma pin_floor_range (random : spec_float) :
  is_random random →
  ∃ n, Math_floor (pin_double random) = Some n ∧ 100000 ≤ n ≤ 999999.
Proof.
  intros [-> | (m & e & -> & Hbounded & Hlt)].
  - exists 100000. split; [reflexivity | lia].
  - unfold pin_double.
    destruct (product_bound m e Hbounded Hlt) as (mr & e1 & -> & Hmr & He1 & Hv).
    unfold rounded. destruct (mr =? 0) eqn:H0.
    + exists 100000. split; [reflexivity | lia].
    + apply Z.eqb_neq in H0. destruct (mr =? 2 ^ 53) eqn:H53.
      * apply Z.eqb_eq in H53. apply sum_floor; [lia|].
        replace (e1 + 1 + 1200) with (Z.succ (e1 + 1200)) by lia.
        rewrite Z.pow_succ_r by lia. rewrite H53 in Hv.
        change (Z.pos (Z.to_pos (2 ^ 52))) with 4503599627370496.
        change (2 ^ 53) with 9007199254740992 in Hv.
        revert Hv. generalize (2 ^ (e1 + 1200)), (2 ^ 1200), (2 ^ 1167). intros. lia.
      * apply sum_floor; [lia|]. rewrite Z2Pos.id by lia. done.
Qed.

(** ** Registration of clients *)

Lemma Stable_auth_minted (clients : list Client.t) (c : Client.t) :
  Client.id c ≠ "" → Client.pin c ≠ "" → Client.truthy_enabled c = true →
  Client.id c ∉ (Client.id <$> clients) →
  Stable.authRequired true (clients ++ [c]) (Some (Client.id c)) (Some (Client.pin c))
  = Pass (Some c).
Proof.
  intros Hid Hpin He Hnew. rewrite Stable_auth_present.
  - assert (Hf : js_find (λ x, Some (Client.id x) = Some (Client.id c)) (clients ++ [c])
                 = Some c).
    { unfold js_find. rewrite list_find_app_r.
      - simpl. by rewrite decide_True.
      - apply list_find_None, Forall_forall. intros x Hx [= Heq].
        apply Hnew. rewrite <- Heq. by apply list_elem_of_fmap_2. }
    rewrite Hf, He. simpl. by rewrite bool_decide_false by (by intros Hne).
  - simpl. by rewrite !bool_decide_false.
Qed.

Lemma Env_auth_minted (clients : list Client.t) (c : Client.t) :
  Client.id c ≠ "" → Client.pin c ≠ "" →
  EnvServer.auth true (clients ++ [c]) (Some (Client.id c)) (Some (Client.pin c))
  = Pass None.
Proof.
  intros Hid Hpin. unfold EnvServer.auth. simpl. rewrite !bool_decide_false by done.
  simpl.
  destruct (js_find_is_Some (λ x, Some (Client.id x) = Some (Client.id c)
                                  ∧ Some (Client.pin x) = Some (Client.pin c))
              (clients ++ [c]) c) as [x ->]; [set_solver | done | done].
Qed.

Lemma decimal_nonempty (n : Z) : 100000 ≤ n ≤ 999999 → decimal n ≠ "".
Proof.
  intros Hn Hempty. destruct (decimal_six_digits n Hn) as [Hlen _].
  by rewrite Hempty in Hlen.
Qed.

Section Registration.
Context {rt : JsRuntime}.

(** The pin is the decimal numeral of the floor of the rounded sum. *)
Lemma pin_text_decimal (random : spec_float) :
  is_random random →
  ∃ n, Math_floor (pin_double random) = Some n ∧ 100000 ≤ n ≤ 999999
       ∧ pin_text random = decimal n.
Proof.
  intros Hrandom. destruct (pin_floor_range random Hrandom) as (n & Hfloor & Hn).
  exists n. split; [done|]. split; [done|].
  unfold pin_text, floor_to_string. rewrite Hfloor.
  assert (Habs : Z.abs n = n) by lia. rewrite Habs.
  assert (Hsmall : (n <? 2 ^ 53) = true).
  { apply Z.ltb_lt. change (2 ^ 53) with 9007199254740992. lia. }
  rewrite Hsmall. by rewrite (proj2 (Z.ltb_ge n 0)) by lia.
Qed.

(** C9 (amended). For every double [Math.random()] can return, at least 0
    and below 1, with the product and the sum rounded to doubles as the
    runtime rounds them: the record the registration of part_000 creates has
    [enabled = true] and a pin of exactly six decimal digits, the digits of an
    integer between 100000 and 999999; the record of the printer.env server
    has the same kind of pin and no [enabled] field at all. With the flag on,
    the id and pin the response returns pass the gate of the same server right
    away: in part_000 provided no earlier client has the minted id, in the
    printer.env server always. *)
Theorem minted_client_passes (clients : list Client.t) (random_hex uuid now : string)
    (random : spec_float) :
  is_random random →
  let stable := Stable.client_create clients random_hex random now in
  let env := EnvServer.client_create clients uuid random in
  let pin := pin_text random in
  (∃ n, Math_floor (pin_double random) = Some n ∧ 100000 ≤ n ≤ 999999 ∧ pin = decimal n)
  ∧ String.length pin = 6%nat ∧ all_digits pin = true
  ∧ (snd stable = Some (clients ++ [minted_stable random_hex random now])
     ∧ fst stable = json [("id", JVStr ("clt-" +:+ random_hex)); ("pin", JVStr pin);
                          ("role", JVStr "CLIENT"); ("enabled", JVBool true);
                          ("createdAt", JVStr now)]
     ∧ Client.enabled (minted_stable random_hex random now) = Some true
     ∧ (("clt-" +:+ random_hex) ∉ (Client.id <$> clients) →
        Stable.authRequired true (persisted clients stable)
          (Some ("clt-" +:+ random_hex)) (Some pin)
        = Pass (Some (minted_stable random_hex random now))))
  ∧ (snd env = clients ++ [minted_env uuid random]
     ∧ fst env = json [("client_id", JVStr ("clt-" +:+ substring 0 6 uuid)); ("pin", JVStr pin)]
     ∧ Client.enabled (minted_env uuid random) = None
     ∧ EnvServer.auth true (snd env) (Some ("clt-" +:+ substring 0 6 uuid)) (Some pin)
       = Pass None).
Proof.
  intros Hrandom. cbv zeta.
  destruct (pin_text_decimal random Hrandom) as (n & Hfloor & Hrange & Htext).
  destruct (decimal_six_digits _ Hrange) as [Hlen Hdigits].
  pose proof (decimal_nonempty _ Hrange) as Hpin. rewrite <- Htext in Hlen, Hdigits, Hpin.
  split; [by exists n|]. split; [done|]. split; [done|]. split.
  - split; [done|]. split; [done|]. split; [done|]. intros Hnew.
    apply (Stable_auth_minted clients (minted_stable random_hex random now)); done.
  - split; [done|]. split; [done|]. split; [done|].
    apply (Env_auth_minted clients (minted_env uuid random)); done.
Qed.

End Registration.

Section RegistrationExamples.
#[local] Existing Instance empty_documents_runtime.

Lemma minted_client_passes_witness :
  (is_random near_one_half
   ∧ ("clt-" +:+ "0a1b2c") ∉ (Client.id <$> [alice; bob_disabled]))
  ∧ Math_floor (pin_double near_one_half) = Some 550018
  ∧ pin_text near_one_half = "550018"
  ∧ Stable.authRequired true
      (persisted [alice; bob_disabled]
         (Stable.client_create [alice; bob_disabled] "0a1b2c" near_one_half
            "2024-05-03T08:00:00.000Z"))
      (Some ("clt-" +:+ "0a1b2c")) (Some (pin_text near_one_half))
    = Pass (Some (minted_stable "0a1b2c" near_one_half "2024-05-03T08:00:00.000Z")).
Proof.
  assert (Hrandom : is_random near_one_half).
  { right. exists 4503779771355590%positive, (-53).
    split; [reflexivity|]. split; [reflexivity|]. vm_compute. reflexivity. }
  assert (Hnew : ("clt-" +:+ "0a1b2c") ∉ (Client.id <$> [alice; bob_disabled]))
    by by_evaluation.
  split; [by split|]. split; [vm_compute; reflexivity|]. split; [vm_compute; reflexivity|].
  destruct (minted_client_passes [alice; bob_disabled] "0a1b2c" "" "2024-05-03T08:00:00.000Z"
              near_one_half Hrandom) as (_ & _ & _ & (_ & _ & _ & Hpass) & _).
  exact (Hpass Hnew).
Defined.

(** C9, as stated, fails: the record the printer.env server creates carries
    no [enabled] field, and in part_000 a minted id that an earlier, disabled
    client already has does not pass the gate. *)
Lemma minted_client_not_always_enabled :
  snd (EnvServer.client_create [] "0a1b2c3d-0000-4000-8000-000000000000" one_half)
  = [Client.mk "clt-0a1b2c" "550000" None None None]
  ∧ Client.enabled (Client.mk "clt-0a1b2c" "550000" None None None) ≠ Some true
  ∧ Stable.authRequired true
      (persisted [bob_disabled]
         (Stable.client_create [bob_disabled] "d4e5f6" one_half "2024-05-03T08:00:00.000Z"))
      (Some "clt-d4e5f6") (Some "550000")
    = Deny (error_json 403 "Client not allowed").
Proof.
  split; [vm_compute; reflexivity|]. split; [discriminate | vm_compute; reflexivity].
Qed.

End RegistrationExamples.

(** ** Reading the persisted collections *)

Section Storage.
Context {rt : JsRuntime}.

Lemma Stable_safeRead_unreadable (file : File) (fallback : Json) :
  unreadable file → Stable.safeRead file fallback = fallback.
Proof.
  intros [-> | (content & -> & [Hblank | Hbad])]; [done | |]; unfold Stable.safeRead.
  - by rewrite bool_decide_true.
  - destruct (bool_decide _); [done|]. by rewrite Hbad.
Qed.

(** In part_000 the list operation of both stores answers the empty
    collection when the file is absent, blank or does not parse. *)
Lemma Stable_list_degrades (file : File) :
  unreadable file →
  Stable.loadPrinters file = Returned (Some (JsonArr []))
  ∧ Stable.loadClients file = Returned (Some (JsonArr [])).
Proof.
  intros Hfile. unfold Stable.loadPrinters, Stable.loadClients.
  by rewrite !Stable_safeRead_unreadable.
Qed.

(** C7 fails in src/server.js: [readPrinters] and [readClients] throw when the
    file is absent, and when [JSON.parse] rejects its text, which it does for
    an empty file. *)
Theorem Final_read_throws (content : string) :
  JSON_parse content = None →
  Final.readPrinters None = Threw "ENOENT"
  ∧ Final.readClients None = Threw "ENOENT"
  ∧ Final.readPrinters (Some content) = Threw "SyntaxError"
  ∧ Final.readClients (Some content) = Threw "SyntaxError".
Proof.
  intros Hbad. unfold Final.readPrinters, Final.readClients. by rewrite Hbad.
Qed.

(** The first program of src/core/server.js does the same for a file that is
    absent or does not parse. *)
Lemma Core_list_degrades (file : File) :
  (file = None ∨ ∃ content, file = Some content ∧ JSON_parse content = None) →
  Core.loadPrinters file = Returned (JsonArr [])
  ∧ Core.loadClients file = JsonArr [].
Proof.
  intros [-> | (content & -> & Hbad)]; [done|].
  unfold Core.loadPrinters, Core.loadClients, Core.safeRead. by rewrite Hbad.
Qed.

End Storage.

Section StorageExamples.
#[local] Existing Instance empty_documents_runtime.

Lemma Final_read_throws_witness :
  JSON_parse "" = None
  ∧ Final.readPrinters (Some "") = Threw "SyntaxError"
  ∧ Stable.loadPrinters (Some "") = Returned (Some (JsonArr [])).
Proof.
  assert (Hbad : JSON_parse "" = None) by reflexivity.
  split; [exact Hbad|]. split.
  - exact (proj1 (proj2 (proj2 (Final_read_throws "" Hbad)))).
  - reflexivity.
Defined.

End StorageExamples.

(** ** The liveness probe *)

Lemma Socket_run_closed listener (hs : list Socket.happening) (st : Socket.state) :
  Socket.closed st = true → Socket.run listener hs st = st.
Proof.
  intros Hc. induction hs as [|h hs IH]; [done|].
  unfold Socket.run in *. simpl. unfold Socket.emit at 2. by rewrite Hc.
Qed.

(** In part_000 the first thing the connection attempt meets decides the
    result: the promise is resolved once, with [true] for a handshake and
    [false] for a refusal, an unreachable host or the time-out, and by then
    the socket has been destroyed and closed. *)
Lemma Stable_probe_settles (h : Socket.happening) (rest : list Socket.happening) :
  let st := Stable.isPrinterOnline (h :: rest) in
  Socket.promise st = Some (bool_decide (h = Socket.Handshake))
  ∧ Socket.resolve_calls st = 1%nat
  ∧ Socket.destroyed st = true
  ∧ Socket.closed st = true.
Proof.
  unfold Stable.isPrinterOnline. cbv zeta.
  change (Socket.run Stable.isPrinterOnline_listener (h :: rest) (Socket.fresh []))
    with (Socket.run Stable.isPrinterOnline_listener rest
            (Socket.emit Stable.isPrinterOnline_listener (Socket.event_of h) (Socket.fresh []))).
  rewrite Socket_run_closed; destruct h; done.
Qed.

Lemma Core_listener_keeps_promise (ev : Socket.event) (st : Socket.state) (b : bool) :
  Socket.promise st = Some b →
  Socket.promise (Core.isPrinterOnline_listener ev st) = Some b.
Proof.
  intros Hp. destruct ev; simpl; [| | |done];
    unfold Socket.once; destruct (bool_decide _); simpl; by rewrite ?Hp.
Qed.

Lemma Core_emit_keeps_promise (ev : Socket.event) (st : Socket.state) (b : bool) :
  Socket.promise st = Some b →
  Socket.promise (Socket.emit Core.isPrinterOnline_listener ev st) = Some b.
Proof.
  intros Hp. unfold Socket.emit. destruct (Socket.closed st); [done|].
  pose proof (Core_listener_keeps_promise ev st b Hp) as Hp1.
  set (st1 := Core.isPrinterOnline_listener ev st) in *.
  assert (Hp2 : Socket.promise (match ev with
                                | Socket.error => Socket.destroy st1
                                | _ => st1
                                end) = Some b) by by destruct ev.
  destruct (Socket.destroyed _); [|done].
  by apply Core_listener_keeps_promise.
Qed.

(** In the first program of src/core/server.js too the promise keeps the
    value the first happening gives it, whatever follows. *)
Lemma Core_probe_first_wins (h : Socket.happening) (rest : list Socket.happening) :
  Socket.promise (Core.isPrinterOnline (h :: rest))
  = Some (bool_decide (h = Socket.Handshake)).
Proof.
  unfold Core.isPrinterOnline, Socket.run. simpl.
  set (st := Socket.emit _ _ _).
  assert (Hst : Socket.promise st = Some (bool_decide (h = Socket.Handshake)))
    by (destruct h; done).
  clearbody st. revert st Hst.
  induction rest as [|h' rest IH]; intros st Hst; [done|].
  simpl. apply IH. by apply Core_emit_keeps_promise.
Qed.

(** C4 fails in the first program of src/core/server.js: when the connection
    attempt meets nothing before the time-out, the probe answers [false] and
    leaves the socket neither destroyed nor closed; a further time-out changes
    nothing. The probe of part_000 destroys it. *)
Theorem Core_probe_timeout_leaves_socket :
  Socket.promise (Core.isPrinterOnline [Socket.Idle]) = Some false
  ∧ Socket.destroyed (Core.isPrinterOnline [Socket.Idle]) = false
  ∧ Socket.closed (Core.isPrinterOnline [Socket.Idle]) = false
  ∧ Socket.destroyed (Core.isPrinterOnline [Socket.Idle; Socket.Idle]) = false
  ∧ Socket.destroyed (Stable.isPrinterOnline [Socket.Idle]) = true.
Proof. repeat split. Qed.

(** ** Dispatch *)

Section Dispatch.
Context {rt : JsRuntime}.

Lemma Core_print_not_found (printers : list Printer.t) (printerId : string)
    connected body exec :
  printerId ≠ "" →
  (∀ p, p ∈ printers → ¬ Core_wanted printerId p) →
  Core.print printers (Some printerId) connected body exec = (not_found, []).
Proof.
  intros Hid Hnone. unfold Core.print. simpl. rewrite bool_decide_false by done.
  destruct (js_find _ printers) as [p|] eqn:Hf; [|done].
  apply js_find_Some_elem in Hf as [Hp Hw]. by destruct (Hnone p Hp).
Qed.

Lemma Core_print_target (printers : list Printer.t) (printerId : string)
    connected body exec (a : Attempt) :
  a ∈ snd (Core.print printers (Some printerId) connected body exec) →
  ∃ p, p ∈ printers ∧ Core_wanted printerId p ∧ target a = Printer.connection p.
Proof.
  unfold Core.print. simpl. destruct (bool_decide _); [by intros ?%elem_of_nil|].
  destruct (js_find _ printers) as [p|] eqn:Hf; [|by intros ?%elem_of_nil].
  apply js_find_Some_elem in Hf as [Hp Hw].
  intros Ha. exists p. split; [done|]. split; [done|].
  destruct connected; simpl in Ha; [|by apply elem_of_nil in Ha].
  destruct (truthy (Core.isInvoice body)); [|destruct (truthy (Core.text body))];
    try (by apply elem_of_nil in Ha);
    destruct exec; simpl in Ha; apply list_elem_of_singleton in Ha; by subst.
Qed.

Lemma Core_print_found (printers before after : list Printer.t) (p : Printer.t)
    (printerId : string) connected body exec :
  printerId ≠ "" → printers = before ++ p :: after → Core_wanted printerId p →
  (∀ q, q ∈ before → ¬ Core_wanted printerId q) →
  Core.print printers (Some printerId) connected body exec
  = if negb connected then (error_json 500 "Printer offline", [])
    else if truthy (Core.isInvoice body)
    then (match exec with
          | Executed => json [("success", JVBool true); ("mode", JVStr "invoice")]
          | ExecFailed message => error_json 500 message
          end,
          [mkAttempt (Printer.connection p) (Core.printInvoice (Core.invoice body))])
    else if truthy (Core.text body)
    then (match exec with
          | Executed => json [("success", JVBool true); ("mode", JVStr "text")]
          | ExecFailed message => error_json 500 message
          end,
          [mkAttempt (Printer.connection p) [Println (js_String (Core.text body)); Cut]])
    else (error_json 400 "Unsupported print payload", []).
Proof.
  intros Hid -> Hp Hbefore. unfold Core.print. simpl. rewrite bool_decide_false by done.
  destruct (js_find _ (before ++ p :: after)) as [found|] eqn:Hf.
  - assert (Hfound : Some found = Some p).
    { rewrite <- Hf. apply js_find_first; [exact Hbefore | exact Hp]. }
    injection Hfound as ->. destruct connected; [|done]. simpl.
    destruct (truthy (Core.isInvoice body)); [by destruct exec|].
    destruct (truthy (Core.text body)); [by destruct exec | done].
  - exfalso. apply js_find_None in Hf. rewrite Forall_forall in Hf.
    apply (Hf p); [|exact Hp]. apply elem_of_app. right. by left.
Qed.

Lemma Stable_print_missing (printers : list Printer.t) header_id body_id text exec :
  header_falsy (Stable_requested header_id body_id) || header_falsy text = true →
  Stable.print printers header_id body_id text exec
  = (error_json 400 "printerId or text missing", []).
Proof.
  intros Hm. unfold Stable.print. cbv zeta.
  fold (Stable_requested header_id body_id). by rewrite Hm.
Qed.

Lemma Stable_print_present (printers : list Printer.t) header_id body_id
    (printerId text : string) exec :
  Stable_requested header_id body_id = Some printerId → printerId ≠ "" → text ≠ "" →
  Stable.print printers header_id body_id (Some text) exec
  = match js_find (λ p, Some (Printer.id p) = Some printerId ∧ Printer.enabled p) printers with
    | None => (not_found, [])
    | Some printer =>
        (match exec with
         | Executed => json [("success", JVBool true);
                             ("message", JVStr "Printed successfully");
                             ("printerId", JVStr printerId)]
         | ExecFailed message => error_json 500 message
         end, [Stable.printText printer text])
    end.
Proof.
  intros Hreq Hid Htext. unfold Stable.print. cbv zeta.
  fold (Stable_requested header_id body_id). rewrite Hreq. simpl.
  rewrite !bool_decide_false by done. simpl.
  destruct (js_find _ printers); [by destruct exec | done].
Qed.

Lemma Stable_print_not_found (printers : list Printer.t) header_id body_id
    (printerId text : string) exec :
  Stable_requested header_id body_id = Some printerId → printerId ≠ "" → text ≠ "" →
  (∀ p, p ∈ printers → ¬ Stable_wanted printerId p) →
  Stable.print printers header_id body_id (Some text) exec = (not_found, []).
Proof.
  intros Hreq Hid Htext Hnone. rewrite (Stable_print_present _ _ _ _ _ _ Hreq Hid Htext).
  destruct (js_find _ printers) as [p|] eqn:Hf; [|done].
  apply js_find_Some_elem in Hf as [Hp [[= Hw] He]]. by destruct (Hnone p Hp).
Qed.

Lemma Stable_print_found (printers before after : list Printer.t) (p : Printer.t)
    header_id body_id (printerId text : string) exec :
  Stable_requested header_id body_id = Some printerId → printerId ≠ "" → text ≠ "" →
  printers = before ++ p :: after → Stable_wanted printerId p →
  (∀ q, q ∈ before → ¬ Stable_wanted printerId q) →
  Stable.print printers header_id body_id (Some text) exec
  = (match exec with
     | Executed => json [("success", JVBool true);
                         ("message", JVStr "Printed successfully");
                         ("printerId", JVStr printerId)]
     | ExecFailed message => error_json 500 message
     end, [Stable.printText p text]).
Proof.
  intros Hreq Hid Htext -> [Hp He] Hbefore.
  rewrite (Stable_print_present _ _ _ _ _ _ Hreq Hid Htext).
  rewrite js_find_first; [done| |].
  - intros q Hq [[= Hw] Hq']. by apply (Hbefore q Hq).
  - split; [by rewrite Hp | done].
Qed.

Lemma Stable_print_target (printers : list Printer.t) header_id body_id
    (printerId : string) text exec (a : Attempt) :
  Stable_requested header_id body_id = Some printerId → printerId ≠ "" →
  a ∈ snd (Stable.print printers header_id body_id text exec) →
  ∃ p, p ∈ printers ∧ Stable_wanted printerId p ∧ target a = Printer.connection p.
Proof.
  intros Hreq Hid. destruct (header_falsy text) eqn:Htext.
  - rewrite Stable_print_missing by (by rewrite Htext, orb_true_r). by intros ?%elem_of_nil.
  - apply header_present in Htext as (t & -> & Ht).
    rewrite (Stable_print_present _ _ _ _ _ _ Hreq Hid Ht).
    destruct (js_find _ printers) as [p|] eqn:Hf; [|by intros ?%elem_of_nil].
    apply js_find_Some_elem in Hf as [Hp [[= Hw] He]].
    intros Ha%list_elem_of_singleton. exists p. by subst.
Qed.

(** C8 (amended). [/print] resolves the requested identifier among the
    enabled records of the registry: in the first program of
    src/core/server.js a record is accepted by its id or else its name,
    letter case ignored, in part_000 by its id exactly, the identifier being
    the header x-printer-id or else the property printerId of the body. The
    job goes to the first accepted record of the registry and to no other:
    the text, or the invoice, to the connection of that record. When no
    record is accepted the answer is 404 and nothing is handed to the
    transport; without an identifier (in part_000 also without a text) it is
    400 and nothing is handed over either. *)
Theorem print_resolves_enabled_printer (printers : list Printer.t) (printerId : string) :
  printerId ≠ "" →
  ((∀ p, p ∈ printers → ¬ Core_wanted printerId p) →
     ∀ connected body exec,
       Core.print printers (Some printerId) connected body exec = (not_found, []))
  ∧ (∀ before p after, printers = before ++ p :: after → Core_wanted printerId p →
       (∀ q, q ∈ before → ¬ Core_wanted printerId q) →
       ∀ connected body exec,
         status (fst (Core.print printers (Some printerId) connected body exec)) ≠ 404
         ∧ snd (Core.print printers (Some printerId) connected body exec)
           = if connected && (truthy (Core.isInvoice body) || truthy (Core.text body))
             then [mkAttempt (Printer.connection p)
                     (if truthy (Core.isInvoice body)
                      then Core.printInvoice (Core.invoice body)
                      else [Println (js_String (Core.text body)); Cut])]
             else [])
  ∧ (∀ connected body exec a,
       a ∈ snd (Core.print printers (Some printerId) connected body exec) →
       ∃ p, p ∈ printers ∧ Core_wanted printerId p ∧ target a = Printer.connection p)
  ∧ (∀ header_id body_id, Stable_requested header_id body_id = Some printerId →
       ((∀ p, p ∈ printers → ¬ Stable_wanted printerId p) →
          ∀ text exec, text ≠ "" →
            Stable.print printers header_id body_id (Some text) exec = (not_found, []))
       ∧ (∀ before p after, printers = before ++ p :: after → Stable_wanted printerId p →
            (∀ q, q ∈ before → ¬ Stable_wanted printerId q) →
            ∀ text exec, text ≠ "" →
              status (fst (Stable.print printers header_id body_id (Some text) exec)) ≠ 404
              ∧ snd (Stable.print printers header_id body_id (Some text) exec)
                = [Stable.printText p text])
       ∧ (∀ text exec a,
            a ∈ snd (Stable.print printers header_id body_id text exec) →
            ∃ p, p ∈ printers ∧ Stable_wanted printerId p
                 ∧ target a = Printer.connection p))
  ∧ (∀ header_id body_id text connected body exec,
       (header_falsy header_id = true →
          Core.print printers header_id connected body exec
          = (error_json 400 "x-printer-id missing", []))
       ∧ (header_falsy (Stable_requested header_id body_id) || header_falsy text = true →
            Stable.print printers header_id body_id text exec
            = (error_json 400 "printerId or text missing", []))).
Proof.
  intros Hid. split; [|split; [|split; [|split]]].
  - intros Hnone connected body exec. by apply Core_print_not_found.
  - intros before p after Hprinters Hp Hbefore connected body exec.
    rewrite (Core_print_found printers before after p printerId connected body exec
               Hid Hprinters Hp Hbefore).
    destruct connected; [|done]. simpl.
    destruct (truthy (Core.isInvoice body)); [by destruct exec|].
    destruct (truthy (Core.text body)); [by destruct exec | done].
  - intros connected body exec a. apply Core_print_target.
  - intros header_id body_id Hreq. split; [|split].
    + intros Hnone text exec Htext. by eapply Stable_print_not_found.
    + intros before p after Hprinters Hp Hbefore text exec Htext.
      rewrite (Stable_print_found printers before after p header_id body_id printerId text
                 exec Hreq Hid Htext Hprinters Hp Hbefore).
      by destruct exec.
    + intros text exec a. by eapply Stable_print_target.
  - intros header_id body_id text connected body exec. split.
    + intros Hm. unfold Core.print. by rewrite Hm.
    + apply Stable_print_missing.
Qed.

End Dispatch.

Section DispatchExamples.
#[local] Existing Instance empty_documents_runtime.

Lemma print_resolves_enabled_printer_witness :
  ("P2" ≠ "" ∧ ∀ p, p ∈ [front_desk; back_office_disabled] → ¬ Core_wanted "P2" p)
  ∧ Core.print [front_desk; back_office_disabled] (Some "P2") true (text_payload "hello")
      Executed
    = (not_found, [])
  ∧ ("FRONT DESK" ≠ "" ∧ Core_wanted "FRONT DESK" front_desk
     ∧ ∀ q, q ∈ [back_office_disabled] → ¬ Core_wanted "FRONT DESK" q)
  ∧ snd (Core.print [back_office_disabled; front_desk] (Some "FRONT DESK") true
           (text_payload "hello") Executed)
    = [mkAttempt (Printer.connection front_desk) [Println "hello"; Cut]]
  ∧ ("p1" ≠ "" ∧ Stable_requested None (Some "p1") = Some "p1"
     ∧ Stable_wanted "p1" front_desk
     ∧ ∀ q, q ∈ [back_office_disabled] → ¬ Stable_wanted "p1" q)
  ∧ snd (Stable.print [back_office_disabled; front_desk] None (Some "p1") (Some "hello")
           Executed)
    = [Stable.printText front_desk "hello"].
Proof.
  assert (Hid : "P2" ≠ "") by discriminate.
  assert (Hnone : ∀ p, p ∈ [front_desk; back_office_disabled] → ¬ Core_wanted "P2" p).
  { intros p Hp [He Hm].
    apply elem_of_cons in Hp as [-> | Hp]; [|apply list_elem_of_singleton in Hp as ->].
    - destruct Hm as [Hm | Hm]; vm_compute in Hm; discriminate.
    - vm_compute in He. exact He. }
  assert (Hname : "FRONT DESK" ≠ "") by discriminate.
  assert (Hwanted : Core_wanted "FRONT DESK" front_desk) by (split; [exact I | by right]).
  assert (Hbefore : ∀ q, q ∈ [back_office_disabled] → ¬ Core_wanted "FRONT DESK" q).
  { intros q Hq%list_elem_of_singleton [He _]. subst q. vm_compute in He. exact He. }
  assert (Hp1 : "p1" ≠ "") by discriminate.
  assert (Hreq : Stable_requested None (Some "p1") = Some "p1") by reflexivity.
  assert (Hstable : Stable_wanted "p1" front_desk) by (split; [reflexivity | exact I]).
  assert (Hskip : ∀ q, q ∈ [back_office_disabled] → ¬ Stable_wanted "p1" q).
  { intros q Hq%list_elem_of_singleton [Hq' _]. subst q. discriminate. }
  assert (Htext : "hello" ≠ "") by discriminate.
  split; [by split|]. split.
  { exact (proj1 (print_resolves_enabled_printer [front_desk; back_office_disabled] "P2" Hid)
             Hnone _ _ _). }
  split; [exact (conj Hname (conj Hwanted Hbefore))|]. split.
  { destruct (print_resolves_enabled_printer [back_office_disabled; front_desk]
                "FRONT DESK" Hname) as (_ & Hfound & _).
    exact (proj2 (Hfound [back_office_disabled] front_desk [] eq_refl Hwanted Hbefore
                    true (text_payload "hello") Executed)). }
  split; [exact (conj Hp1 (conj Hreq (conj Hstable Hskip)))|].
  destruct (print_resolves_enabled_printer [back_office_disabled; front_desk] "p1" Hp1)
    as (_ & _ & _ & Hfound & _).
  destruct (Hfound None (Some "p1") Hreq) as (_ & Hfirst & _).
  exact (proj2 (Hfirst [back_office_disabled] front_desk [] eq_refl Hstable Hskip
                  "hello" Executed Htext)).
Defined.

(** C8, as stated, fails: [/print] of part_000 does not find the enabled
    printer p1 under the identifier P1, nor under its name, both of which the
    first program of src/core/server.js accepts. *)
Lemma print_stable_matches_id_exactly :
  Core_wanted "P1" front_desk ∧ Core_wanted "front desk" front_desk
  ∧ Stable.print [front_desk] (Some "P1") None (Some "hello") Executed = (not_found, [])
  ∧ Stable.print [front_desk] (Some "front desk") None (Some "hello") Executed
    = (not_found, [])
  ∧ Core.print [front_desk] (Some "P1") true (text_payload "hello") Executed
    = (json [("success", JVBool true); ("mode", JVStr "text")],
       [mkAttempt (Printer.connection front_desk) [Println "hello"; Cut]]).
Proof.
  split; [split; [exact I | by left]|].
  split; [split; [exact I | by right]|].
  repeat split.
Qed.

End DispatchExamples.

(** In the three programs that print through [execute()], a failed execute
    is answered with status 500 and the message of the error; the answer is
    the success answer only when execute resolved. *)
Lemma print_failure_is_reported {rt : JsRuntime} (clients : list Client.t)
    (printers : list Printer.t) flag cid key printerId body_id text connected body
    (message : string) :
  status (fst (Final.print flag clients printers cid key printerId text (ExecFailed message)))
  ≠ 200
  ∧ status (fst (Stable.print printers printerId body_id text (ExecFailed message))) ≠ 200
  ∧ status (fst (Core.print printers printerId connected body (ExecFailed message))) ≠ 200.
Proof.
  split; [|split].
  - unfold Final.print. destruct (Final.authCheck _ _ _ _) as [c|r] eqn:Hauth.
    + by destruct (Final.getPrinter _ _).
    + unfold Final.authCheck in Hauth. destruct (negb flag); [done|].
      destruct (js_find _ clients); [done|]. by injection Hauth as <-.
  - unfold Stable.print. destruct (_ || _); [done|]. by destruct (js_find _ printers).
  - unfold Core.print. destruct (header_falsy _); [done|].
    destruct (js_find _ printers); [|done]. destruct connected; [|done]. simpl.
    destruct (truthy (Core.isInvoice body)); [done|]. by destruct (truthy (Core.text body)).
Qed.

(** C6 fails in the second program of src/core/server.js: [/print] has
    answered [{ ok: true }] when the connection of [rawPrint] fails; nothing
    is written to the printer and the [error] event of the socket has no
    listener. *)
Theorem Env_print_answers_ok_on_failure (printers : gmap string EnvPrinter.t)
    (pid : string) (p : EnvPrinter.t) (DEFAULT_PRINTER text : option string)
    (message : string) :
  pid ≠ "" → printers !! pid = Some p → EnvPrinter.status p = Some "enabled" →
  EnvServer.print printers (Some pid) DEFAULT_PRINTER text (EnvServer.ConnectFailed message)
  = (json [("ok", JVBool true)], Some (EnvServer.mkRaw [] false (Some message))).
Proof.
  intros Hpid Hp Hs. unfold EnvServer.print. simpl. rewrite bool_decide_false by done.
  simpl. rewrite Hp. rewrite bool_decide_false; [done|]. by intros Hne.
Qed.

Lemma Env_print_answers_ok_on_failure_witness :
  ("k1" ≠ "" ∧ kitchen_env !! "k1" = Some (env_printer "k1" "KITCHEN" "enabled")
   ∧ EnvPrinter.status (env_printer "k1" "KITCHEN" "enabled") = Some "enabled")
  ∧ EnvServer.print kitchen_env (Some "k1") None (Some "hello")
      (EnvServer.ConnectFailed "connect ECONNREFUSED 192.168.1.60:9100")
    = (json [("ok", JVBool true)],
       Some (EnvServer.mkRaw [] false (Some "connect ECONNREFUSED 192.168.1.60:9100"))).
Proof.
  assert (Hpid : "k1" ≠ "") by discriminate.
  assert (Hp : kitchen_env !! "k1" = Some (env_printer "k1" "KITCHEN" "enabled"))
    by reflexivity.
  assert (Hs : EnvPrinter.status (env_printer "k1" "KITCHEN" "enabled") = Some "enabled")
    by reflexivity.
  split; [by repeat split|].
  exact (Env_print_answers_ok_on_failure kitchen_env "k1" _ None (Some "hello") _ Hpid Hp Hs).
Defined.

(** ** Invoice rows *)












Section InvoiceExamples.
#[local] Existing Instance empty_documents_runtime.


(** The two renderings the specification names: 19.999 and an absent total. *)
Example invoice_totals_of_the_specification :
  text <$> Core.tableRow 0 espresso !! 3%nat = Some "20.00"
  ∧ text <$> Core.tableRow 1 no_total !! 3%nat = Some "0.00"
  ∧ double_19_999 = SFdiv 53 1024 (double_of_Z 19999) (double_of_Z 1000).
Proof. repeat split. Qed.


End InvoiceExamples.

(** * Further properties *)

(** ** Invariants of the registry *)

Lemma list_find_after_replace (l : list Printer.t) p i x :
  list_find (same_id p) l = Some (i, x) →
  list_find (same_id p) (take i l ++ p :: drop (S i) l) = Some (i, p).
Proof.
  intros Hf. apply list_find_Some in Hf as (Hl & Hx & Hbefore).
  assert (Hi : (i < length l)%nat) by by eapply lookup_lt_Some.
  apply list_find_Some. split; [|split; [done|]].
  - rewrite lookup_app_r by (rewrite length_take; lia).
    rewrite length_take, Nat.min_l by lia. by rewrite Nat.sub_diag.
  - intros j z Hj Hlt. apply (Hbefore j z); [|done].
    rewrite lookup_app_l in Hj by (rewrite length_take; lia).
    by rewrite lookup_take_lt in Hj by lia.
Qed.

Lemma list_find_after_push (l : list Printer.t) p :
  list_find (same_id p) l = None →
  list_find (same_id p) (l ++ [p]) = Some (length l, p).
Proof.
  intros Hf. rewrite list_find_app_r by done. simpl.
  rewrite decide_True by done. simpl. repeat f_equal; lia.
Qed.

Lemma ids_after_replace (l : list Printer.t) p i x :
  l !! i = Some x → Printer.id x = Printer.id p →
  ids (take i l ++ p :: drop (S i) l) = ids l.
Proof.
  intros Hl Hx. rewrite <- insert_take_drop by by eapply lookup_lt_Some.
  rewrite list_fmap_insert. apply list_insert_id.
  by rewrite list_lookup_fmap, Hl, <- Hx.
Qed.

Lemma list_find_None_ids (l : list Printer.t) p :
  list_find (same_id p) l = None → Printer.id p ∉ ids l.
Proof.
  intros Hf Hin. apply list_find_None in Hf. rewrite Forall_forall in Hf.
  apply list_elem_of_fmap in Hin as (x & Hid & Hx). by apply (Hf x Hx).
Qed.

Lemma ids_filter (id : string) (l : list Printer.t) :
  ids (filter (other_id id) l) = filter (λ x, x ≠ id) (ids l).
Proof.
  induction l as [|x l IH]; [done|]. rewrite fmap_cons, !filter_cons.
  destruct (decide (Printer.id x ≠ id)); by rewrite ?fmap_cons, IH.
Qed.

(** X1. A save and a delete keep the ids of the registry pairwise distinct,
    in src/server.js and in part_000: a save of an id in the registry leaves
    the list of ids as it is; a save of a new id adds that id once, at the
    end, unless src/server.js refuses it, which leaves the list as it is; a
    delete removes the deleted id and keeps the others in order. *)
Theorem registry_ids_stay_unique (printers : list Printer.t) (p : Printer.t) (id : string) :
  NoDup (ids printers) →
  (NoDup (ids (persisted printers (Final.printer_save printers p)))
   ∧ NoDup (ids (persisted printers (Stable.printer_save printers p)))
   ∧ NoDup (ids (persisted printers (Final.printer_delete printers id)))
   ∧ NoDup (ids (persisted printers (Stable.printer_delete printers id))))
  ∧ (Printer.id p ∈ ids printers →
     ids (persisted printers (Final.printer_save printers p)) = ids printers
     ∧ ids (persisted printers (Stable.printer_save printers p)) = ids printers)
  ∧ (Printer.id p ∉ ids printers →
     ids (persisted printers (Stable.printer_save printers p)) = ids printers ++ [Printer.id p]
     ∧ (¬ limited (Printer.role p) ∨ (role_count (Printer.role p) printers < 3)%nat →
        ids (persisted printers (Final.printer_save printers p))
        = ids printers ++ [Printer.id p])
     ∧ (limited (Printer.role p) → (3 ≤ role_count (Printer.role p) printers)%nat →
        ids (persisted printers (Final.printer_save printers p)) = ids printers))
  ∧ (ids (persisted printers (Final.printer_delete printers id))
     = filter (λ x, x ≠ id) (ids printers)
     ∧ ids (persisted printers (Stable.printer_delete printers id))
       = filter (λ x, x ≠ id) (ids printers)).
Proof.
  intros Hnd.
  assert (Hpush : NoDup (ids printers) → Printer.id p ∉ ids printers →
                  NoDup (ids (printers ++ [p]))).
  { intros _ Hnew. rewrite fmap_app. apply NoDup_app. split; [done|]. split.
    - intros y Hy Hp. apply list_elem_of_singleton in Hp. by subst.
    - apply NoDup_singleton. }
  assert (Hdel : NoDup (ids (filter (other_id id) printers))).
  { apply (sublist_NoDup _ (ids printers) Hnd).
    apply fmap_sublist, sublist_filter. }
  split; [split; [|split; [|by split]]|split; [|split]].
  - destruct (list_find (same_id p) printers) as [[i x]|] eqn:Hf.
    + rewrite (Final_save_existing _ _ _ _ Hf). unfold persisted. simpl.
      apply list_find_Some in Hf as (Hl & Hx & _). by rewrite (ids_after_replace _ _ _ _ Hl Hx).
    + destruct (Final_save_new_cases _ _ Hf) as [-> | [msg ->]]; unfold persisted; simpl;
        [|done]. apply Hpush; [done|]. by apply list_find_None_ids.
  - destruct (list_find (same_id p) printers) as [[i x]|] eqn:Hf.
    + rewrite (Stable_save_existing _ _ _ _ Hf). unfold persisted. simpl.
      apply list_find_Some in Hf as (Hl & Hx & _). by rewrite (ids_after_replace _ _ _ _ Hl Hx).
    + rewrite (Stable_save_new _ _ Hf). unfold persisted. simpl.
      apply Hpush; [done|]. by apply list_find_None_ids.
  - intros Hin. apply list_elem_of_fmap in Hin as (x & Hid & Hx).
    destruct (list_find_elem_of (same_id p) printers x Hx (eq_sym Hid)) as [[i y] Hf].
    rewrite (Final_save_existing _ _ _ _ Hf), (Stable_save_existing _ _ _ _ Hf).
    unfold persisted. simpl. apply list_find_Some in Hf as (Hl & Hy & _).
    by rewrite (ids_after_replace _ _ _ _ Hl Hy).
  - intros Hnew. apply list_find_new in Hnew. split; [|split].
    + rewrite (Stable_save_new _ _ Hnew). unfold persisted. simpl. by rewrite fmap_app.
    + intros Hc. rewrite (Final_save_new_appended _ _ Hnew Hc). unfold persisted. simpl.
      by rewrite fmap_app.
    + intros Hlim Hc.
      by destruct (Final_save_new_rejected printers p Hnew Hlim Hc) as [msg ->].
  - unfold persisted. simpl. by rewrite ids_filter.
Qed.

Lemma registry_ids_stay_unique_witness :
  NoDup (ids three_cashiers)
  ∧ NoDup (ids (persisted three_cashiers (Stable.printer_save three_cashiers bar_printer)))
  ∧ ids (persisted three_cashiers (Final.printer_delete three_cashiers "c2")) = ["c1"; "c3"].
Proof.
  assert (Hnd : NoDup (ids three_cashiers)) by by_evaluation.
  destruct (registry_ids_stay_unique three_cashiers bar_printer "c2" Hnd)
    as ((_ & Hsave & _) & _ & _ & Hdelete & _).
  split; [exact Hnd|]. split; [exact Hsave | exact Hdelete].
Defined.

(** X2. After a delete no record of the registry has the deleted id, so the
    printer is no longer found; deleting an id the registry does not hold, a
    second delete included, writes the registry back as it was and still
    answers success. *)
Theorem delete_removes_the_id (printers : list Printer.t) (id : string) :
  let left_over := persisted printers (Final.printer_delete printers id) in
  persisted printers (Stable.printer_delete printers id) = left_over
  ∧ (id ∉ ids left_over)
  ∧ Final.getPrinter left_over (Some id) = None
  ∧ (id ∉ ids printers →
     Final.printer_delete printers id = (saved, Some printers)
     ∧ Stable.printer_delete printers id = (saved, Some printers))
  ∧ Final.printer_delete left_over id = (saved, Some left_over).
Proof.
  cbv zeta. unfold persisted. simpl.
  assert (Hgone : id ∉ ids (filter (other_id id) printers)).
  { intros Hin. apply list_elem_of_fmap in Hin as (x & Hid & Hx).
    apply list_elem_of_filter in Hx as [Hne _]. by apply Hne. }
  assert (Hsame : ∀ l : list Printer.t, id ∉ ids l → filter (other_id id) l = l).
  { intros l Hl. induction l as [|x l IH]; [done|].
    rewrite fmap_cons, not_elem_of_cons in Hl. destruct Hl as [Hx Hl].
    rewrite filter_cons. destruct (decide _) as [_ | Hn]; [by rewrite IH|].
    exfalso. apply Hn. intros Heq. by apply Hx. }
  split; [done|]. split; [done|]. split; [|split].
  - apply js_find_None, Forall_forall. intros x Hx [[= Hid] _].
    apply Hgone. apply list_elem_of_fmap. by exists x.
  - intros Hnew. unfold Final.printer_delete, Stable.printer_delete.
    by rewrite Hsame.
  - unfold Final.printer_delete. by rewrite Hsame.
Qed.

Lemma delete_removes_the_id_witness :
  ("zz" ∉ ids three_cashiers)
  ∧ Final.printer_delete three_cashiers "zz" = (saved, Some three_cashiers).
Proof.
  assert (Hnew : "zz" ∉ ids three_cashiers) by by_evaluation.
  split; [exact Hnew|].
  destruct (delete_removes_the_id three_cashiers "zz") as (_ & _ & _ & Habsent & _).
  exact (proj1 (Habsent Hnew)).
Defined.

Lemma role_count_push (r : string) (l : list Printer.t) p :
  role_count r (l ++ [p])
  = (role_count r l + if decide (Printer.role p = r) then 1 else 0)%nat.
Proof.
  unfold role_count. rewrite filter_app, length_app, filter_cons, filter_nil.
  by destruct (decide _).
Qed.

Lemma env_role_count_push (r : option string) (registry : EnvFile.Registry)
    (k : string) (v : EnvFile.Obj) :
  env_role_count r (registry ++ [(k, v)])
  = (env_role_count r registry + if decide (EnvServer.role_of v = r) then 1 else 0)%nat.
Proof.
  unfold env_role_count. rewrite filter_app, length_app, filter_cons, filter_nil.
  cbn [snd]. by destruct (decide _).
Qed.

Lemma env_role_count_add_index (r : option string) (registry : EnvFile.Registry)
    (n : N) (k : string) (v : EnvFile.Obj) :
  env_role_count r (EnvFile.add_index registry n k v)
  = (env_role_count r registry + if decide (EnvServer.role_of v = r) then 1 else 0)%nat.
Proof.
  unfold env_role_count. induction registry as [|[k' v'] registry IH].
  - cbn [EnvFile.add_index]. rewrite filter_cons, filter_nil. cbn [snd].
    by destruct (decide _).
  - cbn [EnvFile.add_index].
    assert (Hfront : length (filter (λ kp : string * EnvFile.Obj, EnvServer.role_of kp.2 = r)
                               ((k, v) :: (k', v') :: registry))
                     = (length (filter (λ kp : string * EnvFile.Obj,
                                          EnvServer.role_of kp.2 = r)
                                  ((k', v') :: registry))
                        + if decide (EnvServer.role_of v = r) then 1 else 0)%nat).
    { rewrite (filter_cons _ (k, v)). cbn [snd]. destruct (decide _); cbn [length]; lia. }
    destruct (EnvFile.array_index k') as [n'|]; [|exact Hfront].
    destruct (n' <? n)%N; [|exact Hfront].
    rewrite !(filter_cons _ (k', v')). cbn [snd].
    destruct (decide (EnvServer.role_of v' = r)); cbn [length]; rewrite IH; lia.
Qed.

Lemma env_role_count_set (r : option string) (registry : EnvFile.Registry)
    (k : string) (v : EnvFile.Obj) :
  k ∉ registry.*1 →
  env_role_count r (EnvFile.set registry k v)
  = (env_role_count r registry + if decide (EnvServer.role_of v = r) then 1 else 0)%nat.
Proof.
  intros Hk. unfold EnvFile.set. rewrite decide_False by done.
  destruct (EnvFile.array_index k);
    [apply env_role_count_add_index | apply env_role_count_push].
Qed.

Section QuotaInvariant.
Context {rt : JsRuntime}.

(** X3. A save of a new id never takes a limited role of src/server.js
    (CASHIER, KITCHEN) above three printers, nor any role of the printer.env
    server when the id names no member every object inherits: neither in
    the object handed to [savePrinters] nor, for a registry and a record the
    file keeps, in the registry the next request loads. A save of an id in
    the registry can: it is not checked, and turning a fourth printer into a
    cashier is written as it is; and in the printer.env server a fourth
    record of a role, saved under the name of an inherited member, passes
    the check and is handed to [savePrinters]. *)
Theorem new_id_saves_keep_the_quota (printers : list Printer.t) (p : Printer.t)
    (registry : EnvFile.Registry) (body : EnvFile.Obj) :
  Printer.id p ∉ ids printers →
  EnvServer.holds registry (env_key body) = false →
  (within_quota printers →
     within_quota (persisted printers (Final.printer_save printers p)))
  ∧ (env_within_quota registry →
     (∀ written, snd (EnvServer.printer_save registry body) = Some written →
        env_within_quota written)
     ∧ (registry_ok registry → printer_ok (env_key body, body) →
        env_within_quota (env_reloaded registry (EnvServer.printer_save registry body))))
  ∧ (within_quota three_cashiers_and_bar
     ∧ Printer.id bar_turned_cashier ∈ ids three_cashiers_and_bar
     ∧ role_count "CASHIER"
         (persisted three_cashiers_and_bar
            (Final.printer_save three_cashiers_and_bar bar_turned_cashier)) = 4%nat)
  ∧ (env_within_quota three_kitchen_env
     ∧ EnvFile.get three_kitchen_env "constructor" = None
     ∧ ∃ written,
         snd (EnvServer.printer_save three_kitchen_env
                (env_record "constructor" "KITCHEN" "enabled")) = Some written
         ∧ env_role_count (Some "KITCHEN") written = 4%nat).
Proof.
  intros Hnew Hfresh. apply list_find_new in Hnew. split; [|split; [|split]].
  - intros Hq r Hr.
    destruct (decide (Printer.role p = r ∧ 3 ≤ role_count r printers)%nat) as [[Hpr Hfull] | Hroom].
    + subst r. destruct (Final_save_new_rejected _ _ Hnew Hr Hfull) as [msg ->].
      unfold persisted. simpl. by apply Hq.
    + destruct (Final_save_new_cases _ _ Hnew) as [-> | [msg ->]]; unfold persisted; simpl;
        [|by apply Hq].
      rewrite role_count_push. specialize (Hq r Hr).
      destruct (decide (Printer.role p = r)); [|lia].
      assert (¬ (3 ≤ role_count r printers)%nat) by (intros ?; by apply Hroom). lia.
  - intros Hq.
    assert (Hown : EnvFile.get registry (env_key body) = None
                   ∧ env_key body ∉ inherited_names).
    { unfold EnvServer.holds in Hfresh. apply orb_false_iff in Hfresh as [Hget Hin].
      apply bool_decide_eq_false in Hget, Hin. split; [|done].
      destruct (EnvFile.get registry (env_key body)); [|done]. destruct Hget. eauto. }
    destruct Hown as [Hget Hown].
    assert (Hset : env_within_quota (EnvFile.set registry (env_key body) body)
                   ∨ (3 ≤ env_role_count (EnvServer.role_of body) registry)%nat).
    { destruct (decide (3 ≤ env_role_count (EnvServer.role_of body) registry)%nat)
        as [Hfull | Hroom]; [by right|]. left. intros r.
      rewrite env_role_count_set by by apply get_None_keys. specialize (Hq r).
      destruct (decide (EnvServer.role_of body = r)) as [<- | _]; lia. }
    split.
    + intros written Hw.
      destruct (decide (3 ≤ env_role_count (EnvServer.role_of body) registry)%nat)
        as [Hfull | Hroom].
      * by rewrite (Env_save_refused _ _ Hfresh Hfull) in Hw.
      * rewrite Env_save_stored in Hw by (right; lia). injection Hw as <-.
        rewrite Env_assign_own by done. destruct Hset as [Hset | Hfull]; [done | lia].
    + intros Hok Hbody.
      destruct (decide (3 ≤ env_role_count (EnvServer.role_of body) registry)%nat)
        as [Hfull | Hroom].
      * by rewrite (Env_save_refused _ _ Hfresh Hfull).
      * rewrite Env_reloaded_set by (done || right; lia).
        destruct Hset as [Hset | Hfull]; [done | lia].
  - split; [|split; [by_evaluation | reflexivity]].
    intros r [-> | ->]; vm_compute; lia.
  - split; [|split; [reflexivity | by eexists]].
    intros r. unfold env_role_count, three_kitchen_env, env_record.
    rewrite !filter_cons, filter_nil. repeat destruct (decide _); cbn [length]; lia.
Qed.

End QuotaInvariant.

Section QuotaExamples.
#[local] Existing Instance empty_documents_runtime.

Lemma new_id_saves_keep_the_quota_witness :
  ((Printer.id (printer "c4" "CASHIER" true) ∉ ids three_cashiers)
   ∧ EnvServer.holds three_kitchen_env (env_key (env_record "k4" "KITCHEN" "enabled")) = false)
  ∧ within_quota three_cashiers
  ∧ within_quota (persisted three_cashiers
                    (Final.printer_save three_cashiers (printer "c4" "CASHIER" true))).
Proof.
  assert (Hnew : Printer.id (printer "c4" "CASHIER" true) ∉ ids three_cashiers)
    by by_evaluation.
  assert (Hfresh : EnvServer.holds three_kitchen_env
                     (env_key (env_record "k4" "KITCHEN" "enabled")) = false)
    by reflexivity.
  assert (Hq : within_quota three_cashiers) by (intros r [-> | ->]; vm_compute; lia).
  split; [by split|]. split; [exact Hq|].
  exact (proj1 (new_id_saves_keep_the_quota three_cashiers (printer "c4" "CASHIER" true)
                  three_kitchen_env (env_record "k4" "KITCHEN" "enabled") Hnew Hfresh) Hq).
Defined.

End QuotaExamples.

(** X4. Saving the same record twice is saving it once: the second save of
    part_000 writes the registry the first one wrote, and so does the second
    save of src/server.js when the first one was accepted. *)
Theorem save_is_idempotent (printers written : list Printer.t) (p : Printer.t) :
  (Stable.printer_save (persisted printers (Stable.printer_save printers p)) p
   = (saved, Some (persisted printers (Stable.printer_save printers p))))
  ∧ (Final.printer_save printers p = (saved, Some written) →
     Final.printer_save written p = (saved, Some written)).
Proof.
  assert (Hagain : ∀ (l : list Printer.t) i, list_find (same_id p) l = Some (i, p) →
                   take i l ++ p :: drop (S i) l = l).
  { intros l i Hf. apply list_find_Some in Hf as (Hl & _). by apply take_drop_middle. }
  destruct (list_find (same_id p) printers) as [[i x]|] eqn:Hf.
  - pose proof (list_find_after_replace _ _ _ _ Hf) as Hf'. split.
    + rewrite (Stable_save_existing _ _ _ _ Hf). unfold persisted. simpl.
      rewrite (Stable_save_existing _ _ _ _ Hf'). by rewrite (Hagain _ _ Hf').
    + rewrite (Final_save_existing _ _ _ _ Hf). intros [= <-].
      rewrite (Final_save_existing _ _ _ _ Hf'). by rewrite (Hagain _ _ Hf').
  - pose proof (list_find_after_push _ _ Hf) as Hf'. split.
    + rewrite (Stable_save_new _ _ Hf). unfold persisted. simpl.
      rewrite (Stable_save_existing _ _ _ _ Hf'). by rewrite (Hagain _ _ Hf').
    + destruct (Final_save_new_cases _ _ Hf) as [-> | [msg ->]]; [|done].
      intros [= <-]. rewrite (Final_save_existing _ _ _ _ Hf'). by rewrite (Hagain _ _ Hf').
Qed.

Lemma save_is_idempotent_witness :
  Final.printer_save three_bars (printer "b4" "BAR" true)
  = (saved, Some (three_bars ++ [printer "b4" "BAR" true]))
  ∧ Final.printer_save (three_bars ++ [printer "b4" "BAR" true]) (printer "b4" "BAR" true)
    = (saved, Some (three_bars ++ [printer "b4" "BAR" true])).
Proof.
  assert (Hfirst : Final.printer_save three_bars (printer "b4" "BAR" true)
                   = (saved, Some (three_bars ++ [printer "b4" "BAR" true])))
    by reflexivity.
  split; [exact Hfirst|].
  exact (proj2 (save_is_idempotent three_bars _ (printer "b4" "BAR" true)) Hfirst).
Defined.

(** X5. A printer saved as enabled is the one the dispatcher of the same
    server resolves under its id right after the save: [getPrinter] and
    [/print] of src/server.js, and [/print] of part_000, hand the job to its
    connection. Saved as disabled it is not resolved and nothing is sent,
    given that the ids of the registry were distinct. *)
Theorem saved_printer_is_resolved (printers written : list Printer.t) (p : Printer.t) :
  snd (Final.printer_save printers p) = Some written
  ∨ snd (Stable.printer_save printers p) = Some written →
  (Printer.enabled p = true →
     Final.getPrinter written (Some (Printer.id p)) = Some p
     ∧ (∀ flag clients cid key text exec,
          Final.authCheck flag clients cid key = Pass None →
          snd (Final.print flag clients written cid key (Some (Printer.id p)) text exec)
          = [mkAttempt (Printer.connection p) [Println (default "" text); Cut]])
     ∧ (∀ body_id text exec, Printer.id p ≠ "" → text ≠ "" →
          snd (Stable.print written (Some (Printer.id p)) body_id (Some text) exec)
          = [Stable.printText p text]))
  ∧ (Printer.enabled p = false → NoDup (ids printers) →
     Final.getPrinter written (Some (Printer.id p)) = None
     ∧ (∀ flag clients cid key text exec,
          snd (Final.print flag clients written cid key (Some (Printer.id p)) text exec) = [])
     ∧ (∀ body_id text exec, Printer.id p ≠ "" → text ≠ "" →
          Stable.print written (Some (Printer.id p)) body_id (Some text) exec
          = (not_found, []))).
Proof.
  intros Hw.
  assert (Hfound : ∃ i, list_find (same_id p) written = Some (i, p)
                        ∧ ids written = ids printers ++
                            (if decide (Printer.id p ∈ ids printers) then [] else [Printer.id p])).
  { destruct (list_find (same_id p) printers) as [[i x]|] eqn:Hf.
    - exists i. assert (written = take i printers ++ p :: drop (S i) printers) as ->.
      { destruct Hw as [Hw | Hw].
        - rewrite (Final_save_existing _ _ _ _ Hf) in Hw. by injection Hw.
        - rewrite (Stable_save_existing _ _ _ _ Hf) in Hw. by injection Hw. }
      split; [exact (list_find_after_replace _ _ _ _ Hf)|].
      apply list_find_Some in Hf as (Hl & Hx & _).
      rewrite (ids_after_replace _ _ _ _ Hl Hx). rewrite decide_True; [by rewrite app_nil_r|].
      rewrite <- Hx. apply (list_elem_of_fmap_2 Printer.id printers x).
      by eapply list_elem_of_lookup_2.
    - exists (length printers). assert (written = printers ++ [p]) as ->.
      { destruct Hw as [Hw | Hw].
        - destruct (Final_save_new_cases _ _ Hf) as [Hs | [msg Hs]];
            rewrite Hs in Hw; [by injection Hw | done].
        - rewrite (Stable_save_new _ _ Hf) in Hw. by injection Hw. }
      split; [exact (list_find_after_push _ _ Hf)|].
      rewrite decide_False by by apply list_find_None_ids. by rewrite fmap_app. }
  destruct Hfound as (i & Hf & Hids). apply list_find_Some in Hf as (Hi & _ & Hbefore).
  assert (Hstable : ∀ body_id text exec, Printer.id p ≠ "" → text ≠ "" →
            Stable.print written (Some (Printer.id p)) body_id (Some text) exec
            = match Final.getPrinter written (Some (Printer.id p)) with
              | None => (not_found, [])
              | Some printer =>
                  (match exec with
                   | Executed => json [("success", JVBool true);
                                       ("message", JVStr "Printed successfully");
                                       ("printerId", JVStr (Printer.id p))]
                   | ExecFailed message => error_json 500 message
                   end, [Stable.printText printer text])
              end).
  { intros body_id text exec Hid Htext. apply Stable_print_present; [|done|done].
    unfold Stable_requested. simpl. by rewrite bool_decide_false. }
  split.
  - intros He.
    assert (Hget : Final.getPrinter written (Some (Printer.id p)) = Some p).
    { unfold Final.getPrinter, js_find.
      rewrite (proj2 (list_find_Some _ written i p)); [done|].
      split; [done|]. split; [split; [done | by rewrite He]|].
      intros j y Hj Hlt [[= Hy] _]. by apply (Hbefore j y). }
    split; [done|]. split.
    + intros flag clients cid key text exec Hauth. unfold Final.print.
      rewrite Hauth, Hget. by destruct exec.
    + intros body_id text exec Hid Htext. by rewrite Hstable, Hget.
  - intros He Hnd.
    assert (Hget : Final.getPrinter written (Some (Printer.id p)) = None).
    { apply js_find_None, Forall_forall. intros y Hy [[= Hid] Hen].
      assert (Hndw : NoDup (ids written)).
      { rewrite Hids. destruct (decide _) as [|Hnew]; [by rewrite app_nil_r|].
        apply NoDup_app. split; [done|]. split; [|apply NoDup_singleton].
        intros z Hz Hp%list_elem_of_singleton. by subst. }
      apply list_elem_of_lookup in Hy as [j Hj].
      assert (j = i) as ->.
      { eapply NoDup_lookup; [exact Hndw | |].
        - by rewrite list_lookup_fmap, Hj.
        - by rewrite list_lookup_fmap, Hi, Hid. }
      rewrite Hi in Hj. injection Hj as <-. by rewrite He in Hen. }
    split; [done|]. split.
    + intros flag clients cid key text exec. unfold Final.print.
      destruct (Final.authCheck _ _ _ _); [by rewrite Hget | done].
    + intros body_id text exec Hid Htext. by rewrite Hstable, Hget.
Qed.

Lemma saved_printer_is_resolved_witness :
  snd (Stable.printer_save three_cashiers bar_printer) = Some (three_cashiers ++ [bar_printer])
  ∧ Printer.enabled bar_printer = true
  ∧ Final.getPrinter (three_cashiers ++ [bar_printer]) (Some "x1") = Some bar_printer
  ∧ snd (Stable.print (three_cashiers ++ [bar_printer]) (Some "x1") None (Some "hello")
           Executed)
    = [Stable.printText bar_printer "hello"].
Proof.
  assert (Hw : snd (Stable.printer_save three_cashiers bar_printer)
               = Some (three_cashiers ++ [bar_printer])) by reflexivity.
  assert (He : Printer.enabled bar_printer = true) by reflexivity.
  assert (Hid : Printer.id bar_printer ≠ "") by discriminate.
  assert (Htext : "hello" ≠ "") by discriminate.
  split; [exact Hw|]. split; [exact He|].
  destruct (proj1 (saved_printer_is_resolved three_cashiers _ bar_printer (or_intror Hw)) He)
    as (Hget & _ & Hprint).
  split; [exact Hget | exact (Hprint None "hello" Executed Hid Htext)].
Defined.

(** ** The printer.env server *)

Lemma get_filter_other {V} (o : list (string * V)) (k other : string) :
  other ≠ k → EnvFile.get (filter (λ kp, kp.1 ≠ k) o) other = EnvFile.get o other.
Proof.
  intros Hne. induction o as [|[k' v'] o IH]; [done|]. rewrite filter_cons. cbn [fst].
  destruct (decide (k' ≠ k)) as [Hk | Hk].
  - destruct (decide (k' = other)) as [-> | Ho].
    + by rewrite !get_cons_eq.
    + by rewrite !get_cons_ne.
  - apply dec_stable in Hk. subst k'. by rewrite get_cons_ne.
Qed.

Lemma get_filter_gone {V} (o : list (string * V)) (k : string) :
  EnvFile.get (filter (λ kp, kp.1 ≠ k) o) k = None.
Proof.
  apply get_absent. intros Hin. apply list_elem_of_fmap in Hin as ([k' v] & -> & Hin).
  apply list_elem_of_filter in Hin as [Hne _]. by apply Hne.
Qed.

Lemma filter_absent {V} (o : list (string * V)) (k : string) :
  k ∉ o.*1 → filter (λ kp, kp.1 ≠ k) o = o.
Proof.
  induction o as [|[k' v'] o IH]; [done|]. rewrite fmap_cons, not_elem_of_cons.
  intros [Hne Ho]. rewrite filter_cons_True by (by intros Heq; apply Hne). by rewrite IH.
Qed.

Lemma get_push_other {V} (o : list (string * V)) (k other : string) (v : V) :
  other ≠ k → EnvFile.get (o ++ [(k, v)]) other = EnvFile.get o other.
Proof.
  intros Hne. induction o as [|[k' v'] o IH].
  - cbn [app]. by rewrite get_cons_ne.
  - change (((k', v') :: o) ++ [(k, v)]) with ((k', v') :: (o ++ [(k, v)])).
    destruct (decide (k' = other)) as [-> | Ho].
    + by rewrite !get_cons_eq.
    + by rewrite !get_cons_ne.
Qed.

Section EnvFrame.
Context {rt : JsRuntime}.

Lemma registry_ok_filter (registry : EnvFile.Registry) (k : string) :
  registry_ok registry → registry_ok (filter (λ kp, kp.1 ≠ k) registry).
Proof.
  intros [Hnd Hok]. split.
  - apply (sublist_NoDup _ registry.*1 Hnd), fmap_sublist, sublist_filter.
  - apply Forall_forall. intros kp [_ Hkp]%list_elem_of_filter.
    by eapply Forall_forall in Hok.
Qed.

Lemma Env_reloaded_delete (registry : EnvFile.Registry) (id : option string) :
  registry_ok registry →
  env_reloaded registry (EnvServer.printer_delete registry id)
  = filter (λ kp, kp.1 ≠ EnvServer.key_of id) registry.
Proof.
  intros Hok. unfold env_reloaded, EnvServer.printer_delete. cbn [snd].
  by apply load_saved_ok, registry_ok_filter.
Qed.

Lemma Env_save_accepted (registry : EnvFile.Registry) (body : EnvFile.Obj) :
  snd (EnvServer.printer_save registry body) ≠ None →
  EnvServer.holds registry (env_key body) = true
  ∨ (env_role_count (EnvServer.role_of body) registry < 3)%nat.
Proof.
  intros Hw. destruct (EnvServer.holds registry (env_key body)) eqn:Hholds; [by left|].
  right. destruct (decide (3 ≤ env_role_count (EnvServer.role_of body) registry)%nat)
    as [Hfull | Hroom]; [|lia].
  by rewrite (Env_save_refused _ _ Hholds Hfull) in Hw.
Qed.

(** X6. In the printer.env server a save and a delete touch the record of
    their id only, in the registry the next request loads from the file, for
    a registry and a body of those the file keeps: every other id reads as
    before; after an accepted save the id reads the supplied body, after a
    delete it reads nothing, and deleting an id the registry does not hold
    leaves the registry as it was, so that a delete after the save of a new
    id gives the registry back. *)
Theorem env_save_delete_frame (registry : EnvFile.Registry) (body : EnvFile.Obj)
    (id : option string) (other : string) :
  registry_ok registry →
  let deleted := env_reloaded registry (EnvServer.printer_delete registry id) in
  let saved := env_reloaded registry (EnvServer.printer_save registry body) in
  (fst (EnvServer.printer_delete registry id) = stored
   ∧ EnvFile.get deleted (EnvServer.key_of id) = None
   ∧ (other ≠ EnvServer.key_of id → EnvFile.get deleted other = EnvFile.get registry other)
   ∧ (EnvFile.get registry (EnvServer.key_of id) = None → deleted = registry))
  ∧ (printer_ok (env_key body, body) → snd (EnvServer.printer_save registry body) ≠ None →
     EnvFile.get saved (env_key body) = Some body
     ∧ (other ≠ env_key body → EnvFile.get saved other = EnvFile.get registry other)
     ∧ (EnvFile.get registry (env_key body) = None →
        env_reloaded saved (EnvServer.printer_delete saved (EnvServer.id_of body))
        = registry)).
Proof.
  intros Hok. cbv zeta. split.
  - rewrite (Env_reloaded_delete _ _ Hok). split; [done|].
    split; [apply get_filter_gone|]. split; [apply get_filter_other|].
    intros Hnone. by apply filter_absent, get_None_keys.
  - intros Hbody Hw. apply Env_save_accepted in Hw.
    rewrite (Env_reloaded_set _ _ Hok Hbody Hw).
    assert (Hplain : EnvFile.array_index (env_key body) = None).
    { destruct Hbody as [Hplain _]. by apply plain_name_no_index. }
    split; [apply get_set|]. split.
    + intros Hne. unfold EnvFile.set.
      destruct (decide (env_key body ∈ registry.*1)); [by apply get_replace_ne|].
      rewrite Hplain. by apply get_push_other.
    + intros Hnew. apply get_None_keys in Hnew.
      rewrite (Env_reloaded_delete _ _ (registry_ok_set _ _ _ Hok Hbody)).
      fold (env_key body). rewrite (set_absent _ _ _ Hnew Hplain).
      rewrite filter_app, (filter_absent _ _ Hnew).
      rewrite filter_cons_False by (by intros Hne). by rewrite filter_nil, app_nil_r.
Qed.

End EnvFrame.

Section EnvFrameExamples.
#[local] Existing Instance empty_documents_runtime.

Lemma env_save_delete_frame_witness :
  (registry_ok three_kitchen_env
   ∧ printer_ok ("k2", env_record "k2" "KITCHEN" "disabled")
   ∧ "k1" ≠ "k2")
  ∧ EnvFile.get
      (env_reloaded three_kitchen_env
         (EnvServer.printer_save three_kitchen_env (env_record "k2" "KITCHEN" "disabled")))
      "k2"
    = Some (env_record "k2" "KITCHEN" "disabled")
  ∧ EnvFile.get
      (env_reloaded three_kitchen_env
         (EnvServer.printer_save three_kitchen_env (env_record "k2" "KITCHEN" "disabled")))
      "k1"
    = Some (env_record "k1" "KITCHEN" "enabled")
  ∧ env_reloaded three_kitchen_env (EnvServer.printer_delete three_kitchen_env (Some "k9"))
    = three_kitchen_env.
Proof.
  assert (Hok : registry_ok three_kitchen_env) by registry_ok_by_evaluation.
  assert (Hbody : printer_ok ("k2", env_record "k2" "KITCHEN" "disabled"))
    by printer_ok_by_evaluation.
  assert (Hne : "k1" ≠ "k2") by discriminate.
  assert (Hw : snd (EnvServer.printer_save three_kitchen_env
                      (env_record "k2" "KITCHEN" "disabled")) ≠ None) by discriminate.
  split; [exact (conj Hok (conj Hbody Hne))|].
  destruct (env_save_delete_frame three_kitchen_env (env_record "k2" "KITCHEN" "disabled")
              (Some "k9") "k1" Hok) as ((_ & _ & _ & Habsent) & Hsave).
  destruct (Hsave Hbody Hw) as (Hself & Hother & _).
  split; [exact Hself|]. split; [exact (Hother Hne) | exact (Habsent eq_refl)].
Defined.

End EnvFrameExamples.



(** ** Print jobs *)

Section Jobs.
Context {rt : JsRuntime}.

Lemma count_cuts_app (l k : list Command) :
  count_cuts (l ++ k) = (count_cuts l + count_cuts k)%nat.
Proof. unfold count_cuts. by rewrite filter_app, length_app. Qed.

Lemma count_cuts_when (c : bool) (line : string) :
  count_cuts (Core.when c [Println line]) = 0%nat.
Proof. by destruct c. Qed.

Lemma count_cuts_rows {A} (f : nat → A → list Cell) (l : list A) :
  count_cuts (imap (λ i x, TableCustom (f i x)) l) = 0%nat.
Proof.
  revert f. induction l as [|x l IH]; intros f; [done|].
  simpl. unfold count_cuts in *. rewrite filter_cons_False by done. apply (IH (f ∘ S)).
Qed.

Lemma printInvoice_cut (data : Core.Invoice) :
  last (Core.printInvoice data) = Some Cut ∧ count_cuts (Core.printInvoice data) = 1%nat.
Proof.
  unfold Core.printInvoice. split.
  - rewrite !app_assoc. by rewrite last_app.
  - rewrite !count_cuts_app, !count_cuts_when, count_cuts_rows. reflexivity.
Qed.

(** X8. Every job a [/print] handler hands to [execute()] ends with the cut
    command and holds no other cut: in src/server.js, in part_000 and in the
    first program of src/core/server.js, for a text as for an invoice. *)
Theorem print_jobs_end_with_one_cut (clients : list Client.t) (printers : list Printer.t)
    flag cid key printerId body_id text connected body exec (a : Attempt) :
  a ∈ snd (Final.print flag clients printers cid key printerId text exec)
  ∨ a ∈ snd (Stable.print printers printerId body_id text exec)
  ∨ a ∈ snd (Core.print printers printerId connected body exec) →
  last (buffer a) = Some Cut ∧ count_cuts (buffer a) = 1%nat.
Proof.
  intros [Ha | [Ha | Ha]].
  - unfold Final.print in Ha. destruct (Final.authCheck _ _ _ _); [|by apply elem_of_nil in Ha].
    destruct (Final.getPrinter _ _); [|by apply elem_of_nil in Ha].
    destruct exec; apply list_elem_of_singleton in Ha as ->; done.
  - unfold Stable.print in Ha. destruct (_ || _); [by apply elem_of_nil in Ha|].
    destruct (js_find _ printers); [|by apply elem_of_nil in Ha].
    destruct exec; apply list_elem_of_singleton in Ha as ->; done.
  - unfold Core.print in Ha. destruct (header_falsy _); [by apply elem_of_nil in Ha|].
    destruct (js_find _ printers); [|by apply elem_of_nil in Ha].
    destruct connected; [|by apply elem_of_nil in Ha]. simpl in Ha.
    destruct (truthy (Core.isInvoice body)).
    + destruct exec; apply list_elem_of_singleton in Ha as ->; apply printInvoice_cut.
    + destruct (truthy (Core.text body)); [|by apply elem_of_nil in Ha].
      destruct exec; apply list_elem_of_singleton in Ha as ->; done.
Qed.

(** X9. A [/print] handler hands at most one job to the printer, and answers
    with status 200 exactly when it handed one over and [execute()] resolved;
    a refused, unresolved or unsupported request hands over nothing. *)
Theorem print_success_means_executed (clients : list Client.t) (printers : list Printer.t)
    flag cid key printerId body_id text connected body exec :
  let final := Final.print flag clients printers cid key printerId text exec in
  let stable := Stable.print printers printerId body_id text exec in
  let core := Core.print printers printerId connected body exec in
  ((length (snd final) ≤ 1)%nat
   ∧ (status (fst final) = 200 ↔ exec = Executed ∧ snd final ≠ []))
  ∧ ((length (snd stable) ≤ 1)%nat
     ∧ (status (fst stable) = 200 ↔ exec = Executed ∧ snd stable ≠ []))
  ∧ ((length (snd core) ≤ 1)%nat
     ∧ (status (fst core) = 200 ↔ exec = Executed ∧ snd core ≠ [])).
Proof.
  cbv zeta.
  assert (Hnone : ∀ (r : Response), status r ≠ 200 →
            (0 ≤ 1)%nat ∧ (status r = 200 ↔ exec = Executed ∧ @nil Attempt ≠ [])).
  { intros r Hr. split; [lia|]. split; [done | by intros [_ ?]]. }
  assert (Hsent : ∀ (ok : Response) (a : Attempt), status ok = 200 →
            let r := match exec with
                     | Executed => (ok, [a])
                     | ExecFailed message => (error_json 500 message, [a])
                     end in
            (length (snd r) ≤ 1)%nat
            ∧ (status (fst r) = 200 ↔ exec = Executed ∧ snd r ≠ [])).
  { intros ok a Hok. destruct exec; simpl; (split; [lia|]).
    - split; [by intros _ | done].
    - split; [done | by intros [? _]]. }
  split; [|split].
  - unfold Final.print. destruct (Final.authCheck _ _ _ _) as [c|r] eqn:Hauth.
    + destruct (Final.getPrinter _ _); [by apply Hsent | by apply Hnone].
    + apply Hnone. unfold Final.authCheck in Hauth. destruct (negb flag); [done|].
      destruct (js_find _ clients); [done|]. by injection Hauth as <-.
  - unfold Stable.print. destruct (_ || _); [by apply Hnone|].
    destruct (js_find _ printers); [by apply Hsent | by apply Hnone].
  - unfold Core.print. destruct (header_falsy _); [by apply Hnone|].
    destruct (js_find _ printers); [|by apply Hnone].
    destruct connected; [|by apply Hnone]. simpl.
    destruct (truthy (Core.isInvoice body)); [by apply Hsent|].
    destruct (truthy (Core.text body)); [by apply Hsent | by apply Hnone].
Qed.

(** X10. In the first program of src/core/server.js the invoice marker
    decides before the text: a job handed over is the rendered invoice when
    [isInvoiceData.isInvoice] is truthy, whatever [text] holds, and otherwise
    the text line and the cut, which requires a truthy [text]. *)
Theorem print_mode_is_invoice_first (printers : list Printer.t)
    printerId connected (body : Core.Payload) exec (a : Attempt) :
  a ∈ snd (Core.print printers printerId connected body exec) →
  (truthy (Core.isInvoice body) = true →
     buffer a = Core.printInvoice (Core.invoice body)
     ∧ (exec = Executed →
        fst (Core.print printers printerId connected body exec)
        = json [("success", JVBool true); ("mode", JVStr "invoice")]))
  ∧ (truthy (Core.isInvoice body) = false →
     truthy (Core.text body) = true
     ∧ buffer a = [Println (js_String (Core.text body)); Cut]
     ∧ (exec = Executed →
        fst (Core.print printers printerId connected body exec)
        = json [("success", JVBool true); ("mode", JVStr "text")])).
Proof.
  unfold Core.print. destruct (header_falsy _); [by intros ?%elem_of_nil|].
  destruct (js_find _ printers); [|by intros ?%elem_of_nil].
  destruct connected; [|by intros ?%elem_of_nil]. simpl.
  destruct (truthy (Core.isInvoice body)).
  - intros Ha. split; [|done]. intros _.
    destruct exec; apply list_elem_of_singleton in Ha as ->; by split.
  - destruct (truthy (Core.text body)); [|by intros ?%elem_of_nil].
    intros Ha. split; [done|]. intros _.
    destruct exec; apply list_elem_of_singleton in Ha as ->; by repeat split.
Qed.

(** X11. An invoice is eighteen commands, one more for each optional field
    that is present (place, phone and tax id of the first company, party of
    the bill) and one for each item; a missing optional field leaves no line
    behind. The first text line is the name of the first company, or COMPANY
    when there is no company or no name. *)
Theorem invoice_omits_absent_lines (data : Core.Invoice) :
  length (Core.printInvoice data)
  = (18 + optional_lines data + length (Core.table data))%nat
  ∧ Core.printInvoice data !! 2%nat
    = Some (Println
              (match head (Core.company data) with
               | Some comp => if truthy (Core.Name comp) then js_String (Core.Name comp)
                              else "COMPANY"
               | None => "COMPANY"
               end)).
Proof.
  split.
  - unfold Core.printInvoice, optional_lines. rewrite !length_app, length_imap.
    set (comp := default _ _). rewrite !filter_cons, filter_nil. cbn beta.
    destruct (truthy (Core.Place comp)), (truthy (Core.Ph comp)), (truthy (Core.gst comp)),
      (truthy (Core.BillPartyName (Core.master data))); simpl; lia.
  - unfold Core.printInvoice. simpl. unfold js_or.
    destruct (head (Core.company data)) as [comp|]; simpl; [|done].
    by destruct (truthy (Core.Name comp)).
Qed.

End Jobs.

Lemma print_jobs_end_with_one_cut_witness :
  mkAttempt (Printer.connection front_desk) [Println "hello"; Cut]
  ∈ snd (Stable.print [front_desk] (Some "p1") None (Some "hello") Executed)
  ∧ last (buffer (mkAttempt (Printer.connection front_desk) [Println "hello"; Cut])) = Some Cut.
Proof.
  assert (Ha : mkAttempt (Printer.connection front_desk) [Println "hello"; Cut]
               ∈ snd (Stable.print [front_desk] (Some "p1") None (Some "hello") Executed))
    by (vm_compute; constructor).
  split; [exact Ha|].
  exact (proj1 (print_jobs_end_with_one_cut (rt := empty_documents_runtime)
                  [] [front_desk] false None None (Some "p1") None (Some "hello") true
                  (text_payload "hello") Executed _ (or_intror (or_introl Ha)))).
Defined.

Lemma print_mode_is_invoice_first_witness :
  mkAttempt (Printer.connection front_desk) [Println "hello"; Cut]
  ∈ snd (Core.print (rt := empty_documents_runtime) [front_desk] (Some "P1") true
           (text_payload "hello") Executed)
  ∧ truthy (Core.isInvoice (text_payload "hello")) = false
  ∧ fst (Core.print (rt := empty_documents_runtime) [front_desk] (Some "P1") true
           (text_payload "hello") Executed)
    = json [("success", JVBool true); ("mode", JVStr "text")].
Proof.
  assert (Ha : mkAttempt (Printer.connection front_desk) [Println "hello"; Cut]
               ∈ snd (Core.print (rt := empty_documents_runtime) [front_desk] (Some "P1") true
                        (text_payload "hello") Executed)) by (vm_compute; constructor).
  assert (Hi : truthy (Core.isInvoice (text_payload "hello")) = false) by reflexivity.
  split; [exact Ha|]. split; [exact Hi|].
  destruct (print_mode_is_invoice_first [front_desk] (Some "P1") true
              (text_payload "hello") Executed _ Ha) as [_ Htext].
  destruct (Htext Hi) as (_ & _ & Hmode). exact (Hmode eq_refl).
Defined.

(** X12. The test print of part_000 answers [printed: true] exactly when an
    enabled printer has the requested id, the probe found it online and
    [execute()] resolved to a truthy value; a printer that is missing,
    disabled or offline is handed nothing, and the test page handed over
    names the printer and the server and ends with the cut. *)
Theorem test_print_reports_what_happened (SERVER_ID now : string)
    (printers : list Printer.t) (printerId : option string) (online : bool)
    (exec : StableTest.ExecResult) :
  let reply := StableTest.printer_test SERVER_ID printers printerId online now exec in
  let wanted := js_find (λ p, Some (Printer.id p) = printerId ∧ Printer.enabled p) printers in
  (fst reply = json [("success", JVBool true); ("printed", JVBool true)]
   ↔ is_Some wanted ∧ online = true ∧ exec = StableTest.Resolved true)
  ∧ (status (fst reply) = 200 ∨ status (fst reply) = 404 ∨ status (fst reply) = 500)
  ∧ (wanted = None ∨ online = false → snd reply = [])
  ∧ (∀ a, a ∈ snd reply →
       ∃ p, wanted = Some p ∧ target a = Printer.connection p
            ∧ Println ("Server : " +:+ SERVER_ID) ∈ buffer a
            ∧ Println ("Printer: " +:+ default "undefined" (Printer.name p)) ∈ buffer a
            ∧ last (buffer a) = Some Cut).
Proof.
  cbv zeta. unfold StableTest.printer_test.
  destruct (js_find _ printers) as [p|]; simpl.
  - destruct online; simpl.
    + destruct exec as [[|]|message]; simpl.
      * split; [split; [by intros _ | done]|]. split; [by left|].
        split; [by intros [? | ?]|]. intros a ->%list_elem_of_singleton.
        exists p. simpl. split; [done|]. split; [done|]. set_solver.
      * split; [split; [done | by intros (_ & _ & ?)]|]. split; [by right; right|].
        split; [by intros [? | ?]|]. intros a ->%list_elem_of_singleton.
        exists p. simpl. split; [done|]. split; [done|]. set_solver.
      * split; [split; [done | by intros (_ & _ & ?)]|]. split; [by right; right|].
        split; [by intros [? | ?]|]. intros a ->%list_elem_of_singleton.
        exists p. simpl. split; [done|]. split; [done|]. set_solver.
    + split; [split; [done | by intros (_ & ? & _)]|]. split; [by right; right|].
      split; [done|]. by intros a ?%elem_of_nil.
  - split; [split; [done | by intros ([? ?] & _)]|]. split; [by right; left|].
    split; [done|]. by intros a ?%elem_of_nil.
Qed.

Lemma test_print_reports_what_happened_witness :
  (js_find (λ p, Some (Printer.id p) = Some "p2" ∧ Printer.enabled p)
     [front_desk; back_office_disabled] = None)
  ∧ StableTest.printer_test "srv-1a2b3c4d" [front_desk; back_office_disabled] (Some "p2")
      true "5/3/2024, 10:15:00 AM" (StableTest.Resolved true)
    = (error_json 404 "Printer not found", []).
Proof.
  assert (Hnone : js_find (λ p, Some (Printer.id p) = Some "p2" ∧ Printer.enabled p)
                    [front_desk; back_office_disabled] = None) by reflexivity.
  split; [exact Hnone|].
  destruct (test_print_reports_what_happened "srv-1a2b3c4d" "5/3/2024, 10:15:00 AM"
              [front_desk; back_office_disabled] (Some "p2") true (StableTest.Resolved true))
    as (_ & _ & Hnothing & _).
  pose proof (Hnothing (or_introl Hnone)) as Hsent.
  destruct (StableTest.printer_test _ _ _ _ _ _) as [r sent] eqn:Hr.
  simpl in Hsent. subst sent. vm_compute in Hr. by injection Hr as <-.
Defined.

(** ** The probes, whatever the connection meets *)

(** X13. The probe of part_000 leaves its promise pending as long as the
    connection has met nothing; from the first happening on, whatever
    follows, the promise holds [true] for a handshake and [false] otherwise,
    [resolve] has been called exactly once, and the socket is destroyed and
    closed. *)
Theorem stable_probe_resolves_once (hs : list Socket.happening) :
  let st := Stable.isPrinterOnline hs in
  (hs = [] → Socket.promise st = None ∧ Socket.resolve_calls st = 0%nat)
  ∧ (∀ h rest, hs = h :: rest →
       Socket.promise st = Some (bool_decide (h = Socket.Handshake))
       ∧ Socket.resolve_calls st = 1%nat
       ∧ Socket.destroyed st = true ∧ Socket.closed st = true).
Proof.
  cbv zeta. split.
  - by intros ->.
  - intros h rest ->. apply Stable_probe_settles.
Qed.

Lemma stable_probe_resolves_once_witness :
  Socket.promise (Stable.isPrinterOnline [Socket.Idle; Socket.Handshake]) = Some false
  ∧ Socket.resolve_calls (Stable.isPrinterOnline [Socket.Idle; Socket.Handshake]) = 1%nat.
Proof.
  destruct (stable_probe_resolves_once [Socket.Idle; Socket.Handshake]) as [_ Hsettled].
  destruct (Hsettled Socket.Idle [Socket.Handshake] eq_refl) as (Hp & Hc & _).
  split; [exact Hp | exact Hc].
Defined.

Lemma Socket_run_cons listener (h : Socket.happening) (hs : list Socket.happening)
    (st : Socket.state) :
  Socket.run listener (h :: hs) st
  = Socket.run listener hs (Socket.emit listener (Socket.event_of h) st).
Proof. done. Qed.

Lemma Core_probe_from (st : Socket.state) (hs : list Socket.happening) :
  st = Socket.fresh [Socket.connect; Socket.error; Socket.timeout]
  ∨ st = Socket.mk false [Socket.connect; Socket.error] false false (Some false) 1 →
  let final := Socket.run Core.isPrinterOnline_listener hs st in
  (Socket.destroyed final = true ↔ ¬ idle_only hs)
  ∧ (Socket.closed final = Socket.destroyed final)
  ∧ (Socket.resolve_calls final ≤ 2)%nat.
Proof.
  revert st. induction hs as [|h hs IH]; intros st Hst.
  - cbv zeta. unfold Socket.run. simpl.
    destruct Hst as [-> | ->]; simpl; (split; [|split; [done | lia]]);
      (split; [done | intros Hn; destruct Hn; constructor]).
  - cbv zeta. rewrite Socket_run_cons.
    destruct (decide (h = Socket.Idle)) as [-> | Hh].
    + assert (Hnext : Socket.emit Core.isPrinterOnline_listener Socket.timeout st
                      = Socket.mk false [Socket.connect; Socket.error] false false
                          (Some false) 1) by (destruct Hst as [-> | ->]; reflexivity).
      simpl. rewrite Hnext.
      destruct (IH _ (or_intror eq_refl)) as (Hd & Hc & Hr).
      split; [|by split]. rewrite Hd. unfold idle_only. rewrite Forall_cons.
      split; [by intros Hn [_ ?] | intros Hn Hi; by apply Hn].
    + set (st' := Socket.emit _ _ st).
      assert (Hclosed : Socket.closed st' = true ∧ Socket.destroyed st' = true
                        ∧ (Socket.resolve_calls st' ≤ 2)%nat).
      { unfold st'. destruct Hst as [-> | ->]; destruct h; try done; vm_compute; repeat split; lia. }
      destruct Hclosed as (Hc & Hd & Hr). rewrite Socket_run_closed by done.
      split; [|by rewrite Hc, Hd].
      split; [|done]. intros _ Hi. apply Forall_cons in Hi as [? _]. done.
Qed.

(** X14. The probe of the first program of src/core/server.js destroys its
    socket exactly when the connection meets something other than the
    time-out: after time-outs only, however many, the socket is neither
    destroyed nor closed. Whatever happens, [resolve] is called at most
    twice and the promise keeps the value of the first call. *)
Theorem core_probe_closes_unless_idle (hs : list Socket.happening) :
  let st := Core.isPrinterOnline hs in
  (Socket.destroyed st = true ↔ ¬ idle_only hs)
  ∧ Socket.closed st = Socket.destroyed st
  ∧ (Socket.resolve_calls st ≤ 2)%nat
  ∧ (∀ h rest, hs = h :: rest →
       Socket.promise st = Some (bool_decide (h = Socket.Handshake))).
Proof.
  cbv zeta.
  destruct (Core_probe_from _ hs (or_introl eq_refl)) as (Hd & Hc & Hr).
  split; [exact Hd|]. split; [exact Hc|]. split; [exact Hr|].
  intros h rest ->. apply Core_probe_first_wins.
Qed.

Lemma core_probe_closes_unless_idle_witness :
  Socket.promise (Core.isPrinterOnline [Socket.Idle; Socket.Refused]) = Some false
  ∧ Socket.destroyed (Core.isPrinterOnline [Socket.Idle; Socket.Refused]) = true.
Proof.
  destruct (core_probe_closes_unless_idle [Socket.Idle; Socket.Refused])
    as (Hd & _ & _ & Hp).
  split; [exact (Hp _ _ eq_refl)|].
  apply Hd. intros Hi. apply Forall_cons in Hi as [_ Hi].
  apply Forall_cons in Hi as [Hr _]. discriminate Hr.
Defined.

(** ** Reading and the server identifier *)

Section SafeRead.
Context {rt : JsRuntime}.

(** X15. [safeRead] gives the fallback for a file that is absent or does not
    parse (in part_000 also for a blank file, before any parsing) and the
    parsed document otherwise; so the list operations of both stores of
    part_000 and of the first program of src/core/server.js give the empty
    collection for such a file. *)
Theorem safeRead_falls_back_or_parses (file : File) (fallback : Json) :
  (unreadable file →
     Stable.safeRead file fallback = fallback
     ∧ Stable.loadPrinters file = Returned (Some (JsonArr []))
     ∧ Stable.loadClients file = Returned (Some (JsonArr [])))
  ∧ (∀ content doc, file = Some content → js_trim content ≠ "" →
       JSON_parse (js_trim content) = Some doc → Stable.safeRead file fallback = doc)
  ∧ (file = None ∨ (∃ content, file = Some content ∧ JSON_parse content = None) →
     Core.safeRead file fallback = fallback
     ∧ Core.loadPrinters file = Returned (JsonArr [])
     ∧ Core.loadClients file = JsonArr [])
  ∧ (∀ content doc, file = Some content → JSON_parse content = Some doc →
       Core.safeRead file fallback = doc).
Proof.
  split; [|split; [|split]].
  - intros Hfile. split; [by apply Stable_safeRead_unreadable|].
    by apply Stable_list_degrades.
  - intros content doc -> Hblank Hdoc. unfold Stable.safeRead.
    rewrite bool_decide_false by done. by rewrite Hdoc.
  - intros Hfile. split; [|by apply Core_list_degrades].
    destruct Hfile as [-> | (content & -> & Hbad)]; [done|].
    unfold Core.safeRead. by rewrite Hbad.
  - intros content doc -> Hdoc. unfold Core.safeRead. by rewrite Hdoc.
Qed.

(** X16. The guard of [safeRead] ends with the parse: when the file holds the
    document [null], [loadPrinters] throws a TypeError in both programs;
    when it holds an object without a [printers] field, [loadPrinters] of
    part_000 gives [undefined] where that of src/core/server.js gives the
    empty array. *)
Theorem loadPrinters_beyond_the_guard (content : string) (fields : list (string * Json)) :
  js_trim content ≠ "" →
  (JSON_parse (js_trim content) = Some JsonNull →
     Stable.loadPrinters (Some content) = Threw "TypeError")
  ∧ (JSON_parse content = Some JsonNull →
     Core.loadPrinters (Some content) = Threw "TypeError")
  ∧ ("printers" ∉ fields.*1 →
     (JSON_parse (js_trim content) = Some (JsonObj fields) →
        Stable.loadPrinters (Some content) = Returned None)
     ∧ (JSON_parse content = Some (JsonObj fields) →
        Core.loadPrinters (Some content) = Returned (JsonArr []))).
Proof.
  intros Hblank.
  assert (Hmissing : "printers" ∉ fields.*1 →
            js_find (λ kv : string * Json, kv.1 = "printers") fields = None).
  { intros Hno. apply js_find_None, Forall_forall. intros kv Hkv Hk.
    apply Hno. rewrite <- Hk. by apply list_elem_of_fmap_2. }
  split; [|split; [|intros Hno; split]].
  - intros Hdoc. unfold Stable.loadPrinters, Stable.safeRead.
    rewrite bool_decide_false by done. by rewrite Hdoc.
  - intros Hdoc. unfold Core.loadPrinters, Core.safeRead. by rewrite Hdoc.
  - intros Hdoc. unfold Stable.loadPrinters, Stable.safeRead.
    rewrite bool_decide_false by done. rewrite Hdoc. simpl. by rewrite Hmissing.
  - intros Hdoc. unfold Core.loadPrinters, Core.safeRead. rewrite Hdoc. simpl.
    by rewrite Hmissing.
Qed.

End SafeRead.

Section SafeReadExamples.
#[local] Existing Instance empty_documents_runtime.

Lemma safeRead_falls_back_or_parses_witness :
  unreadable (Some "{oops")
  ∧ Stable.loadClients (Some "{oops") = Returned (Some (JsonArr [])).
Proof.
  assert (Hfile : unreadable (Some "{oops")).
  { right. exists "{oops". split; [reflexivity|]. right. reflexivity. }
  split; [exact Hfile|].
  destruct (safeRead_falls_back_or_parses (Some "{oops") JsonNull) as [Hbad _].
  exact (proj2 (proj2 (Hbad Hfile))).
Defined.

Lemma loadPrinters_beyond_the_guard_witness :
  (js_trim "null" ≠ "" ∧ JSON_parse (js_trim "null") = Some JsonNull)
  ∧ Stable.loadPrinters (Some "null") = Threw "TypeError".
Proof.
  assert (Hblank : js_trim "null" ≠ "") by (vm_compute; discriminate).
  assert (Hdoc : JSON_parse (js_trim "null") = Some JsonNull) by reflexivity.
  split; [by split|].
  exact (proj1 (loadPrinters_beyond_the_guard "null" [] Hblank) Hdoc).
Defined.

End SafeReadExamples.

Lemma rev_app_rev_app (s1 s2 s3 : string) :
  String.rev_app (String.rev_app s1 s2) s3 = String.rev_app s2 (s1 +:+ s3).
Proof.
  revert s2. induction s1 as [|c s1 IH]; intros s2; [done|].
  cbn [String.rev_app]. rewrite IH. done.
Qed.

Lemma rev_app_append (s acc : string) :
  String.rev_app s acc = String.rev s +:+ acc.
Proof.
  unfold String.rev. revert acc. induction s as [|c s IH]; intros acc; [done|].
  cbn [String.rev_app]. rewrite IH, (IH (String c "")). by rewrite append_assoc.
Qed.

Lemma rev_append (s1 s2 : string) :
  String.rev (s1 +:+ s2) = String.rev s2 +:+ String.rev s1.
Proof.
  induction s1 as [|c s1 IH]; [by rewrite append_empty_r|].
  rewrite append_String. unfold String.rev at 1 3. cbn [String.rev_app].
  rewrite !rev_app_append, IH. by rewrite append_assoc.
Qed.

Lemma rev_rev (s : string) : String.rev (String.rev s) = s.
Proof. unfold String.rev. by rewrite rev_app_rev_app, append_empty_r. Qed.

Lemma no_space_rev_app (s1 s2 : string) :
  no_space (String.rev_app s1 s2) = no_space s1 && no_space s2.
Proof.
  revert s2. induction s1 as [|c s1 IH]; intros s2; [done|].
  cbn [String.rev_app no_space]. rewrite IH. cbn [no_space].
  destruct (negb (js_space c)), (no_space s1); done.
Qed.

Lemma all_space_rev_app (s1 s2 : string) :
  all_space (String.rev_app s1 s2) = all_space s1 && all_space s2.
Proof.
  revert s2. induction s1 as [|c s1 IH]; intros s2; [done|].
  cbn [String.rev_app all_space]. rewrite IH. cbn [all_space].
  destruct (js_space c), (all_space s1); done.
Qed.

Lemma trim_start_no_space (s rest : string) :
  no_space s = true → s ≠ "" → trim_start (s +:+ rest) = s +:+ rest.
Proof.
  destruct s as [|c s]; [done|]. cbn [no_space]. intros Hs _.
  rewrite append_String. cbn [trim_start]. by destruct (js_space c).
Qed.

Lemma trim_start_all_space (lead s : string) :
  all_space lead = true → trim_start (lead +:+ s) = trim_start s.
Proof.
  induction lead as [|c lead IH]; [done|]. cbn [all_space].
  intros [Hc Hlead]%andb_true_iff. rewrite append_String. cbn [trim_start].
  rewrite Hc. by apply IH.
Qed.

(** [trim] removes the white space around a text that holds none. *)
Lemma trim_ascii_padded (lead core trail : string) :
  all_space lead = true → all_space trail = true → no_space core = true →
  trim_ascii (lead +:+ core +:+ trail) = core.
Proof.
  intros Hlead Htrail Hcore. unfold trim_ascii.
  rewrite (trim_start_all_space lead _ Hlead).
  destruct (decide (core = "")) as [-> | Hne].
  - change ("" +:+ trail) with trail.
    rewrite <- (append_empty_r trail), (trim_start_all_space trail "" Htrail). done.
  - rewrite (trim_start_no_space core trail Hcore Hne), rev_append.
    rewrite trim_start_all_space.
    2:{ unfold String.rev. by rewrite all_space_rev_app, Htrail. }
    rewrite <- (append_empty_r (String.rev core)), trim_start_no_space.
    + by rewrite append_empty_r, rev_rev.
    + unfold String.rev. by rewrite no_space_rev_app, Hcore.
    + intros Hrev. apply Hne. by rewrite <- (rev_rev core), Hrev.
Qed.

Lemma is_ascii_all_space (s : string) : all_space s = true → is_ascii s = true.
Proof.
  induction s as [|c s IH]; [done|]. cbn [all_space is_ascii].
  intros [Hc Hs]%andb_true_iff. rewrite (IH Hs), andb_true_r.
  revert Hc. destruct c as [[] [] [] [] [] [] [] []]; by vm_compute.
Qed.

Lemma all_hex_plain (s : string) :
  all_hex s = true → is_ascii s = true ∧ no_space s = true.
Proof.
  induction s as [|c s IH]; [done|]. cbn [all_hex is_ascii no_space].
  intros [Hc Hs]%andb_true_iff. destruct (IH Hs) as [-> ->]. rewrite !andb_true_r.
  revert Hc. destruct c as [[] [] [] [] [] [] [] []]; by vm_compute.
Qed.

Section ServerId.
Context {rt : JsRuntime}.

(** X17. [getServerId] of part_000 creates the identifier once: with no file
    it writes srv- followed by the random hex text and returns it, and every
    later call returns that same identifier and leaves the file as it is.
    With a file it never writes, and white space around an ASCII text that
    holds none, such as the line end an editor leaves, is not part of the
    identifier it returns. *)
Theorem server_id_is_created_once (random_hex later_hex : string) :
  all_hex random_hex = true →
  let first := StableId.getServerId None random_hex in
  first = ("srv-" +:+ random_hex, Some ("srv-" +:+ random_hex))
  ∧ StableId.getServerId (snd first) later_hex = first
  ∧ (∀ lead core trail,
       all_space lead = true → all_space trail = true →
       is_ascii core = true → no_space core = true →
       StableId.getServerId (Some (lead +:+ core +:+ trail)) later_hex
       = (core, Some (lead +:+ core +:+ trail))).
Proof.
  intros Hhex. cbv zeta. split; [done|].
  assert (Hpadded : ∀ lead core trail,
            all_space lead = true → all_space trail = true →
            is_ascii core = true → no_space core = true →
            StableId.getServerId (Some (lead +:+ core +:+ trail)) later_hex
            = (core, Some (lead +:+ core +:+ trail))).
  { intros lead core trail Hlead Htrail Hascii Hcore. unfold StableId.getServerId.
    rewrite js_trim_ascii.
    - by rewrite trim_ascii_padded.
    - by rewrite !is_ascii_append, Hascii, !is_ascii_all_space. }
  split; [|exact Hpadded].
  destruct (all_hex_plain _ Hhex) as [Hascii Hplain].
  cbn [StableId.getServerId snd].
  pose proof (Hpadded "" ("srv-" +:+ random_hex) "") as Hsame.
  rewrite append_empty_r in Hsame. by apply Hsame.
Qed.

End ServerId.

Section ServerIdExamples.
#[local] Existing Instance empty_documents_runtime.

Lemma server_id_is_created_once_witness :
  all_hex "9f8e7d6c" = true
  ∧ StableId.getServerId (snd (StableId.getServerId None "9f8e7d6c")) "00000000"
    = ("srv-9f8e7d6c", Some "srv-9f8e7d6c")
  ∧ StableId.getServerId (Some (String "032" (String "010" ""))) "00000000"
    = ("", Some (String "032" (String "010" ""))).
Proof.
  assert (Hhex : all_hex "9f8e7d6c" = true) by reflexivity.
  destruct (server_id_is_created_once "9f8e7d6c" "00000000" Hhex) as (_ & Hlater & Hpadded).
  split; [exact Hhex|]. split; [exact Hlater|].
  exact (Hpadded (String "032" (String "010" "")) "" "" eq_refl eq_refl eq_refl eq_refl).
Defined.

End ServerIdExamples.

(** ** The gates compared *)

(** X18. With the flag on and both credentials present, the gate of the
    first program of src/core/server.js lets through exactly the requests
    the gate of src/server.js lets through, and every request the gate of
    part_000 lets through; when the ids of the clients are distinct the gate
    of part_000 lets through the same requests as the two others. *)
Theorem gates_agree_on_distinct_ids (clients : list Client.t) (cid key : option string) :
  header_falsy cid || header_falsy key = false →
  (passes (Core.authRequired true clients cid key)
   ↔ passes (Final.authCheck true clients cid key))
  ∧ (passes (Stable.authRequired true clients cid key)
     → passes (Core.authRequired true clients cid key))
  ∧ (NoDup (Client.id <$> clients) →
     passes (Core.authRequired true clients cid key)
     → passes (Stable.authRequired true clients cid key)).
Proof.
  intros Hm.
  assert (Hcore : passes (Core.authRequired true clients cid key)
                  ↔ ∃ c, c ∈ clients ∧ Some (Client.id c) = cid ∧ Some (Client.pin c) = key
                         ∧ Client.truthy_enabled c = true).
  { unfold Core.authRequired. simpl. rewrite Hm.
    destruct (js_find _ clients) as [c|] eqn:Hf.
    - split; [|by intros _; exists None]. intros _.
      apply js_find_Some_elem in Hf as (Hc & Hid & Hpin & He).
      exists c. repeat split; try done. by apply Is_true_true.
    - split; [by intros [? ?]|]. intros (c & Hc & Hid & Hpin & He).
      apply js_find_None in Hf. rewrite Forall_forall in Hf.
      exfalso. apply (Hf c Hc). repeat split; try done. by apply Is_true_true. }
  assert (Hfinal : passes (Final.authCheck true clients cid key)
                   ↔ ∃ c, c ∈ clients ∧ Some (Client.id c) = cid ∧ Some (Client.pin c) = key
                          ∧ Client.truthy_enabled c = true).
  { destruct (Final_auth_cases clients cid key) as [Hcases Hiff]. rewrite <- Hiff.
    split; [|by intros ->; exists None]. intros [c Hc].
    destruct Hcases as [Hp | Hd]; [done | by rewrite Hd in Hc]. }
  rewrite (Stable_auth_present _ _ _ Hm).
  split; [by rewrite Hcore, Hfinal|]. split.
  - intros [client Hpass]. apply Hcore.
    destruct (js_find _ clients) as [c|] eqn:Hf; [|done].
    apply js_find_Some_elem in Hf as (Hc & Hid).
    destruct (Client.truthy_enabled c) eqn:He; [|done]. simpl in Hpass.
    destruct (decide (Some (Client.pin c) ≠ key)) as [Hp | Hp].
    + by rewrite bool_decide_true in Hpass.
    + exists c. repeat split; try done. by destruct (decide (Some (Client.pin c) = key)).
  - intros Hnd Hpass. apply Hcore in Hpass as (c & Hc & Hid & Hpin & He).
    destruct (js_find _ clients) as [c'|] eqn:Hf.
    + apply js_find_Some_elem in Hf as (Hc' & Hid').
      assert (c' = c) as ->.
      { apply list_elem_of_lookup in Hc as [i Hi]. apply list_elem_of_lookup in Hc' as [j Hj].
        assert (j = i) as ->.
        { eapply NoDup_lookup; [exact Hnd | |].
          - by rewrite list_lookup_fmap, Hj.
          - rewrite list_lookup_fmap, Hi. simpl. congruence. }
        congruence. }
      rewrite He. simpl. rewrite bool_decide_false by (by intros Hne). by exists (Some c).
    + apply js_find_None in Hf. rewrite Forall_forall in Hf. by destruct (Hf c Hc).
Qed.

Lemma gates_agree_on_distinct_ids_witness :
  (header_falsy (Some "clt-a1b2c3") || header_falsy (Some "123456") = false
   ∧ NoDup (Client.id <$> [bob_disabled; alice]))
  ∧ passes (Final.authCheck true [bob_disabled; alice] (Some "clt-a1b2c3") (Some "123456"))
  ∧ passes (Stable.authRequired true [bob_disabled; alice] (Some "clt-a1b2c3") (Some "123456")).
Proof.
  assert (Hm : header_falsy (Some "clt-a1b2c3") || header_falsy (Some "123456") = false)
    by reflexivity.
  assert (Hnd : NoDup (Client.id <$> [bob_disabled; alice])) by by_evaluation.
  assert (Hfinal : passes (Final.authCheck true [bob_disabled; alice]
                             (Some "clt-a1b2c3") (Some "123456")))
    by (exists None; reflexivity).
  split; [by split|]. split; [exact Hfinal|].
  destruct (gates_agree_on_distinct_ids [bob_disabled; alice] (Some "clt-a1b2c3")
              (Some "123456") Hm) as (Hsame & _ & Hstable).
  apply (Hstable Hnd), Hsame, Hfinal.
Defined.

(** ** The test print of the printer.env server *)



